(** * Flow-record lifecycle and ClickHouse batch export (antrea)

    A shallow embedding of

    - [pkg/flowaggregator/clickhouseclient/clickhouseclient.go]
      (ingestion buffer, batch committer, DSN handling),
    - [pkg/flowaggregator/options/options.go] ([LoadConfig]),
    - the denied-connection store exercised by
      [pkg/agent/flowexporter/connections/deny_connections_test.go],

    followed by the properties stated about them. *)

From Stdlib Require Import ZArith Ascii String List Lia Bool.
From stdpp Require Import base option list gmap strings fin_maps.

Import ListNotations.
Local Open Scope string_scope.
Local Open Scope list_scope.
Local Open Scope Z_scope.

(** ** Go outcomes

    A Go call either returns or panics.  Functions with an [error] result
    return a value paired with [option Error] ([None] is [nil]). *)

Inductive Go (A : Type) : Type :=
| Ret (a : A)
| Panic (msg : string).
Arguments Ret {A} a.
Arguments Panic {A} msg.

Definition bindGo {A B : Type} (m : Go A) (k : A -> Go B) : Go B :=
  match m with
  | Ret a => k a
  | Panic msg => Panic msg
  end.

Notation "x <~ m ;; k" := (bindGo m (fun x => k))
  (at level 100, m at next level, right associativity, only parsing).

Definition returns {A : Type} (m : Go A) : Prop := exists a, m = Ret a.
Definition panics {A : Type} (m : Go A) : Prop := exists msg, m = Panic msg.

(** [error] values; [Errorf] carries the formatted message. *)
Inductive Error : Type :=
| Errorf (msg : string)
| DriverError (msg : string).

(** ** Go library interfaces used by the sources *)

Module GoStrings.

(** [strings.Split(s, sep)] for a one-byte separator: the pieces of [s]
    between occurrences of [sep]; always at least one piece. *)
Fixpoint Split (s : string) (sep : ascii) : list string :=
  match s with
  | EmptyString => [EmptyString]
  | String c s' =>
      if Ascii.eqb c sep then EmptyString :: Split s' sep
      else match Split s' sep with
           | piece :: rest => String c piece :: rest
           | [] => [String c EmptyString]
           end
  end.

(** [c] does not occur in [s]. *)
Fixpoint lacks (c : ascii) (s : string) : bool :=
  match s with
  | EmptyString => true
  | String d s' => negb (Ascii.eqb d c) && lacks c s'
  end.

(** [strings.Count(s, c)] for a one-byte pattern. *)
Fixpoint Count (s : string) (c : ascii) : nat :=
  match s with
  | EmptyString => O
  | String d s' => ((if Ascii.eqb d c then 1 else 0) + Count s' c)%nat
  end.

(** [strings.TrimSpace] on ASCII white space. *)
Definition isSpace (c : ascii) : bool :=
  let n := nat_of_ascii c in
  Nat.eqb n 32 || Nat.eqb n 9 || Nat.eqb n 10 || Nat.eqb n 13.

Fixpoint TrimLeft (s : string) : string :=
  match s with
  | EmptyString => EmptyString
  | String c s' => if isSpace c then TrimLeft s' else s
  end.

Fixpoint TrimRight (s : string) : string :=
  match s with
  | EmptyString => EmptyString
  | String c s' =>
      match TrimRight s' with
      | EmptyString => if isSpace c then EmptyString else String c EmptyString
      | t => String c t
      end
  end.

Definition TrimSpace (s : string) : string := TrimRight (TrimLeft s).

End GoStrings.

Module GoTime.

(** [time.Time] as seconds and nanoseconds since the Unix epoch;
    [time.Duration] is a count of nanoseconds. *)
Record Time : Type := mkTime { sec : Z; nsec : Z }.

Definition Duration : Type := Z.
Definition Second : Duration := 1000000000.

(** The zero [Time] is January 1, year 1, 00:00:00 UTC. *)
Definition zero : Time := {| sec := -62135596800; nsec := 0 |}.

(** [time.Unix(sec, nsec)] with [nsec] outside [0, 1e9) normalised. *)
Definition Unix (s n : Z) : Time :=
  {| sec := s + n / 1000000000; nsec := n mod 1000000000 |}.

Inductive Ticker : Type :=
| TickerRunning (period : Duration)
| TickerStopped.

(** [time.NewTicker(d)] and [t.Reset(d)] panic unless [d] is positive. *)
Definition NewTicker (d : Duration) : Go Ticker :=
  if d <=? 0 then Panic "non-positive interval for NewTicker"
  else Ret (TickerRunning d).

Definition Reset (d : Duration) (t : Ticker) : Go Ticker :=
  if d <=? 0 then Panic "non-positive interval for Ticker.Reset"
  else Ret (TickerRunning d).

End GoTime.

(** [database/sql]: the database answers each call with success or an
    error; the answer may depend on everything it was asked before.  The
    history of calls is the only state observed. *)
Module GoSql.

Inductive Arg : Type :=
| ArgTime (t : GoTime.Time)
| ArgUint8 (n : Z)
| ArgUint16 (n : Z)
| ArgUint64 (n : Z)
| ArgString (s : string).

Inductive Call : Type :=
| CallBegin
| CallPrepare (query : string)
| CallExec (args : list Arg)
| CallCommit
| CallRollback.

Abbreviation Answer := (option Error).

Record DB : Type := mkDB {
  answer : list (Call * Answer) -> Call -> Answer;
  history : list (Call * Answer)
}.

Definition perform (c : Call) (d : DB) : Answer * DB :=
  let a := answer d (history d) c in
  (a, {| answer := answer d; history := history d ++ [(c, a)] |}).

(** A database that accepts every call, and a database after further
    calls all answered with success. *)
Definition alwaysSucceeds (d : DB) : Prop :=
  forall (h : list (Call * Answer)) (c : Call), answer d h c = None.

Definition succeeded (calls : list Call) (d : DB) : DB :=
  {| answer := answer d;
     history := history d ++ map (fun c => (c, None)) calls |}.

(** A [*sql.Tx] / [*sql.Stmt]: [None] is the nil pointer. *)
Inductive TxHandle : Type := TxOpen.
Inductive StmtHandle : Type := StmtOf (query : string).

(** [db.Begin()]: a nil transaction comes with every error. *)
Definition Begin (d : DB) : (option TxHandle * Answer) * DB :=
  let '(a, d') := perform CallBegin d in
  match a with
  | None => ((Some TxOpen, None), d')
  | Some e => ((None, Some e), d')
  end.

(** [tx.Prepare(query)], [stmt.Exec(args...)], [tx.Commit()] on non-nil
    receivers. *)
Definition Prepare (query : string) (d : DB) : (option StmtHandle * Answer) * DB :=
  let '(a, d') := perform (CallPrepare query) d in
  match a with
  | None => ((Some (StmtOf query), None), d')
  | Some e => ((None, Some e), d')
  end.

Definition Exec (args : list Arg) (d : DB) : Answer * DB :=
  perform (CallExec args) d.

Definition Commit (d : DB) : Answer * DB := perform CallCommit d.

(** [tx.Rollback()] reads a field of its receiver first, so it panics on
    the nil transaction. *)
Definition Rollback (tx : option TxHandle) (d : DB) : Go (Answer * DB) :=
  match tx with
  | None => Panic "invalid memory address or nil pointer dereference"
  | Some _ => Ret (perform CallRollback d)
  end.

(** Rows made durable by a history: those executed successfully inside a
    transaction that was then committed successfully. *)
Fixpoint durableFrom (pending durable : list (list Arg))
    (h : list (Call * Answer)) : list (list Arg) :=
  match h with
  | [] => durable
  | (CallBegin, None) :: h' => durableFrom [] durable h'
  | (CallExec args, None) :: h' => durableFrom (pending ++ [args]) durable h'
  | (CallCommit, None) :: h' => durableFrom [] (durable ++ pending) h'
  | (CallRollback, _) :: h' => durableFrom [] durable h'
  | _ :: h' => durableFrom pending durable h'
  end.

Definition durable (d : DB) : list (list Arg) := durableFrom [] [] (history d).

End GoSql.

(** [github.com/gammazero/deque]: a double-ended queue, front first. *)
Module GoDeque.

Section Deque.
Context {A : Type}.

Definition Len (d : list A) : Z := Z.of_nat (length d).

Definition PushBack (x : A) (d : list A) : list A := d ++ [x].

Definition PopFront (d : list A) : Go (A * list A) :=
  match d with
  | [] => Panic "deque: PopFront() called on empty queue"
  | x :: d' => Ret (x, d')
  end.

Definition At (d : list A) (i : Z) : Go A :=
  if (i <? 0) || (Len d <=? i) then Panic "deque: At() called with index out of range"
  else match d !! Z.to_nat i with
       | Some x => Ret x
       | None => Panic "deque: At() called with index out of range"
       end.

End Deque.

End GoDeque.

(** [github.com/vmware/go-ipfix/pkg/entities]: the interfaces [Set],
    [Record] and [InfoElementWithValue], and [net.IP] with its [String]. *)
Class IpfixEntities : Type := {
  IpfixSet : Type;
  IpfixRecord : Type;
  InfoElementWithValue : Type;
  IP : Type;
  IP_String : IP -> string;
  GetRecords : IpfixSet -> list IpfixRecord;
  GetInfoElementWithValue : IpfixRecord -> string -> option InfoElementWithValue;
  GetUnsigned8Value : InfoElementWithValue -> Z;
  GetUnsigned16Value : InfoElementWithValue -> Z;
  GetUnsigned32Value : InfoElementWithValue -> Z;
  GetUnsigned64Value : InfoElementWithValue -> Z;
  GetStringValue : InfoElementWithValue -> string;
  GetIPAddressValue : InfoElementWithValue -> IP
}.

Module clickhouseclient.

Definition maxQueueSize : Z := Z.shiftl 1 19.

Definition insertQuery : string := "INSERT INTO flows (
                   flowStartSeconds,
                   flowEndSeconds,
                   flowEndSecondsFromSourceNode,
                   flowEndSecondsFromDestinationNode,
                   flowEndReason,
                   sourceIP,
                   destinationIP,
                   sourceTransportPort,
                   destinationTransportPort,
                   protocolIdentifier,
                   packetTotalCount,
                   octetTotalCount,
                   packetDeltaCount,
                   octetDeltaCount,
                   reversePacketTotalCount,
                   reverseOctetTotalCount,
                   reversePacketDeltaCount,
                   reverseOctetDeltaCount,
                   sourcePodName,
                   sourcePodNamespace,
                   sourceNodeName,
                   destinationPodName,
                   destinationPodNamespace,
                   destinationNodeName,
                   destinationClusterIP,
                   destinationServicePort,
                   destinationServicePortName,
                   ingressNetworkPolicyName,
                   ingressNetworkPolicyNamespace,
                   ingressNetworkPolicyRuleName,
                   ingressNetworkPolicyRuleAction,
                   ingressNetworkPolicyType,
                   egressNetworkPolicyName,
                   egressNetworkPolicyNamespace,
                   egressNetworkPolicyRuleName,
                   egressNetworkPolicyRuleAction,
                   egressNetworkPolicyType,
                   tcpState,
                   flowType,
                   sourcePodLabels,
                   destinationPodLabels,
                   throughput,
                   reverseThroughput,
                   throughputFromSourceNode,
                   throughputFromDestinationNode,
                   reverseThroughputFromSourceNode,
                   reverseThroughputFromDestinationNode) 
                   VALUES (?, ?, ?, ?, ?, ?, ?, ?, ?, ?, ?, ?, ?, ?, ?, ?, ?, ?, ?, ?, ?, ?, ?, ?, 
                           ?, ?, ?, ?, ?, ?, ?, ?, ?, ?, ?, ?, ?, ?, ?, ?, ?, ?, ?, ?, ?, ?, ?)".

Record ClickHouseFlowRow : Type := mkClickHouseFlowRow {
  flowStartSeconds : GoTime.Time;
  flowEndSeconds : GoTime.Time;
  flowEndSecondsFromSourceNode : GoTime.Time;
  flowEndSecondsFromDestinationNode : GoTime.Time;
  flowEndReason : Z;
  sourceIP : string;
  destinationIP : string;
  sourceTransportPort : Z;
  destinationTransportPort : Z;
  protocolIdentifier : Z;
  packetTotalCount : Z;
  octetTotalCount : Z;
  packetDeltaCount : Z;
  octetDeltaCount : Z;
  reversePacketTotalCount : Z;
  reverseOctetTotalCount : Z;
  reversePacketDeltaCount : Z;
  reverseOctetDeltaCount : Z;
  sourcePodName : string;
  sourcePodNamespace : string;
  sourceNodeName : string;
  destinationPodName : string;
  destinationPodNamespace : string;
  destinationNodeName : string;
  destinationClusterIP : string;
  destinationServicePort : Z;
  destinationServicePortName : string;
  ingressNetworkPolicyName : string;
  ingressNetworkPolicyNamespace : string;
  ingressNetworkPolicyRuleName : string;
  ingressNetworkPolicyRuleAction : Z;
  ingressNetworkPolicyType : Z;
  egressNetworkPolicyName : string;
  egressNetworkPolicyNamespace : string;
  egressNetworkPolicyRuleName : string;
  egressNetworkPolicyRuleAction : Z;
  egressNetworkPolicyType : Z;
  tcpState : string;
  flowType : Z;
  sourcePodLabels : string;
  destinationPodLabels : string;
  throughput : Z;
  reverseThroughput : Z;
  throughputFromSourceNode : Z;
  throughputFromDestinationNode : Z;
  reverseThroughputFromSourceNode : Z;
  reverseThroughputFromDestinationNode : Z
}.

(** The fields of [ClickHouseFlowRow] by name, so that the argument list of
    [stmt.Exec] can be compared with the columns of [insertQuery]. *)
Inductive Field : Type :=
| F_flowStartSeconds
| F_flowEndSeconds
| F_flowEndSecondsFromSourceNode
| F_flowEndSecondsFromDestinationNode
| F_flowEndReason
| F_sourceIP
| F_destinationIP
| F_sourceTransportPort
| F_destinationTransportPort
| F_protocolIdentifier
| F_packetTotalCount
| F_octetTotalCount
| F_packetDeltaCount
| F_octetDeltaCount
| F_reversePacketTotalCount
| F_reverseOctetTotalCount
| F_reversePacketDeltaCount
| F_reverseOctetDeltaCount
| F_sourcePodName
| F_sourcePodNamespace
| F_sourceNodeName
| F_destinationPodName
| F_destinationPodNamespace
| F_destinationNodeName
| F_destinationClusterIP
| F_destinationServicePort
| F_destinationServicePortName
| F_ingressNetworkPolicyName
| F_ingressNetworkPolicyNamespace
| F_ingressNetworkPolicyRuleName
| F_ingressNetworkPolicyRuleAction
| F_ingressNetworkPolicyType
| F_egressNetworkPolicyName
| F_egressNetworkPolicyNamespace
| F_egressNetworkPolicyRuleName
| F_egressNetworkPolicyRuleAction
| F_egressNetworkPolicyType
| F_tcpState
| F_flowType
| F_sourcePodLabels
| F_destinationPodLabels
| F_throughput
| F_reverseThroughput
| F_throughputFromSourceNode
| F_throughputFromDestinationNode
| F_reverseThroughputFromSourceNode
| F_reverseThroughputFromDestinationNode.

Definition fieldName (f : Field) : string :=
  match f with
  | F_flowStartSeconds => "flowStartSeconds"
  | F_flowEndSeconds => "flowEndSeconds"
  | F_flowEndSecondsFromSourceNode => "flowEndSecondsFromSourceNode"
  | F_flowEndSecondsFromDestinationNode => "flowEndSecondsFromDestinationNode"
  | F_flowEndReason => "flowEndReason"
  | F_sourceIP => "sourceIP"
  | F_destinationIP => "destinationIP"
  | F_sourceTransportPort => "sourceTransportPort"
  | F_destinationTransportPort => "destinationTransportPort"
  | F_protocolIdentifier => "protocolIdentifier"
  | F_packetTotalCount => "packetTotalCount"
  | F_octetTotalCount => "octetTotalCount"
  | F_packetDeltaCount => "packetDeltaCount"
  | F_octetDeltaCount => "octetDeltaCount"
  | F_reversePacketTotalCount => "reversePacketTotalCount"
  | F_reverseOctetTotalCount => "reverseOctetTotalCount"
  | F_reversePacketDeltaCount => "reversePacketDeltaCount"
  | F_reverseOctetDeltaCount => "reverseOctetDeltaCount"
  | F_sourcePodName => "sourcePodName"
  | F_sourcePodNamespace => "sourcePodNamespace"
  | F_sourceNodeName => "sourceNodeName"
  | F_destinationPodName => "destinationPodName"
  | F_destinationPodNamespace => "destinationPodNamespace"
  | F_destinationNodeName => "destinationNodeName"
  | F_destinationClusterIP => "destinationClusterIP"
  | F_destinationServicePort => "destinationServicePort"
  | F_destinationServicePortName => "destinationServicePortName"
  | F_ingressNetworkPolicyName => "ingressNetworkPolicyName"
  | F_ingressNetworkPolicyNamespace => "ingressNetworkPolicyNamespace"
  | F_ingressNetworkPolicyRuleName => "ingressNetworkPolicyRuleName"
  | F_ingressNetworkPolicyRuleAction => "ingressNetworkPolicyRuleAction"
  | F_ingressNetworkPolicyType => "ingressNetworkPolicyType"
  | F_egressNetworkPolicyName => "egressNetworkPolicyName"
  | F_egressNetworkPolicyNamespace => "egressNetworkPolicyNamespace"
  | F_egressNetworkPolicyRuleName => "egressNetworkPolicyRuleName"
  | F_egressNetworkPolicyRuleAction => "egressNetworkPolicyRuleAction"
  | F_egressNetworkPolicyType => "egressNetworkPolicyType"
  | F_tcpState => "tcpState"
  | F_flowType => "flowType"
  | F_sourcePodLabels => "sourcePodLabels"
  | F_destinationPodLabels => "destinationPodLabels"
  | F_throughput => "throughput"
  | F_reverseThroughput => "reverseThroughput"
  | F_throughputFromSourceNode => "throughputFromSourceNode"
  | F_throughputFromDestinationNode => "throughputFromDestinationNode"
  | F_reverseThroughputFromSourceNode => "reverseThroughputFromSourceNode"
  | F_reverseThroughputFromDestinationNode => "reverseThroughputFromDestinationNode"
  end.

(** [record.f] as a statement argument. *)
Definition fieldValue (f : Field) (record : ClickHouseFlowRow) : GoSql.Arg :=
  match f with
  | F_flowStartSeconds => GoSql.ArgTime (flowStartSeconds record)
  | F_flowEndSeconds => GoSql.ArgTime (flowEndSeconds record)
  | F_flowEndSecondsFromSourceNode => GoSql.ArgTime (flowEndSecondsFromSourceNode record)
  | F_flowEndSecondsFromDestinationNode => GoSql.ArgTime (flowEndSecondsFromDestinationNode record)
  | F_flowEndReason => GoSql.ArgUint8 (flowEndReason record)
  | F_sourceIP => GoSql.ArgString (sourceIP record)
  | F_destinationIP => GoSql.ArgString (destinationIP record)
  | F_sourceTransportPort => GoSql.ArgUint16 (sourceTransportPort record)
  | F_destinationTransportPort => GoSql.ArgUint16 (destinationTransportPort record)
  | F_protocolIdentifier => GoSql.ArgUint8 (protocolIdentifier record)
  | F_packetTotalCount => GoSql.ArgUint64 (packetTotalCount record)
  | F_octetTotalCount => GoSql.ArgUint64 (octetTotalCount record)
  | F_packetDeltaCount => GoSql.ArgUint64 (packetDeltaCount record)
  | F_octetDeltaCount => GoSql.ArgUint64 (octetDeltaCount record)
  | F_reversePacketTotalCount => GoSql.ArgUint64 (reversePacketTotalCount record)
  | F_reverseOctetTotalCount => GoSql.ArgUint64 (reverseOctetTotalCount record)
  | F_reversePacketDeltaCount => GoSql.ArgUint64 (reversePacketDeltaCount record)
  | F_reverseOctetDeltaCount => GoSql.ArgUint64 (reverseOctetDeltaCount record)
  | F_sourcePodName => GoSql.ArgString (sourcePodName record)
  | F_sourcePodNamespace => GoSql.ArgString (sourcePodNamespace record)
  | F_sourceNodeName => GoSql.ArgString (sourceNodeName record)
  | F_destinationPodName => GoSql.ArgString (destinationPodName record)
  | F_destinationPodNamespace => GoSql.ArgString (destinationPodNamespace record)
  | F_destinationNodeName => GoSql.ArgString (destinationNodeName record)
  | F_destinationClusterIP => GoSql.ArgString (destinationClusterIP record)
  | F_destinationServicePort => GoSql.ArgUint16 (destinationServicePort record)
  | F_destinationServicePortName => GoSql.ArgString (destinationServicePortName record)
  | F_ingressNetworkPolicyName => GoSql.ArgString (ingressNetworkPolicyName record)
  | F_ingressNetworkPolicyNamespace => GoSql.ArgString (ingressNetworkPolicyNamespace record)
  | F_ingressNetworkPolicyRuleName => GoSql.ArgString (ingressNetworkPolicyRuleName record)
  | F_ingressNetworkPolicyRuleAction => GoSql.ArgUint8 (ingressNetworkPolicyRuleAction record)
  | F_ingressNetworkPolicyType => GoSql.ArgUint8 (ingressNetworkPolicyType record)
  | F_egressNetworkPolicyName => GoSql.ArgString (egressNetworkPolicyName record)
  | F_egressNetworkPolicyNamespace => GoSql.ArgString (egressNetworkPolicyNamespace record)
  | F_egressNetworkPolicyRuleName => GoSql.ArgString (egressNetworkPolicyRuleName record)
  | F_egressNetworkPolicyRuleAction => GoSql.ArgUint8 (egressNetworkPolicyRuleAction record)
  | F_egressNetworkPolicyType => GoSql.ArgUint8 (egressNetworkPolicyType record)
  | F_tcpState => GoSql.ArgString (tcpState record)
  | F_flowType => GoSql.ArgUint8 (flowType record)
  | F_sourcePodLabels => GoSql.ArgString (sourcePodLabels record)
  | F_destinationPodLabels => GoSql.ArgString (destinationPodLabels record)
  | F_throughput => GoSql.ArgUint64 (throughput record)
  | F_reverseThroughput => GoSql.ArgUint64 (reverseThroughput record)
  | F_throughputFromSourceNode => GoSql.ArgUint64 (throughputFromSourceNode record)
  | F_throughputFromDestinationNode => GoSql.ArgUint64 (throughputFromDestinationNode record)
  | F_reverseThroughputFromSourceNode => GoSql.ArgUint64 (reverseThroughputFromSourceNode record)
  | F_reverseThroughputFromDestinationNode => GoSql.ArgUint64 (reverseThroughputFromDestinationNode record)
  end.

(** The struct declaration, in order. *)
Definition structFields : list Field :=
  [ F_flowStartSeconds;
    F_flowEndSeconds;
    F_flowEndSecondsFromSourceNode;
    F_flowEndSecondsFromDestinationNode;
    F_flowEndReason;
    F_sourceIP;
    F_destinationIP;
    F_sourceTransportPort;
    F_destinationTransportPort;
    F_protocolIdentifier;
    F_packetTotalCount;
    F_octetTotalCount;
    F_packetDeltaCount;
    F_octetDeltaCount;
    F_reversePacketTotalCount;
    F_reverseOctetTotalCount;
    F_reversePacketDeltaCount;
    F_reverseOctetDeltaCount;
    F_sourcePodName;
    F_sourcePodNamespace;
    F_sourceNodeName;
    F_destinationPodName;
    F_destinationPodNamespace;
    F_destinationNodeName;
    F_destinationClusterIP;
    F_destinationServicePort;
    F_destinationServicePortName;
    F_ingressNetworkPolicyName;
    F_ingressNetworkPolicyNamespace;
    F_ingressNetworkPolicyRuleName;
    F_ingressNetworkPolicyRuleAction;
    F_ingressNetworkPolicyType;
    F_egressNetworkPolicyName;
    F_egressNetworkPolicyNamespace;
    F_egressNetworkPolicyRuleName;
    F_egressNetworkPolicyRuleAction;
    F_egressNetworkPolicyType;
    F_tcpState;
    F_flowType;
    F_sourcePodLabels;
    F_destinationPodLabels;
    F_throughput;
    F_reverseThroughput;
    F_throughputFromSourceNode;
    F_throughputFromDestinationNode;
    F_reverseThroughputFromSourceNode;
    F_reverseThroughputFromDestinationNode ].

(** The arguments of the [stmt.Exec] call in [batchCommitAll], in order. *)
Definition execFields : list Field :=
  [ F_flowStartSeconds;
    F_flowEndSeconds;
    F_flowEndSecondsFromSourceNode;
    F_flowEndSecondsFromDestinationNode;
    F_flowEndReason;
    F_sourceIP;
    F_destinationIP;
    F_sourceTransportPort;
    F_destinationTransportPort;
    F_protocolIdentifier;
    F_packetTotalCount;
    F_octetTotalCount;
    F_packetDeltaCount;
    F_octetDeltaCount;
    F_reversePacketTotalCount;
    F_reverseOctetTotalCount;
    F_reversePacketDeltaCount;
    F_reverseOctetDeltaCount;
    F_sourcePodName;
    F_sourcePodNamespace;
    F_sourceNodeName;
    F_destinationPodName;
    F_destinationPodNamespace;
    F_destinationNodeName;
    F_destinationClusterIP;
    F_destinationServicePort;
    F_destinationServicePortName;
    F_ingressNetworkPolicyName;
    F_ingressNetworkPolicyNamespace;
    F_ingressNetworkPolicyRuleName;
    F_ingressNetworkPolicyRuleAction;
    F_ingressNetworkPolicyType;
    F_egressNetworkPolicyName;
    F_egressNetworkPolicyNamespace;
    F_egressNetworkPolicyRuleName;
    F_egressNetworkPolicyRuleAction;
    F_egressNetworkPolicyType;
    F_tcpState;
    F_flowType;
    F_sourcePodLabels;
    F_destinationPodLabels;
    F_throughput;
    F_reverseThroughput;
    F_throughputFromSourceNode;
    F_throughputFromDestinationNode;
    F_reverseThroughputFromSourceNode;
    F_reverseThroughputFromDestinationNode ].

Definition execArgs (record : ClickHouseFlowRow) : list GoSql.Arg :=
  map (fun f => fieldValue f record) execFields.
(** Reading the statement: the column names between the first pair of
    parentheses, and the number of [?] placeholders. *)
Definition statementColumns (query : string) : list string :=
  match GoStrings.Split query "(" with
  | _ :: afterOpen :: _ =>
      match GoStrings.Split afterOpen ")" with
      | columns :: _ => map GoStrings.TrimSpace (GoStrings.Split columns ",")
      | [] => []
      end
  | _ => []
  end.

Definition statementPlaceholders (query : string) : nat :=
  GoStrings.Count query "?".

Section FlowRows.
Context `{IpfixEntities}.

(** [if e, _, ok := record.GetInfoElementWithValue(name); ok { field = get e }],
    the field keeping [otherwise] when the element is absent. *)
Definition element {A : Type} (record : IpfixRecord) (name : string)
    (get : InfoElementWithValue -> A) (otherwise : A) : A :=
  match GetInfoElementWithValue record name with
  | Some e => get e
  | None => otherwise
  end.

Definition unixSeconds (e : InfoElementWithValue) : GoTime.Time :=
  GoTime.Unix (GetUnsigned32Value e) 0.

Definition ipText (e : InfoElementWithValue) : string :=
  IP_String (GetIPAddressValue e).

Definition getClickHouseFlowRow (record : IpfixRecord) : ClickHouseFlowRow :=
  {|
    flowStartSeconds :=
      element record "flowStartSeconds" unixSeconds GoTime.zero;
    flowEndSeconds :=
      element record "flowEndSeconds" unixSeconds GoTime.zero;
    flowEndSecondsFromSourceNode :=
      element record "flowEndSecondsFromSourceNode" unixSeconds GoTime.zero;
    flowEndSecondsFromDestinationNode :=
      element record "flowEndSecondsFromDestinationNode" unixSeconds GoTime.zero;
    flowEndReason :=
      element record "flowEndReason" GetUnsigned8Value 0;
    sourceIP :=
      element record "sourceIPv4Address" ipText
        (element record "sourceIPv6Address" ipText EmptyString);
    destinationIP :=
      element record "destinationIPv4Address" ipText
        (element record "destinationIPv6Address" ipText EmptyString);
    sourceTransportPort :=
      element record "sourceTransportPort" GetUnsigned16Value 0;
    destinationTransportPort :=
      element record "destinationTransportPort" GetUnsigned16Value 0;
    protocolIdentifier :=
      element record "protocolIdentifier" GetUnsigned8Value 0;
    packetTotalCount :=
      element record "packetTotalCount" GetUnsigned64Value 0;
    octetTotalCount :=
      element record "octetTotalCount" GetUnsigned64Value 0;
    packetDeltaCount :=
      element record "packetDeltaCount" GetUnsigned64Value 0;
    octetDeltaCount :=
      element record "octetDeltaCount" GetUnsigned64Value 0;
    reversePacketTotalCount :=
      element record "reversePacketTotalCount" GetUnsigned64Value 0;
    reverseOctetTotalCount :=
      element record "reverseOctetTotalCount" GetUnsigned64Value 0;
    reversePacketDeltaCount :=
      element record "reversePacketDeltaCount" GetUnsigned64Value 0;
    reverseOctetDeltaCount :=
      element record "reverseOctetDeltaCount" GetUnsigned64Value 0;
    sourcePodName :=
      element record "sourcePodName" GetStringValue EmptyString;
    sourcePodNamespace :=
      element record "sourcePodNamespace" GetStringValue EmptyString;
    sourceNodeName :=
      element record "sourceNodeName" GetStringValue EmptyString;
    destinationPodName :=
      element record "destinationPodName" GetStringValue EmptyString;
    destinationPodNamespace :=
      element record "destinationPodNamespace" GetStringValue EmptyString;
    destinationNodeName :=
      element record "destinationNodeName" GetStringValue EmptyString;
    destinationClusterIP :=
      element record "destinationClusterIPv4" ipText
        (element record "destinationClusterIPv6" ipText EmptyString);
    destinationServicePort :=
      element record "destinationServicePort" GetUnsigned16Value 0;
    destinationServicePortName :=
      element record "destinationServicePortName" GetStringValue EmptyString;
    ingressNetworkPolicyName :=
      element record "ingressNetworkPolicyName" GetStringValue EmptyString;
    ingressNetworkPolicyNamespace :=
      element record "ingressNetworkPolicyNamespace" GetStringValue EmptyString;
    ingressNetworkPolicyRuleName :=
      element record "ingressNetworkPolicyRuleName" GetStringValue EmptyString;
    ingressNetworkPolicyRuleAction :=
      element record "ingressNetworkPolicyRuleAction" GetUnsigned8Value 0;
    ingressNetworkPolicyType :=
      element record "ingressNetworkPolicyType" GetUnsigned8Value 0;
    egressNetworkPolicyName :=
      element record "egressNetworkPolicyName" GetStringValue EmptyString;
    egressNetworkPolicyNamespace :=
      element record "egressNetworkPolicyNamespace" GetStringValue EmptyString;
    egressNetworkPolicyRuleName :=
      element record "egressNetworkPolicyRuleName" GetStringValue EmptyString;
    egressNetworkPolicyRuleAction :=
      element record "egressNetworkPolicyRuleAction" GetUnsigned8Value 0;
    egressNetworkPolicyType :=
      element record "egressNetworkPolicyType" GetUnsigned8Value 0;
    tcpState :=
      element record "tcpState" GetStringValue EmptyString;
    flowType :=
      element record "flowType" GetUnsigned8Value 0;
    sourcePodLabels :=
      element record "sourcePodLabels" GetStringValue EmptyString;
    destinationPodLabels :=
      element record "destinationPodLabels" GetStringValue EmptyString;
    throughput :=
      element record "throughput" GetUnsigned64Value 0;
    reverseThroughput :=
      element record "reverseThroughput" GetUnsigned64Value 0;
    throughputFromSourceNode :=
      element record "throughputFromSourceNode" GetUnsigned64Value 0;
    throughputFromDestinationNode :=
      element record "throughputFromDestinationNode" GetUnsigned64Value 0;
    reverseThroughputFromSourceNode :=
      element record "reverseThroughputFromSourceNode" GetUnsigned64Value 0;
    reverseThroughputFromDestinationNode :=
      element record "reverseThroughputFromDestinationNode" GetUnsigned64Value 0
  |}.
End FlowRows.

(** [ClickHouseFlowRow{}], the row [getClickHouseFlowRow] starts from. *)
Definition zeroRow : ClickHouseFlowRow :=
  {| flowStartSeconds := GoTime.zero;
     flowEndSeconds := GoTime.zero;
     flowEndSecondsFromSourceNode := GoTime.zero;
     flowEndSecondsFromDestinationNode := GoTime.zero;
     flowEndReason := 0;
     sourceIP := EmptyString;
     destinationIP := EmptyString;
     sourceTransportPort := 0;
     destinationTransportPort := 0;
     protocolIdentifier := 0;
     packetTotalCount := 0;
     octetTotalCount := 0;
     packetDeltaCount := 0;
     octetDeltaCount := 0;
     reversePacketTotalCount := 0;
     reverseOctetTotalCount := 0;
     reversePacketDeltaCount := 0;
     reverseOctetDeltaCount := 0;
     sourcePodName := EmptyString;
     sourcePodNamespace := EmptyString;
     sourceNodeName := EmptyString;
     destinationPodName := EmptyString;
     destinationPodNamespace := EmptyString;
     destinationNodeName := EmptyString;
     destinationClusterIP := EmptyString;
     destinationServicePort := 0;
     destinationServicePortName := EmptyString;
     ingressNetworkPolicyName := EmptyString;
     ingressNetworkPolicyNamespace := EmptyString;
     ingressNetworkPolicyRuleName := EmptyString;
     ingressNetworkPolicyRuleAction := 0;
     ingressNetworkPolicyType := 0;
     egressNetworkPolicyName := EmptyString;
     egressNetworkPolicyNamespace := EmptyString;
     egressNetworkPolicyRuleName := EmptyString;
     egressNetworkPolicyRuleAction := 0;
     egressNetworkPolicyType := 0;
     tcpState := EmptyString;
     flowType := 0;
     sourcePodLabels := EmptyString;
     destinationPodLabels := EmptyString;
     throughput := 0;
     reverseThroughput := 0;
     throughputFromSourceNode := 0;
     throughputFromDestinationNode := 0;
     reverseThroughputFromSourceNode := 0;
     reverseThroughputFromDestinationNode := 0 |}.

(** The information elements a field of the row is read from, in order of
    preference: the element named like the field, except for the three
    address fields, which have an IPv4 and an IPv6 element. *)
Definition elementNames (f : Field) : list string :=
  match f with
  | F_sourceIP => ["sourceIPv4Address"; "sourceIPv6Address"]
  | F_destinationIP => ["destinationIPv4Address"; "destinationIPv6Address"]
  | F_destinationClusterIP => ["destinationClusterIPv4"; "destinationClusterIPv6"]
  | _ => [fieldName f]
  end.

(** The Go types of the fields, as the struct declares them. *)
Inductive FieldType : Type :=
| TypeTime
| TypeUint8
| TypeUint16
| TypeUint64
| TypeString.

Definition fieldType (f : Field) : FieldType :=
  match f with
  | F_flowStartSeconds => TypeTime
  | F_flowEndSeconds => TypeTime
  | F_flowEndSecondsFromSourceNode => TypeTime
  | F_flowEndSecondsFromDestinationNode => TypeTime
  | F_flowEndReason => TypeUint8
  | F_sourceIP => TypeString
  | F_destinationIP => TypeString
  | F_sourceTransportPort => TypeUint16
  | F_destinationTransportPort => TypeUint16
  | F_protocolIdentifier => TypeUint8
  | F_packetTotalCount => TypeUint64
  | F_octetTotalCount => TypeUint64
  | F_packetDeltaCount => TypeUint64
  | F_octetDeltaCount => TypeUint64
  | F_reversePacketTotalCount => TypeUint64
  | F_reverseOctetTotalCount => TypeUint64
  | F_reversePacketDeltaCount => TypeUint64
  | F_reverseOctetDeltaCount => TypeUint64
  | F_sourcePodName => TypeString
  | F_sourcePodNamespace => TypeString
  | F_sourceNodeName => TypeString
  | F_destinationPodName => TypeString
  | F_destinationPodNamespace => TypeString
  | F_destinationNodeName => TypeString
  | F_destinationClusterIP => TypeString
  | F_destinationServicePort => TypeUint16
  | F_destinationServicePortName => TypeString
  | F_ingressNetworkPolicyName => TypeString
  | F_ingressNetworkPolicyNamespace => TypeString
  | F_ingressNetworkPolicyRuleName => TypeString
  | F_ingressNetworkPolicyRuleAction => TypeUint8
  | F_ingressNetworkPolicyType => TypeUint8
  | F_egressNetworkPolicyName => TypeString
  | F_egressNetworkPolicyNamespace => TypeString
  | F_egressNetworkPolicyRuleName => TypeString
  | F_egressNetworkPolicyRuleAction => TypeUint8
  | F_egressNetworkPolicyType => TypeUint8
  | F_tcpState => TypeString
  | F_flowType => TypeUint8
  | F_sourcePodLabels => TypeString
  | F_destinationPodLabels => TypeString
  | F_throughput => TypeUint64
  | F_reverseThroughput => TypeUint64
  | F_throughputFromSourceNode => TypeUint64
  | F_throughputFromDestinationNode => TypeUint64
  | F_reverseThroughputFromSourceNode => TypeUint64
  | F_reverseThroughputFromDestinationNode => TypeUint64
  end.

(** What a field holds once its information element [e] has been found: the
    value the go-ipfix getter for the field's Go type returns, a time being
    made of the seconds by [time.Unix] and an address of its text. *)
Section ReadingElements.
Context `{IpfixEntities}.

Definition readAs (f : Field) (e : InfoElementWithValue) : GoSql.Arg :=
  match fieldType f with
  | TypeTime => GoSql.ArgTime (GoTime.Unix (GetUnsigned32Value e) 0)
  | TypeUint8 => GoSql.ArgUint8 (GetUnsigned8Value e)
  | TypeUint16 => GoSql.ArgUint16 (GetUnsigned16Value e)
  | TypeUint64 => GoSql.ArgUint64 (GetUnsigned64Value e)
  | TypeString =>
      match elementNames f with
      | [_] => GoSql.ArgString (GetStringValue e)
      | _ => GoSql.ArgString (IP_String (GetIPAddressValue e))
      end
  end.

End ReadingElements.

(** Values held by the deque ([interface{}]): only [*ClickHouseFlowRow]
    pass the type assertion in [batchCommitAll]. *)
Inductive Item : Type :=
| FlowRowPtr (record : ClickHouseFlowRow)
| OtherValue.

Inductive Chan : Type := ChanOpen | ChanClosed.

Record ClickHouseExportProcess : Type := mkProcess {
  db : GoSql.DB;
  dsn : string;
  deque : list Item;
  queueSize : Z;
  commitInterval : GoTime.Duration;
  stopCh : Chan;
  commitTicker : GoTime.Ticker
}.

Definition withDeque (d : list Item) (ch : ClickHouseExportProcess) :=
  {| db := db ch; dsn := dsn ch; deque := d; queueSize := queueSize ch;
     commitInterval := commitInterval ch; stopCh := stopCh ch;
     commitTicker := commitTicker ch |}.

Definition withDb (d : GoSql.DB) (ch : ClickHouseExportProcess) :=
  {| db := d; dsn := dsn ch; deque := deque ch; queueSize := queueSize ch;
     commitInterval := commitInterval ch; stopCh := stopCh ch;
     commitTicker := commitTicker ch |}.

Definition withQueueSize (n : Z) (ch : ClickHouseExportProcess) :=
  {| db := db ch; dsn := dsn ch; deque := deque ch; queueSize := n;
     commitInterval := commitInterval ch; stopCh := stopCh ch;
     commitTicker := commitTicker ch |}.

Definition withStopCh (c : Chan) (ch : ClickHouseExportProcess) :=
  {| db := db ch; dsn := dsn ch; deque := deque ch; queueSize := queueSize ch;
     commitInterval := commitInterval ch; stopCh := c;
     commitTicker := commitTicker ch |}.

Definition withCommitTicker (t : GoTime.Ticker) (ch : ClickHouseExportProcess) :=
  {| db := db ch; dsn := dsn ch; deque := deque ch; queueSize := queueSize ch;
     commitInterval := commitInterval ch; stopCh := stopCh ch;
     commitTicker := t |}.

Record ClickHouseInput : Type := mkInput {
  Username : string;
  Password : string;
  Database : string;
  DatabaseURL : string;
  Debug : bool;
  Compress : option bool;
  CommitInterval : GoTime.Duration
}.

Definition len (s : string) : Z := Z.of_nat (String.length s).

Definition getDataSourceName (ci : ClickHouseInput) : Go (string * option Error) :=
  if (len (DatabaseURL ci) =? 0) || (len (Username ci) =? 0) || (len (Password ci) =? 0)
  then Ret (EmptyString, Some (Errorf "URL, Username or Password missing for clickhouse DSN"))
  else
    let sb := DatabaseURL ci +:+ "?username=" +:+ Username ci
              +:+ "&password=" +:+ Password ci in
    let sb := if len (Database ci) >? 0
              then (sb +:+ "&database=") +:+ Database ci else sb in
    let sb := if Debug ci then sb +:+ "&debug=true" else sb +:+ "&debug=false" in
    match Compress ci with
    | None => Panic "invalid memory address or nil pointer dereference"
    | Some c =>
        let sb := if c then sb +:+ "&compress=true" else sb +:+ "&compress=false" in
        Ret (sb, None)
    end.

(** The loop of [GetDsnMap] over the [&]-separated pieces. *)
Fixpoint dsnPairs (pieces : list string) (m : gmap string string)
    : Go (gmap string string) :=
  match pieces with
  | [] => Ret m
  | v :: pieces' =>
      let pair := GoStrings.Split v "=" in
      match pair with
      | key :: value :: _ => dsnPairs pieces' (<[key := value]> m)
      | _ => Panic "index out of range [1]"
      end
  end.

Definition GetDsnMap (ch : ClickHouseExportProcess) : Go (gmap string string) :=
  let parseURL := GoStrings.Split (dsn ch) "?" in
  match parseURL with
  | [] => Panic "index out of range [0]"
  | url :: parseURL' =>
      let m := <["databaseURL" := url]> (∅ : gmap string string) in
      match parseURL' with
      | [] => Panic "index out of range [1]"
      | query :: _ => dsnPairs (GoStrings.Split query "&") m
      end
  end.

(** No byte of [s] is one of the separators [?], [&], [=] of a DSN. *)
Definition dsnSafe (s : string) : bool :=
  GoStrings.lacks "?" s && GoStrings.lacks "&" s && GoStrings.lacks "=" s.

Definition withDsn (d : string) (ch : ClickHouseExportProcess) :=
  {| db := db ch; dsn := d; deque := deque ch; queueSize := queueSize ch;
     commitInterval := commitInterval ch; stopCh := stopCh ch;
     commitTicker := commitTicker ch |}.

Definition boolText (b : bool) : string := if b then "true" else "false".

(** The DSN format: [url?key=value&key=value...], as the list of the
    key/value pairs [getDataSourceName] writes for an input whose
    [Compress] points to [c]. *)
Definition keyValue (kv : string * string) : string :=
  fst kv +:+ String "=" (snd kv).

Fixpoint joinWith (sep : ascii) (pieces : list string) : string :=
  match pieces with
  | [] => EmptyString
  | [piece] => piece
  | piece :: pieces' => piece +:+ String sep (joinWith sep pieces')
  end.

Definition dsnFields (ci : ClickHouseInput) (c : bool) : list (string * string) :=
  [("username", Username ci); ("password", Password ci)]
  ++ (if len (Database ci) >? 0 then [("database", Database ci)] else [])
  ++ [("debug", boolText (Debug ci)); ("compress", boolText c)].

Definition dsnText (ci : ClickHouseInput) (c : bool) : string :=
  DatabaseURL ci +:+ String "?" (joinWith "&" (map keyValue (dsnFields ci c))).

(** *** The ingestion buffer *)

(** [for ch.deque.Len() >= ch.queueSize { ch.deque.PopFront() }] *)
Fixpoint evict (queueSize : Z) (d : list Item) : Go (list Item) :=
  if GoDeque.Len d >=? queueSize then
    match d with
    | [] => Panic "deque: PopFront() called on empty queue"
    | _ :: d' => evict queueSize d'
    end
  else Ret d.

(** The critical section of [CacheSet]: evict, then append. *)
Definition cacheRow (chRow : ClickHouseFlowRow) (ch : ClickHouseExportProcess)
    : Go ClickHouseExportProcess :=
  d <~ evict (queueSize ch) (deque ch) ;;
  Ret (withDeque (GoDeque.PushBack (FlowRowPtr chRow) d) ch).

Section CacheSet.
Context `{IpfixEntities}.

Definition CacheSet (set : IpfixSet) (ch : ClickHouseExportProcess)
    : Go ClickHouseExportProcess :=
  match GetRecords set with
  | [] => Panic "index out of range [0] with length 0"
  | record :: _ => cacheRow (getClickHouseFlowRow record) ch
  end.

(** The buffered value a set contributes: the row of its first record. *)
Definition cachedItem (set : IpfixSet) : option Item :=
  match GetRecords set with
  | [] => None
  | record :: _ => Some (FlowRowPtr (getClickHouseFlowRow record))
  end.

Definition cachedItems (sets : list IpfixSet) : list Item :=
  omap cachedItem sets.

(** A sequence of [CacheSet] calls, first to last. *)
Fixpoint CacheSets (sets : list IpfixSet) (ch : ClickHouseExportProcess)
    : Go ClickHouseExportProcess :=
  match sets with
  | [] => Ret ch
  | set :: sets' => ch' <~ CacheSet set ch ;; CacheSets sets' ch'
  end.

End CacheSet.

(** The [n] newest elements of a FIFO (all of them when it holds fewer). *)
Definition newest {A : Type} (n : Z) (l : list A) : list A :=
  drop (length l - Z.to_nat n) l.

(** [close(ch.stopCh)]: closing a closed channel panics. *)
Definition Stop (ch : ClickHouseExportProcess) : Go ClickHouseExportProcess :=
  match stopCh ch with
  | ChanOpen => Ret (withStopCh ChanClosed ch)
  | ChanClosed => Panic "close of closed channel"
  end.

(** *** The batch committer *)

(** Rows that concurrent [CacheSet] calls append while [batchCommitAll]
    does not hold the mutex: [arrivals i] are appended just before the
    committer reads index [i]; [arrivals currSize] between the last
    execution and the locked removal. *)
Definition Arrivals : Type := Z -> list ClickHouseFlowRow.

Definition noArrivals : Arrivals := fun _ => [].

(** Rows arriving at one position only. *)
Definition arrivalsAt (position : Z) (rows : list ClickHouseFlowRow) : Arrivals :=
  fun i => if i =? position then rows else [].

(** Everything that arrives during [n] loop iterations from index [i]. *)
Fixpoint arrivedIn (arrivals : Arrivals) (i : Z) (n : nat) : list ClickHouseFlowRow :=
  match n with
  | O => []
  | S n' => arrivals i ++ arrivedIn arrivals (i + 1) n'
  end.

(** The rows among buffered values, and the statement executions that
    commit them. *)
Definition flowRows (items : list Item) : list ClickHouseFlowRow :=
  omap (fun item => match item with
                    | FlowRowPtr record => Some record
                    | OtherValue => None
                    end) items.

Definition execCalls (items : list Item) : list GoSql.Call :=
  map (fun record => GoSql.CallExec (execArgs record)) (flowRows items).

Fixpoint arrive (rows : list ClickHouseFlowRow) (ch : ClickHouseExportProcess)
    : Go ClickHouseExportProcess :=
  match rows with
  | [] => Ret ch
  | chRow :: rows' => ch' <~ cacheRow chRow ch ;; arrive rows' ch'
  end.

(** The execution loop, [remaining] iterations from index [i].  The result
    is the error [batchCommitAll] returns from inside the loop, if any. *)
Fixpoint execLoop (arrivals : Arrivals) (tx : option GoSql.TxHandle)
    (remaining : nat) (i : Z) (ch : ClickHouseExportProcess)
    : Go (option Error * ClickHouseExportProcess) :=
  match remaining with
  | O => Ret (None, ch)
  | S remaining' =>
      ch <~ arrive (arrivals i) ch ;;
      item <~ GoDeque.At (deque ch) i ;;
      match item with
      | OtherValue => execLoop arrivals tx remaining' (i + 1) ch
      | FlowRowPtr record =>
          let '(err, db') := GoSql.Exec (execArgs record) (db ch) in
          match err with
          | Some e =>
              r <~ GoSql.Rollback tx db' ;;
              Ret (Some e, withDb (snd r) ch)
          | None => execLoop arrivals tx remaining' (i + 1) (withDb db' ch)
          end
      end
  end.

(** [for i := 0; i < currSize; i++ { ch.deque.PopFront() }] *)
Fixpoint popFronts (n : nat) (d : list Item) : Go (list Item) :=
  match n with
  | O => Ret d
  | S n' => r <~ GoDeque.PopFront d ;; popFronts n' (snd r)
  end.

Definition batchCommitAllWith (arrivals : Arrivals) (ch : ClickHouseExportProcess)
    : Go ((Z * option Error) * ClickHouseExportProcess) :=
  let currSize := GoDeque.Len (deque ch) in
  if currSize =? 0 then Ret ((0, None), ch)
  else
    let '((tx, err), db1) := GoSql.Begin (db ch) in
    let '((stmt, err), db2) :=
      match err with
      | None => GoSql.Prepare insertQuery db1
      | Some _ => ((None, err), db1)
      end in
    match err with
    | Some e =>
        r <~ GoSql.Rollback tx db2 ;;
        Ret ((0, Some e), withDb (snd r) ch)
    | None =>
        r <~ execLoop arrivals tx (Z.to_nat currSize) 0 (withDb db2 ch) ;;
        let '(err, ch) := r in
        match err with
        | Some e => Ret ((0, Some e), ch)
        | None =>
            let '(err, db3) := GoSql.Commit (db ch) in
            let ch := withDb db3 ch in
            match err with
            | Some e => Ret ((0, Some e), ch)
            | None =>
                ch <~ arrive (arrivals currSize) ch ;;
                d <~ popFronts (Z.to_nat currSize) (deque ch) ;;
                Ret ((currSize, None), withDeque d ch)
            end
        end
    end.

(** [batchCommitAll] with no concurrent [CacheSet]. *)
Definition batchCommitAll (ch : ClickHouseExportProcess)
    : Go ((Z * option Error) * ClickHouseExportProcess) :=
  batchCommitAllWith noArrivals ch.

(** The cases [select] can take in [flowRecordPeriodicCommit]. *)
Inductive SelectCase : Type :=
| CaseStop
| CaseCommitTick
| CaseLogTick.

Record Committer : Type := mkCommitter {
  process : ClickHouseExportProcess;
  committedRec : Z;
  logTicker : GoTime.Ticker;
  returned : bool
}.

(** [flowRecordPeriodicCommit] along the cases [select] takes, in order.  A
    receive from [stopCh] is only possible once the channel is closed (no
    one sends on it); a case that is not ready is not taken. *)
Fixpoint periodicCommitLoop (cases : list SelectCase) (c : Committer) : Go Committer :=
  match cases with
  | [] => Ret c
  | case :: cases' =>
      match case with
      | CaseStop =>
          match stopCh (process c) with
          | ChanOpen => periodicCommitLoop cases' c
          | ChanClosed =>
              r <~ batchCommitAll (process c) ;;
              let '((committed, err), ch) := r in
              let total :=
                match err with
                | Some _ => committedRec c
                | None => committedRec c + committed
                end in
              Ret {| process := withCommitTicker GoTime.TickerStopped ch;
                     committedRec := total;
                     logTicker := GoTime.TickerStopped;
                     returned := true |}
          end
      | CaseCommitTick =>
          match commitTicker (process c) with
          | GoTime.TickerStopped => periodicCommitLoop cases' c
          | GoTime.TickerRunning _ =>
              r <~ batchCommitAll (process c) ;;
              let '((committed, err), ch) := r in
              let total :=
                match err with
                | Some _ => committedRec c
                | None => committedRec c + committed
                end in
              periodicCommitLoop cases'
                {| process := ch; committedRec := total;
                   logTicker := logTicker c; returned := false |}
          end
      | CaseLogTick =>
          match logTicker c with
          | GoTime.TickerStopped => periodicCommitLoop cases' c
          | GoTime.TickerRunning _ =>
              periodicCommitLoop cases'
                {| process := process c; committedRec := 0;
                   logTicker := logTicker c; returned := false |}
          end
      end
  end.

Definition flowRecordPeriodicCommit (cases : list SelectCase)
    (ch : ClickHouseExportProcess) : Go Committer :=
  periodicCommitLoop cases
    {| process := ch; committedRec := 0;
       logTicker := GoTime.TickerRunning (60 * GoTime.Second);
       returned := false |}.

(** [PrepareConnection] and [NewClickHouseClient]; [ConnectClickHouse]
    (polling the driver against the wall clock) is given by its result.
    A result [inl (dsn, connect)] is the Go triple [(dsn, connect, nil)],
    [inr err] is [("", nil, err)]. *)
Definition PrepareConnection (ConnectClickHouse : string -> GoSql.DB + Error)
    (input : ClickHouseInput) : Go ((string * GoSql.DB) + Error) :=
  r <~ getDataSourceName input ;;
  match r with
  | (_, Some err) => Ret (inr (Errorf "error when parsing ClickHouse DSN"))
  | (dsn, None) =>
      match ConnectClickHouse dsn with
      | inr err => Ret (inr err)
      | inl connect =>
          let '((tx, err), db1) := GoSql.Begin connect in
          let '(err, db2) :=
            match err with
            | None => let '((_, err), db2) := GoSql.Prepare insertQuery db1 in (err, db2)
            | Some _ => (err, db1)
            end in
          match err with
          | Some _ => Ret (inr (Errorf "error when preparing insert statement"))
          | None =>
              let '(_, db3) := GoSql.Commit db2 in
              Ret (inl (dsn, db3))
          end
      end
  end.

Definition NewClickHouseClient (ConnectClickHouse : string -> GoSql.DB + Error)
    (input : ClickHouseInput) : Go (ClickHouseExportProcess + Error) :=
  r <~ PrepareConnection ConnectClickHouse input ;;
  match r with
  | inr err => Ret (inr err)
  | inl (dsn, connect) =>
      ticker <~ GoTime.NewTicker (CommitInterval input) ;;
      Ret (inl {| db := connect; dsn := dsn; deque := [];
                  queueSize := maxQueueSize;
                  commitInterval := CommitInterval input;
                  stopCh := ChanOpen;
                  commitTicker := ticker |})
  end.

(** [UpdateCH] stores the new DSN and connection in [input] (not in its
    receiver); the result is [input] afterwards. *)
Definition UpdateCH (ch input : ClickHouseExportProcess) (dsn : string)
    (connect : GoSql.DB) : ClickHouseExportProcess :=
  withDb connect (withDsn dsn input).

Definition GetCommitInterval (ch : ClickHouseExportProcess) : GoTime.Duration :=
  commitInterval ch.

Definition withCommitInterval (d : GoTime.Duration) (ch : ClickHouseExportProcess) :=
  {| db := db ch; dsn := dsn ch; deque := deque ch; queueSize := queueSize ch;
     commitInterval := d; stopCh := stopCh ch;
     commitTicker := commitTicker ch |}.

Definition SetCommitInterval (commitInterval : GoTime.Duration)
    (ch : ClickHouseExportProcess) : Go ClickHouseExportProcess :=
  let ch := withCommitInterval commitInterval ch in
  ticker <~ GoTime.Reset (GetCommitInterval ch) (commitTicker ch) ;;
  Ret (withCommitTicker ticker ch).

Definition GetDsn (ch : ClickHouseExportProcess) : string := dsn ch.

(** A database that answers every call with success and has not been
    called yet, an input as in the deployment manifest, and a freshly
    created process. *)
Definition healthyDB : GoSql.DB :=
  {| GoSql.answer := fun _ _ => None; GoSql.history := [] |}.

Definition exampleInput : ClickHouseInput :=
  {| Username := "clickhouse_operator";
     Password := "clickhouse_operator_password";
     Database := "default";
     DatabaseURL := "tcp://clickhouse-clickhouse.flow-visibility.svc:9000";
     Debug := false;
     Compress := Some true;
     CommitInterval := 8 * GoTime.Second |}.

Definition exampleProcess : ClickHouseExportProcess :=
  {| db := healthyDB; dsn := EmptyString; deque := [];
     queueSize := maxQueueSize;
     commitInterval := 8 * GoTime.Second;
     stopCh := ChanOpen;
     commitTicker := GoTime.TickerRunning (8 * GoTime.Second) |}.

End clickhouseclient.

(** A list-backed implementation of the entities interfaces: a record is a
    list of named elements, a set a list of records. *)
Module listEntities.

Record Element : Type := mkElement {
  unsignedValue : Z;
  stringValue : string;
  addressValue : string
}.

Definition lookupElement (record : list (string * Element)) (name : string)
    : option Element :=
  snd <$> List.find (fun p => String.eqb (fst p) name) record.

#[export] Instance entities : IpfixEntities :=
  {| IpfixSet := list (list (string * Element));
     IpfixRecord := list (string * Element);
     InfoElementWithValue := Element;
     IP := string;
     IP_String := fun ip => ip;
     GetRecords := fun set => set;
     GetInfoElementWithValue := lookupElement;
     GetUnsigned8Value := unsignedValue;
     GetUnsigned16Value := unsignedValue;
     GetUnsigned32Value := unsignedValue;
     GetUnsigned64Value := unsignedValue;
     GetStringValue := stringValue;
     GetIPAddressValue := addressValue |}.

(** A set with one record that carries a packet count. *)
Definition setWithPackets (n : Z) : @IpfixSet entities :=
  [[("packetTotalCount", mkElement n EmptyString EmptyString)]].

End listEntities.

(** A buffer of capacity two holding records 1 and 2, over a database that
    accepts every call. *)
Definition exampleRow (n : Z) : clickhouseclient.ClickHouseFlowRow :=
  @clickhouseclient.getClickHouseFlowRow listEntities.entities
    [("packetTotalCount", listEntities.mkElement n EmptyString EmptyString)].

Definition fullOfTwo : clickhouseclient.ClickHouseExportProcess :=
  clickhouseclient.withDeque
    [clickhouseclient.FlowRowPtr (exampleRow 1);
     clickhouseclient.FlowRowPtr (exampleRow 2)]
    (clickhouseclient.withQueueSize 2 clickhouseclient.exampleProcess).

(** A full buffer of the default capacity. *)
Definition fullDefault : clickhouseclient.ClickHouseExportProcess :=
  clickhouseclient.withDeque
    (repeat (clickhouseclient.FlowRowPtr (exampleRow 1))
       (Z.to_nat clickhouseclient.maxQueueSize))
    clickhouseclient.exampleProcess.

(** A database that cannot open a transaction. *)
Definition refusingBegin : GoSql.DB :=
  {| GoSql.answer := fun _ c =>
       match c with
       | GoSql.CallBegin => Some (DriverError "connection refused")
       | _ => None
       end;
     GoSql.history := [] |}.

(** A database that refuses the second execution of a statement after the
    transaction was opened on a fresh connection, and one that refuses every
    commit. *)
Definition refusingSecondExec : GoSql.DB :=
  {| GoSql.answer := fun h c =>
       match c with
       | GoSql.CallExec _ =>
           if Nat.eqb (length h) 3 then Some (DriverError "too many parts") else None
       | _ => None
       end;
     GoSql.history := [] |}.

Definition refusingCommit : GoSql.DB :=
  {| GoSql.answer := fun _ c =>
       match c with
       | GoSql.CallCommit => Some (DriverError "connection lost")
       | _ => None
       end;
     GoSql.history := [] |}.

(** The process after a batch whose commit was refused, and the committer
    after a commit tick, a stop case that is not ready and a log tick. *)
Definition afterFailedCommit : clickhouseclient.ClickHouseExportProcess :=
  match clickhouseclient.batchCommitAll
          (clickhouseclient.withDb refusingCommit fullOfTwo) with
  | Ret (_, ch) => ch
  | Panic _ => fullOfTwo
  end.

(** The client made from the example input over a database that accepts
    everything. *)
Definition exampleClient : clickhouseclient.ClickHouseExportProcess :=
  match clickhouseclient.NewClickHouseClient
          (fun _ => inl clickhouseclient.healthyDB) clickhouseclient.exampleInput with
  | Ret (inl ch) => ch
  | _ => clickhouseclient.exampleProcess
  end.

Definition afterTwoTicks : clickhouseclient.Committer :=
  match clickhouseclient.flowRecordPeriodicCommit
          [clickhouseclient.CaseCommitTick; clickhouseclient.CaseStop;
           clickhouseclient.CaseLogTick] fullOfTwo with
  | Ret c => c
  | Panic _ => clickhouseclient.mkCommitter fullOfTwo 0 GoTime.TickerStopped true
  end.

(** ** [pkg/flowaggregator/options] *)

(** The configuration types of [pkg/config/flowaggregator], with the fields
    [LoadConfig] reads. *)
Module FlowCollectorConfig.
Record t : Type := mk {
  Enable : bool;
  Address : string;
  RecordFormat : string
}.
End FlowCollectorConfig.

Module ClickHouseConfig.
Record t : Type := mk {
  Enable : bool;
  CommitInterval : string
}.
End ClickHouseConfig.

Module FlowAggregatorConfig.
Record t : Type := mk {
  ActiveFlowRecordTimeout : string;
  InactiveFlowRecordTimeout : string;
  AggregatorTransportProtocol : string;
  FlowCollector : FlowCollectorConfig.t;
  ClickHouse : ClickHouseConfig.t
}.
End FlowAggregatorConfig.

(** What [LoadConfig] calls outside its own file: the YAML decoder, the
    defaults and constants of [pkg/config/flowaggregator], [time], [net]
    and [pkg/util/flowexport]. *)
Class ConfigDeps : Type := {
  UnmarshalStrict : string -> FlowAggregatorConfig.t + Error;
  SetConfigDefaults : FlowAggregatorConfig.t -> FlowAggregatorConfig.t;
  ParseDuration : string -> GoTime.Duration + Error;
  ParseTransportProtocol : string -> string + Error;
  ParseFlowCollectorAddr : string -> string -> string -> (string * string * string) + Error;
  JoinHostPort : string -> string -> string;
  DefaultExternalFlowCollectorPort : string;
  DefaultExternalFlowCollectorTransport : string;
  MinClickHouseCommitInterval : GoTime.Duration
}.

Module options.

Record Options : Type := mkOptions {
  Config : FlowAggregatorConfig.t;
  ActiveFlowRecordTimeout : GoTime.Duration;
  InactiveFlowRecordTimeout : GoTime.Duration;
  AggregatorTransportProtocol : string;
  ExternalFlowCollectorAddr : string;
  ExternalFlowCollectorProto : string;
  ClickHouseCommitInterval : GoTime.Duration
}.

Section LoadConfig.
Context `{ConfigDeps}.

(** "Validate flow collector specific parameters": the collector address
    and protocol, or the error returned from inside the block. *)
Definition flowCollectorParams (config : FlowAggregatorConfig.t)
    : (string * string) + Error :=
  let fc := FlowAggregatorConfig.FlowCollector config in
  if FlowCollectorConfig.Enable fc
     && (Z.of_nat (String.length (FlowCollectorConfig.Address fc)) >? 0)
  then
    match ParseFlowCollectorAddr (FlowCollectorConfig.Address fc)
            DefaultExternalFlowCollectorPort DefaultExternalFlowCollectorTransport with
    | inr err => inr err
    | inl (host, port, proto) =>
        if negb (String.eqb (FlowCollectorConfig.RecordFormat fc) "IPFIX")
           && negb (String.eqb (FlowCollectorConfig.RecordFormat fc) "JSON")
        then inr (Errorf "record format is not supported")
        else inl (JoinHostPort host port, proto)
    end
  else inl (EmptyString, EmptyString).

(** "Validate clickhouse specific parameters". *)
Definition clickHouseParams (config : FlowAggregatorConfig.t)
    : GoTime.Duration + Error :=
  let chc := FlowAggregatorConfig.ClickHouse config in
  if ClickHouseConfig.Enable chc then
    match ParseDuration (ClickHouseConfig.CommitInterval chc) with
    | inr err => inr err
    | inl interval =>
        if interval <? MinClickHouseCommitInterval
        then inr (Errorf "commitInterval is too small")
        else inl interval
    end
  else inl 0.

(** [inl opt] is the Go result [(&opt, nil)], [inr err] is [(nil, err)]. *)
Definition LoadConfig (configBytes : string) : Options + Error :=
  match UnmarshalStrict configBytes with
  | inr err => inr (Errorf "failed to unmarshal FlowAggregator config from ConfigMap")
  | inl config =>
      let config := SetConfigDefaults config in
      let fc := FlowAggregatorConfig.FlowCollector config in
      let chc := FlowAggregatorConfig.ClickHouse config in
      if FlowCollectorConfig.Enable fc
         && String.eqb (FlowCollectorConfig.Address fc) EmptyString
      then inr (Errorf "external flow collector enabled without providing address")
      else if negb (FlowCollectorConfig.Enable fc) && negb (ClickHouseConfig.Enable chc)
      then inr (Errorf "external flow collector or ClickHouse should be configured")
      else
        match ParseDuration (FlowAggregatorConfig.ActiveFlowRecordTimeout config) with
        | inr err => inr err
        | inl active =>
        match ParseDuration (FlowAggregatorConfig.InactiveFlowRecordTimeout config) with
        | inr err => inr err
        | inl inactive =>
        match ParseTransportProtocol
                (FlowAggregatorConfig.AggregatorTransportProtocol config) with
        | inr err => inr err
        | inl transport =>
        match flowCollectorParams config with
        | inr err => inr err
        | inl (addr, proto) =>
        match clickHouseParams config with
        | inr err => inr err
        | inl interval =>
            inl {| Config := config;
                   ActiveFlowRecordTimeout := active;
                   InactiveFlowRecordTimeout := inactive;
                   AggregatorTransportProtocol := transport;
                   ExternalFlowCollectorAddr := addr;
                   ExternalFlowCollectorProto := proto;
                   ClickHouseCommitInterval := interval |}
        end end end end end
  end.

End LoadConfig.

End options.

(** A stand-in for the collaborators of [LoadConfig]: the configuration
    bytes are read as the ClickHouse commit interval of a configuration that
    enables ClickHouse only, a few duration strings parse, and the shortest
    supported commit interval is one second. *)
Definition exampleConfig (commitInterval : string) : FlowAggregatorConfig.t :=
  {| FlowAggregatorConfig.ActiveFlowRecordTimeout := "60s";
     FlowAggregatorConfig.InactiveFlowRecordTimeout := "90s";
     FlowAggregatorConfig.AggregatorTransportProtocol := "tls";
     FlowAggregatorConfig.FlowCollector :=
       {| FlowCollectorConfig.Enable := false;
          FlowCollectorConfig.Address := EmptyString;
          FlowCollectorConfig.RecordFormat := "IPFIX" |};
     FlowAggregatorConfig.ClickHouse :=
       {| ClickHouseConfig.Enable := true;
          ClickHouseConfig.CommitInterval := commitInterval |} |}.

Definition exampleParseDuration (s : string) : GoTime.Duration + Error :=
  if String.eqb s "500ms" then inl 500000000
  else if String.eqb s "8s" then inl (8 * GoTime.Second)
  else if String.eqb s "60s" then inl (60 * GoTime.Second)
  else if String.eqb s "90s" then inl (90 * GoTime.Second)
  else inr (Errorf "time: invalid duration").

Definition exampleDeps : ConfigDeps :=
  {| UnmarshalStrict := fun configBytes => inl (exampleConfig configBytes);
     SetConfigDefaults := fun config => config;
     ParseDuration := exampleParseDuration;
     ParseTransportProtocol := fun s => inl s;
     ParseFlowCollectorAddr := fun addr port proto => inl (addr, port, proto);
     JoinHostPort := fun host port => host +:+ ":" +:+ port;
     DefaultExternalFlowCollectorPort := "4739";
     DefaultExternalFlowCollectorTransport := "tcp";
     MinClickHouseCommitInterval := GoTime.Second |}.

(** The options loaded from a configuration with a commit interval of eight
    seconds. *)
Definition exampleOptions : options.Options :=
  {| options.Config := exampleConfig "8s";
     options.ActiveFlowRecordTimeout := 60 * GoTime.Second;
     options.InactiveFlowRecordTimeout := 90 * GoTime.Second;
     options.AggregatorTransportProtocol := "tls";
     options.ExternalFlowCollectorAddr := EmptyString;
     options.ExternalFlowCollectorProto := EmptyString;
     options.ClickHouseCommitInterval := 8 * GoTime.Second |}.

(** ** [pkg/agent/flowexporter/connections]: the denied-connection store

    Only the test of this package is among the sources; the store itself is
    described by the specification (sections 3, 4.1 to 4.4 and 6). *)

Module connections.

(** Instants and durations in nanoseconds; counters are [uint64]. *)
Definition Instant : Type := Z.

Definition uint64 (n : Z) : Z := n mod 2 ^ 64.

(** Modelled from the spec: the Tuple of section 3 (the type is declared in
    [pkg/agent/flowexporter], outside the sources); addresses are byte
    sequences as in the test's [net.IP] literals. *)
Record Tuple : Type := mkTuple {
  SourceAddress : list Z;
  DestinationAddress : list Z;
  Protocol : Z;
  SourcePort : Z;
  DestinationPort : Z
}.

Definition tupleFields (t : Tuple) : list Z * list Z * Z * Z * Z :=
  (SourceAddress t, DestinationAddress t, Protocol t, SourcePort t, DestinationPort t).

Definition tupleOfFields (p : list Z * list Z * Z * Z * Z) : Tuple :=
  let '(s, d, pr, sp, dp) := p in mkTuple s d pr sp dp.

#[export] Instance Tuple_eq_dec : EqDecision Tuple.
Proof. solve_decision. Defined.

#[export] Instance Tuple_countable : Countable Tuple.
Proof.
  apply (inj_countable' tupleFields tupleOfFields).
  intros []; reflexivity.
Defined.

(** Resolved interface identity of a local endpoint. *)
Record InterfaceMetadata : Type := mkInterfaceMetadata {
  PodName : string;
  PodNamespace : string
}.

(** Modelled from the spec: the Connection of section 3 with its identity,
    timestamps, forward counters, lifecycle flag and enrichment fields. *)
Record Connection : Type := mkConnection {
  FlowKey : Tuple;
  StartTime : Instant;
  StopTime : Instant;
  OriginalBytes : Z;
  OriginalPackets : Z;
  IsActive : bool;
  DestinationServiceAddress : list Z;
  DestinationServicePort : Z;
  DestinationServicePortName : string;
  SourcePodName : string;
  SourcePodNamespace : string;
  DestinationPodName : string;
  DestinationPodNamespace : string
}.

(** The ConnectionKey is derived from the Tuple; equality is structural. *)
Abbreviation ConnectionKey := Tuple.
Definition NewConnectionKey (conn : Connection) : ConnectionKey := FlowKey conn.

(** Modelled from the spec: the metadata providers of section 6,
    [ResolveServiceByAddress(ip, port, protocol) -> (serviceName, found)] and
    [ResolveInterfaceByAddress(ip) -> (interfaceMetadata, found)]; the
    registries behind them are not among the sources. *)
Class Providers : Type := {
  ResolveServiceByAddress : list Z -> Z -> Z -> option string;
  ResolveInterfaceByAddress : list Z -> option InterfaceMetadata
}.

(** An invocation of a provider, as recorded by the store. *)
Inductive Lookup : Type :=
| ServiceLookup (ip : list Z) (port protocol : Z)
| InterfaceLookup (ip : list Z).

Definition isServiceLookup (l : Lookup) : bool :=
  match l with ServiceLookup _ _ _ => true | InterfaceLookup _ => false end.

Definition isInterfaceLookup (l : Lookup) : bool :=
  match l with ServiceLookup _ _ _ => false | InterfaceLookup _ => true end.

Record Entry : Type := mkEntry {
  entryKey : ConnectionKey;
  expiryTime : Instant
}.

(** Modelled from the spec: the ExpiryQueue of section 4.3, a priority
    structure ordered by ascending expiry time with insert, reschedule
    (remove then reinsert), peek-minimum and pop-minimum; the queue of the
    package is not among the sources. *)
Fixpoint queueInsert (e : Entry) (q : list Entry) : list Entry :=
  match q with
  | [] => [e]
  | e' :: q' =>
      if expiryTime e <? expiryTime e' then e :: e' :: q'
      else e' :: queueInsert e q'
  end.

Fixpoint queueRemove (key : ConnectionKey) (q : list Entry) : list Entry :=
  match q with
  | [] => []
  | e :: q' =>
      if decide (entryKey e = key) then queueRemove key q'
      else e :: queueRemove key q'
  end.

Definition queueReschedule (key : ConnectionKey) (at_ : Instant) (q : list Entry)
    : list Entry :=
  queueInsert (mkEntry key at_) (queueRemove key q).

Definition queuePeek (q : list Entry) : option Entry := head q.

Definition queuePop (q : list Entry) : option (Entry * list Entry) :=
  match q with
  | [] => None
  | e :: q' => Some (e, q')
  end.

(** Modelled from the spec: the store of sections 4.1 and 4.4, the
    key-to-Connection map with its ExpiryQueue, the timeouts it is created
    with and the live-count gauge; [lookups] records the provider
    invocations it has made. *)
Record DenyConnectionStore : Type := mkStore {
  connections : gmap Tuple Connection;
  expirePriorityQueue : list Entry;
  activeFlowTimeout : Z;
  idleFlowTimeout : Z;
  lookups : list Lookup;
  deniedConnectionCount : Z
}.

Definition queueKeys (q : list Entry) : list ConnectionKey := map entryKey q.

(** How often the store has invoked the providers selected by [p]. *)
Definition invocations (p : Lookup -> bool) (ds : DenyConnectionStore) : nat :=
  length (List.filter p (lookups ds)).

(** The queue holds exactly one entry for every live Connection. *)
Definition consistent (ds : DenyConnectionStore) : Prop :=
  NoDup (queueKeys (expirePriorityQueue ds))
  /\ forall k : ConnectionKey,
       k ∈ queueKeys (expirePriorityQueue ds) <-> is_Some (connections ds !! k).

Definition NewDenyConnectionStore (activeTimeout idleTimeout : Z) : DenyConnectionStore :=
  {| connections := ∅; expirePriorityQueue := [];
     activeFlowTimeout := activeTimeout; idleFlowTimeout := idleTimeout;
     lookups := []; deniedConnectionCount := 0 |}.

Section Store.
Context `{Providers}.

(** Modelled from the spec: a call of a provider of section 6 by the store,
    which the store's [lookups] record. *)
Definition resolveInterface (ip : list Z) (log : list Lookup)
    : option InterfaceMetadata * list Lookup :=
  (ResolveInterfaceByAddress ip, log ++ [InterfaceLookup ip]).

Definition resolveService (ip : list Z) (port protocol : Z) (log : list Lookup)
    : option string * list Lookup :=
  (ResolveServiceByAddress ip port protocol, log ++ [ServiceLookup ip port protocol]).

(** Modelled from the spec: enrichment (section 4.2), performed at insertion
    only.  The interface is resolved for the source address and for the
    destination address, the service for the destination address, port and
    protocol: the three lookups the test of the package expects from its
    mocks.  A miss leaves the fields as they are (section 4.1). *)
Definition enrich (conn : Connection) (log : list Lookup)
    : Connection * list Lookup :=
  let key := FlowKey conn in
  let '(src, log) := resolveInterface (SourceAddress key) log in
  let '(dst, log) := resolveInterface (DestinationAddress key) log in
  let '(svc, log) :=
    resolveService (DestinationAddress key) (DestinationPort key) (Protocol key) log in
  ({| FlowKey := FlowKey conn;
      StartTime := StartTime conn;
      StopTime := StopTime conn;
      OriginalBytes := OriginalBytes conn;
      OriginalPackets := OriginalPackets conn;
      IsActive := IsActive conn;
      DestinationServiceAddress := DestinationServiceAddress conn;
      DestinationServicePort := DestinationServicePort conn;
      DestinationServicePortName :=
        match svc with Some name => name | None => DestinationServicePortName conn end;
      SourcePodName :=
        match src with Some i => PodName i | None => SourcePodName conn end;
      SourcePodNamespace :=
        match src with Some i => PodNamespace i | None => SourcePodNamespace conn end;
      DestinationPodName :=
        match dst with Some i => PodName i | None => DestinationPodName conn end;
      DestinationPodNamespace :=
        match dst with Some i => PodNamespace i | None => DestinationPodNamespace conn end |},
   log).

(** Modelled from the spec: the Connection stored by an insert (section
    4.1): enriched, StartTime the observed time, IsActive set. *)
Definition inserted (conn : Connection) (timeSeen : Instant) (log : list Lookup)
    : Connection * list Lookup :=
  let '(conn, log) := enrich conn log in
  ({| FlowKey := FlowKey conn;
      StartTime := timeSeen;
      StopTime := StopTime conn;
      OriginalBytes := OriginalBytes conn;
      OriginalPackets := OriginalPackets conn;
      IsActive := true;
      DestinationServiceAddress := DestinationServiceAddress conn;
      DestinationServicePort := DestinationServicePort conn;
      DestinationServicePortName := DestinationServicePortName conn;
      SourcePodName := SourcePodName conn;
      SourcePodNamespace := SourcePodNamespace conn;
      DestinationPodName := DestinationPodName conn;
      DestinationPodNamespace := DestinationPodNamespace conn |},
   log).

(** Modelled from the spec: the Connection stored by an update (section
    4.1): bytes grow by the delta and packets by one, StopTime is the later
    of the current one and the observed time, StartTime and enrichment are
    kept. *)
Definition updated (existing : Connection) (timeSeen : Instant) (bytes : Z)
    : Connection :=
  {| FlowKey := FlowKey existing;
     StartTime := StartTime existing;
     StopTime := Z.max (StopTime existing) timeSeen;
     OriginalBytes := uint64 (OriginalBytes existing + bytes);
     OriginalPackets := uint64 (OriginalPackets existing + 1);
     IsActive := IsActive existing;
     DestinationServiceAddress := DestinationServiceAddress existing;
     DestinationServicePort := DestinationServicePort existing;
     DestinationServicePortName := DestinationServicePortName existing;
     SourcePodName := SourcePodName existing;
     SourcePodNamespace := SourcePodNamespace existing;
     DestinationPodName := DestinationPodName existing;
     DestinationPodNamespace := DestinationPodNamespace existing |}.

(** Modelled from the spec: [AddOrUpdateConn] of section 4.1 (with the gauge
    of section 4.4); the implementation of the store is not among the
    sources. *)
Definition AddOrUpdateConn (conn : Connection) (timeSeen : Instant) (bytes : Z)
    (ds : DenyConnectionStore) : DenyConnectionStore :=
  let connKey := NewConnectionKey conn in
  match connections ds !! connKey with
  | Some existing =>
      let conns := <[connKey := updated existing timeSeen bytes]> (connections ds) in
      {| connections := conns;
         expirePriorityQueue :=
           queueReschedule connKey (timeSeen + activeFlowTimeout ds)
             (expirePriorityQueue ds);
         activeFlowTimeout := activeFlowTimeout ds;
         idleFlowTimeout := idleFlowTimeout ds;
         lookups := lookups ds;
         deniedConnectionCount := Z.of_nat (size conns) |}
  | None =>
      let '(new, log) := inserted conn timeSeen (lookups ds) in
      let conns := <[connKey := new]> (connections ds) in
      {| connections := conns;
         expirePriorityQueue :=
           queueInsert (mkEntry connKey (timeSeen + activeFlowTimeout ds))
             (expirePriorityQueue ds);
         activeFlowTimeout := activeFlowTimeout ds;
         idleFlowTimeout := idleFlowTimeout ds;
         lookups := log;
         deniedConnectionCount := Z.of_nat (size conns) |}
  end.


Definition Len (ds : DenyConnectionStore) : nat := size (connections ds).

Definition DeleteConnByKey (key : ConnectionKey) (ds : DenyConnectionStore)
    : DenyConnectionStore :=
  let conns := delete key (connections ds) in
  {| connections := conns;
     expirePriorityQueue := queueRemove key (expirePriorityQueue ds);
     activeFlowTimeout := activeFlowTimeout ds;
     idleFlowTimeout := idleFlowTimeout ds;
     lookups := lookups ds;
     deniedConnectionCount := Z.of_nat (size conns) |}.

(** Sequences of store operations. *)
Inductive Operation : Type :=
| OpAddOrUpdate (conn : Connection) (timeSeen : Instant) (bytes : Z)
| OpDelete (key : ConnectionKey).

Definition apply (op : Operation) (ds : DenyConnectionStore) : DenyConnectionStore :=
  match op with
  | OpAddOrUpdate conn timeSeen bytes => AddOrUpdateConn conn timeSeen bytes ds
  | OpDelete key => DeleteConnByKey key ds
  end.

Definition run (ops : list Operation) (ds : DenyConnectionStore) : DenyConnectionStore :=
  fold_left (fun ds op => apply op ds) ops ds.

(** A call of [AddOrUpdateConn] by its arguments. *)
Definition addOrUpdate (call : Connection * Instant * Z) : Operation :=
  let '(conn, timeSeen, bytes) := call in OpAddOrUpdate conn timeSeen bytes.

End Store.

(** The flow and the mocks of [TestDenyConnectionStore_AddOrUpdateConn]. *)
Definition testTuple : Tuple :=
  {| SourceAddress := [1; 2; 3; 4]; DestinationAddress := [4; 3; 2; 1];
     Protocol := 6; SourcePort := 65280; DestinationPort := 255 |}.

Definition testFlow (refTime : Instant) : Connection :=
  {| FlowKey := testTuple;
     StartTime := refTime - 20 * GoTime.Second;
     StopTime := refTime - 20 * GoTime.Second;
     OriginalBytes := 60;
     OriginalPackets := 1;
     IsActive := true;
     DestinationServiceAddress := DestinationAddress testTuple;
     DestinationServicePort := DestinationPort testTuple;
     DestinationServicePortName := EmptyString;
     SourcePodName := EmptyString;
     SourcePodNamespace := EmptyString;
     DestinationPodName := EmptyString;
     DestinationPodNamespace := EmptyString |}.


Definition testProviders : Providers :=
  {| ResolveServiceByAddress := fun ip port protocol =>
       if decide (ip = [4; 3; 2; 1] /\ port = 255 /\ protocol = 6)
       then Some "serviceNS1/service1:255" else None;
     ResolveInterfaceByAddress := fun _ => None |}.

End connections.

(** ** [pkg/agent/multicast]: IGMP snooping *)

(** [antrea.io/libOpenflow/protocol]: the IGMP message types and group
    record types (RFC 2236, RFC 3376) and the messages, with the fields
    this package reads or writes. *)
Module protocol.

Definition IPv4_MSG : Z := 2048.
Definition IGMPQuery : Z := 17.
Definition IGMPv1Report : Z := 18.
Definition IGMPv2Report : Z := 22.
Definition IGMPv2LeaveGroup : Z := 23.
Definition IGMPv3Report : Z := 34.
Definition IGMPIsIn : Z := 1.
Definition IGMPToIn : Z := 3.

Module IGMPv1or2.
Record t : Type := mk {
  Type_ : Z;
  MaxResponseTime : Z;
  Checksum : Z;
  GroupAddress : list Z
}.
End IGMPv1or2.

Module IGMPv3Query.
Record t : Type := mk {
  Type_ : Z;
  MaxResponseTime : Z;
  GroupAddress : list Z;
  SuppressRouterProcessing : bool;
  RobustnessValue : Z;
  IntervalTime : Z;
  NumberOfSources : Z
}.
End IGMPv3Query.

Module IGMPv3GroupRecord.
Record t : Type := mk {
  Type_ : Z;
  NumberOfSources : Z;
  MulticastAddress : list Z
}.
End IGMPv3GroupRecord.

Module IGMPv3MembershipReport.
Record t : Type := mk {
  Type_ : Z;
  GroupRecords : list IGMPv3GroupRecord.t
}.
End IGMPv3MembershipReport.

(** The interface [IGMPMessage] with its three implementations. *)
Inductive IGMPMessage : Type :=
| V1or2 (m : IGMPv1or2.t)
| V3Query (m : IGMPv3Query.t)
| V3MembershipReport (m : IGMPv3MembershipReport.t).

Definition GetMessageType (m : IGMPMessage) : Z :=
  match m with
  | V1or2 m => IGMPv1or2.Type_ m
  | V3Query m => IGMPv3Query.Type_ m
  | V3MembershipReport m => IGMPv3MembershipReport.Type_ m
  end.

(** An IPv4 packet ([IHL] is a [uint8], [Length] a [uint16]) with its
    payload already marshalled, and an Ethernet frame carrying it or
    something else. *)
Record IPv4 : Type := mkIPv4 {
  Protocol : Z;
  Length : Z;
  IHL : Z;
  Data : list Z
}.

Inductive Payload : Type :=
| PayloadIPv4 (p : IPv4)
| PayloadOther.

Record Ethernet : Type := mkEthernet {
  Ethertype : Z;
  EthernetData : Payload;
  Len : Z
}.

End protocol.

(** [UnmarshalBinary] of the three IGMP messages of libOpenflow. *)
Class IGMPDecoders : Type := {
  UnmarshalIGMPv1or2 : list Z -> protocol.IGMPv1or2.t + Error;
  UnmarshalIGMPv3Query : list Z -> protocol.IGMPv3Query.t + Error;
  UnmarshalIGMPv3MembershipReport
    : list Z -> protocol.IGMPv3MembershipReport.t + Error
}.

Module multicast.

Definition IGMPProtocolNumber : Z := 2.

Definition uint8 (n : Z) : Z := n mod 2 ^ 8.
Definition uint16 (n : Z) : Z := n mod 2 ^ 16.
Definition uint64 (n : Z) : Z := n mod 2 ^ 64.

(** [igmpMaxResponseTime] is ten seconds; the "Max Resp Code" is in tenths
    of a second. *)
Definition igmpMaxResponseTime : GoTime.Duration := 10 * GoTime.Second.
Definition igmpQueryDstMac : list Z := [1; 0; 94; 0; 0; 1].

(** [types.McastAllHosts], 224.0.0.1. *)
Definition McastAllHosts : list Z := [224; 0; 0; 1].

(** [interfacestore.InterfaceConfig], with the fields read here; only the
    container interface type is told apart. *)
Inductive InterfaceType : Type :=
| ContainerInterface
| OtherInterface (kind : Z).

Record InterfaceConfig : Type := mkInterfaceConfig {
  Type_ : InterfaceType;
  InterfaceName : string;
  OFPort : Z;
  PodName : string;
  PodNamespace : string
}.

(** [mcastGroupEvent] of this package. *)
Inductive eventType : Type := groupJoin | groupLeave.

Record mcastGroupEvent : Type := mkEvent {
  group : list Z;
  eType : eventType;
  time : Z;
  iface : InterfaceConfig
}.

(** [types.IGMPNPRuleInfo] and [types.RuleMetric]. *)
Inductive RuleAction : Type :=
| RuleActionAllow
| RuleActionDrop
| RuleActionReject
| RuleActionPass.

Inductive NetworkPolicyType : Type :=
| K8sNetworkPolicy
| AntreaClusterNetworkPolicy
| AntreaNetworkPolicy.

Record IGMPNPRuleInfo : Type := mkRuleInfo {
  RuleAction_ : RuleAction;
  UUID : string;
  NPType : option NetworkPolicyType;
  Name : string
}.

Record RuleMetric : Type := mkRuleMetric {
  Bytes : Z;
  Packets : Z
}.

(** [types.McastNetworkPolicyController.GetIGMPNPRuleInfo]. *)
Definition Validator : Type :=
  string -> string -> list Z -> Z -> option IGMPNPRuleInfo * option Error.

(** A packet-out the OpenFlow client was asked to send, and the client: it
    answers each request with success or an error, which may depend on what
    it was asked before. *)
Record PacketOut : Type := mkPacketOut {
  dstMAC : list Z;
  dstIP : list Z;
  outPort : Z;
  message : protocol.IGMPMessage
}.

Record OFClient : Type := mkOFClient {
  sendAnswer : list (PacketOut * option Error) -> PacketOut -> option Error;
  requested : list (PacketOut * option Error)
}.

Definition SendIGMPQueryPacketOut (p : PacketOut) (c : OFClient)
    : option Error * OFClient :=
  let a := sendAnswer c (requested c) p in
  (a, {| sendAnswer := sendAnswer c; requested := requested c ++ [(p, a)] |}).

(** The snooper; [eventCh] holds the events sent on the channel, oldest
    first. *)
Record IGMPSnooper : Type := mkSnooper {
  ofClient : OFClient;
  ifaceStore : Z -> option InterfaceConfig;
  eventCh : list mcastGroupEvent;
  validator : option Validator;
  queryInterval : GoTime.Duration;
  igmpReportANPStats : gmap string (gmap string RuleMetric);
  igmpReportACNPStats : gmap string (gmap string RuleMetric)
}.

Definition withOfClient (c : OFClient) (s : IGMPSnooper) : IGMPSnooper :=
  {| ofClient := c; ifaceStore := ifaceStore s; eventCh := eventCh s;
     validator := validator s; queryInterval := queryInterval s;
     igmpReportANPStats := igmpReportANPStats s;
     igmpReportACNPStats := igmpReportACNPStats s |}.

Definition withEventCh (events : list mcastGroupEvent) (s : IGMPSnooper)
    : IGMPSnooper :=
  {| ofClient := ofClient s; ifaceStore := ifaceStore s; eventCh := events;
     validator := validator s; queryInterval := queryInterval s;
     igmpReportANPStats := igmpReportANPStats s;
     igmpReportACNPStats := igmpReportACNPStats s |}.

Definition withANPStats (m : gmap string (gmap string RuleMetric)) (s : IGMPSnooper)
    : IGMPSnooper :=
  {| ofClient := ofClient s; ifaceStore := ifaceStore s; eventCh := eventCh s;
     validator := validator s; queryInterval := queryInterval s;
     igmpReportANPStats := m;
     igmpReportACNPStats := igmpReportACNPStats s |}.

Definition withACNPStats (m : gmap string (gmap string RuleMetric)) (s : IGMPSnooper)
    : IGMPSnooper :=
  {| ofClient := ofClient s; ifaceStore := ifaceStore s; eventCh := eventCh s;
     validator := validator s; queryInterval := queryInterval s;
     igmpReportANPStats := igmpReportANPStats s;
     igmpReportACNPStats := m |}.

(** A packet-in: the [OXM_OF_IN_PORT] match field, if any, and the frame. *)
Record PacketIn : Type := mkPacketIn {
  inPort : option Z;
  packetData : protocol.Ethernet
}.

Definition parseSrcInterface (pktIn : PacketIn) (s : IGMPSnooper)
    : InterfaceConfig + Error :=
  match inPort pktIn with
  | None => inr (Errorf "in_port field not found")
  | Some ofPort =>
      match ifaceStore s ofPort with
      | None => inr (Errorf "target Pod not found")
      | Some ifaceConfig => inl ifaceConfig
      end
  end.

(** [updateRuleStats], the closure of [addToIGMPReportNPStatsMap]. *)
Definition updateRuleStats (igmpReportStatsMap : gmap string (gmap string RuleMetric))
    (uuid name : string) (packetLen : Z) : gmap string (gmap string RuleMetric) :=
  let rules := default ∅ (igmpReportStatsMap !! uuid) in
  let t := default (mkRuleMetric 0 0) (rules !! name) in
  let t := {| Bytes := uint64 (Bytes t + packetLen);
              Packets := uint64 (Packets t + 1) |} in
  <[uuid := <[name := t]> rules]> igmpReportStatsMap.

Definition addToIGMPReportNPStatsMap (item : IGMPNPRuleInfo) (packetLen : Z)
    (s : IGMPSnooper) : Go IGMPSnooper :=
  match NPType item with
  | None => Panic "invalid memory address or nil pointer dereference"
  | Some AntreaNetworkPolicy =>
      Ret (withANPStats
             (updateRuleStats (igmpReportANPStats s) (UUID item) (Name item) packetLen) s)
  | Some AntreaClusterNetworkPolicy =>
      Ret (withACNPStats
             (updateRuleStats (igmpReportACNPStats s) (UUID item) (Name item) packetLen) s)
  | Some K8sNetworkPolicy => Ret s
  end.

(** [collectStats] hands out both maps and starts new ones. *)
Definition collectStats (s : IGMPSnooper)
    : (gmap string (gmap string RuleMetric) * gmap string (gmap string RuleMetric))
      * IGMPSnooper :=
  ((igmpReportANPStats s, igmpReportACNPStats s),
   withACNPStats ∅ (withANPStats ∅ s)).

(** Reports counted one after the other. *)
Fixpoint addReports (reports : list (IGMPNPRuleInfo * Z)) (s : IGMPSnooper)
    : Go IGMPSnooper :=
  match reports with
  | [] => Ret s
  | (item, packetLen) :: reports' =>
      s <~ addToIGMPReportNPStatsMap item packetLen s ;;
      addReports reports' s
  end.

Definition validate (event : mcastGroupEvent) (igmpType : Z)
    (packetInData : protocol.Ethernet) (s : IGMPSnooper)
    : Go ((bool * option Error) * IGMPSnooper) :=
  match validator s with
  | None => Ret ((true, None), s)
  | Some v =>
      match Type_ (iface event) with
      | OtherInterface _ => Ret ((true, Some (Errorf "interface is not container")), s)
      | ContainerInterface =>
          match v (PodName (iface event)) (PodNamespace (iface event))
                  (group event) igmpType with
          | (_, Some err) => Ret ((false, Some err), s)
          | (None, None) => Ret ((true, None), s)
          | (Some ruleInfo, None) =>
              s <~ addToIGMPReportNPStatsMap ruleInfo
                     (uint64 (protocol.Len packetInData)) s ;;
              match RuleAction_ ruleInfo with
              | RuleActionDrop => Ret ((false, None), s)
              | _ => Ret ((true, None), s)
              end
          end
      end
  end.

Definition withEType (t : eventType) (event : mcastGroupEvent) : mcastGroupEvent :=
  {| group := group event; eType := t; time := time event; iface := iface event |}.

Definition validatePacketAndNotify (event : mcastGroupEvent) (igmpType : Z)
    (packetInData : protocol.Ethernet) (s : IGMPSnooper) : Go IGMPSnooper :=
  r <~ validate event igmpType packetInData s ;;
  let '((allow, err), s) := r in
  match err with
  | Some _ => Ret s
  | None =>
      let event := if allow then event else withEType groupLeave event in
      Ret (withEventCh (eventCh s ++ [event]) s)
  end.

(** [uint8(d.Seconds())] for a duration of whole seconds below 256; the
    conversion of other values is left to the parameter. *)
Section Queries.
Variable secondsAsUint8 : GoTime.Duration -> Z.

Definition generateIGMPQueryPacket (group : list Z) (version : Z)
    (queryInterval : GoTime.Duration) : protocol.IGMPMessage + Error :=
  let respTime := uint8 (igmpMaxResponseTime / GoTime.Second * 10) in
  if version =? 1 then
    inl (protocol.V1or2
           {| protocol.IGMPv1or2.Type_ := protocol.IGMPQuery;
              protocol.IGMPv1or2.MaxResponseTime := 0;
              protocol.IGMPv1or2.Checksum := 0;
              protocol.IGMPv1or2.GroupAddress := group |})
  else if version =? 2 then
    inl (protocol.V1or2
           {| protocol.IGMPv1or2.Type_ := protocol.IGMPQuery;
              protocol.IGMPv1or2.MaxResponseTime := respTime;
              protocol.IGMPv1or2.Checksum := 0;
              protocol.IGMPv1or2.GroupAddress := group |})
  else if version =? 3 then
    inl (protocol.V3Query
           {| protocol.IGMPv3Query.Type_ := protocol.IGMPQuery;
              protocol.IGMPv3Query.MaxResponseTime := respTime;
              protocol.IGMPv3Query.GroupAddress := group;
              protocol.IGMPv3Query.SuppressRouterProcessing := false;
              protocol.IGMPv3Query.RobustnessValue := 0;
              protocol.IGMPv3Query.IntervalTime := secondsAsUint8 queryInterval;
              protocol.IGMPv3Query.NumberOfSources := 0 |})
  else inr (Errorf "unsupported IGMP version").

Fixpoint queryIGMP (group : list Z) (versions : list Z) (s : IGMPSnooper)
    : option Error * IGMPSnooper :=
  match versions with
  | [] => (None, s)
  | version :: versions' =>
      match generateIGMPQueryPacket group version (queryInterval s) with
      | inr err => (Some err, s)
      | inl igmp =>
          let outPort := 0 in
          let '(err, c) :=
            SendIGMPQueryPacketOut
              (mkPacketOut igmpQueryDstMac McastAllHosts outPort igmp) (ofClient s) in
          let s := withOfClient c s in
          match err with
          | Some e => (Some e, s)
          | None => queryIGMP group versions' s
          end
      end
  end.

End Queries.

Section Parsing.
Context `{IGMPDecoders}.

Definition parseIGMPPacket (pkt : protocol.Ethernet)
    : Go (protocol.IGMPMessage + Error) :=
  if negb (protocol.Ethertype pkt =? protocol.IPv4_MSG)
  then Ret (inr (Errorf "not IPv4 packet"))
  else
    match protocol.EthernetData pkt with
    | protocol.PayloadOther => Ret (inr (Errorf "failed to parse IPv4 packet"))
    | protocol.PayloadIPv4 ipPacket =>
        if negb (protocol.Protocol ipPacket =? IGMPProtocolNumber)
        then Ret (inr (Errorf "not IGMP packet"))
        else
          let data := protocol.Data ipPacket in
          let igmpLength :=
            uint16 (protocol.Length ipPacket
                    - uint16 (uint8 (4 * protocol.IHL ipPacket))) in
          if igmpLength =? 8 then
            match UnmarshalIGMPv1or2 data with
            | inr err => Ret (inr err)
            | inl igmp => Ret (inl (protocol.V1or2 igmp))
            end
          else
            match data with
            | [] => Panic "index out of range [0] with length 0"
            | first :: _ =>
                if first =? protocol.IGMPQuery then
                  match UnmarshalIGMPv3Query data with
                  | inr err => Ret (inr err)
                  | inl igmp => Ret (inl (protocol.V3Query igmp))
                  end
                else if first =? protocol.IGMPv3Report then
                  match UnmarshalIGMPv3MembershipReport data with
                  | inr err => Ret (inr err)
                  | inl igmp => Ret (inl (protocol.V3MembershipReport igmp))
                  end
                else Ret (inr (Errorf "unknown igmp packet"))
            end
    end.

(** The loop of [processPacketIn] over the group records of a report. *)
Fixpoint notifyGroupRecords (now : Z) (ifaceConfig : InterfaceConfig)
    (igmpType : Z) (packetInData : protocol.Ethernet)
    (records : list protocol.IGMPv3GroupRecord.t) (s : IGMPSnooper)
    : Go IGMPSnooper :=
  match records with
  | [] => Ret s
  | gr :: records' =>
      let evtType :=
        if ((protocol.IGMPv3GroupRecord.Type_ gr =? protocol.IGMPIsIn)
            || (protocol.IGMPv3GroupRecord.Type_ gr =? protocol.IGMPToIn))
           && (protocol.IGMPv3GroupRecord.NumberOfSources gr =? 0)
        then groupLeave else groupJoin in
      let event := {| group := protocol.IGMPv3GroupRecord.MulticastAddress gr;
                      eType := evtType; time := now; iface := ifaceConfig |} in
      s <~ validatePacketAndNotify event igmpType packetInData s ;;
      notifyGroupRecords now ifaceConfig igmpType packetInData records' s
  end.

(** [processPacketIn]; [now] is what [time.Now()] returns. *)
Definition processPacketIn (now : Z) (pktIn : PacketIn) (s : IGMPSnooper)
    : Go (option Error * IGMPSnooper) :=
  match parseSrcInterface pktIn s with
  | inr err => Ret (Some err, s)
  | inl ifaceConfig =>
      r <~ parseIGMPPacket (packetData pktIn) ;;
      match r with
      | inr err => Ret (Some err, s)
      | inl igmp =>
          let igmpType := protocol.GetMessageType igmp in
          if (igmpType =? protocol.IGMPv1Report) || (igmpType =? protocol.IGMPv2Report)
          then
            match igmp with
            | protocol.V1or2 m =>
                let event := {| group := protocol.IGMPv1or2.GroupAddress m;
                                eType := groupJoin; time := now;
                                iface := ifaceConfig |} in
                s <~ validatePacketAndNotify event igmpType (packetData pktIn) s ;;
                Ret (None, s)
            | _ => Panic "interface conversion: not *protocol.IGMPv1or2"
            end
          else if igmpType =? protocol.IGMPv3Report then
            match igmp with
            | protocol.V3MembershipReport msg =>
                s <~ notifyGroupRecords now ifaceConfig igmpType (packetData pktIn)
                       (protocol.IGMPv3MembershipReport.GroupRecords msg) s ;;
                Ret (None, s)
            | _ => Panic "interface conversion: not *protocol.IGMPv3MembershipReport"
            end
          else if igmpType =? protocol.IGMPv2LeaveGroup then
            match igmp with
            | protocol.V1or2 m =>
                let event := {| group := protocol.IGMPv1or2.GroupAddress m;
                                eType := groupLeave; time := now;
                                iface := ifaceConfig |} in
                Ret (None, withEventCh (eventCh s ++ [event]) s)
            | _ => Panic "interface conversion: not *protocol.IGMPv1or2"
            end
          else Ret (None, s)
      end
  end.

End Parsing.

(** The versions [generateIGMPQueryPacket] has a query for. *)
Definition supported (version : Z) : Prop :=
  version = 1 \/ version = 2 \/ version = 3.

(** Every rule the validator of the snooper names has a policy type. *)
Definition typedRules (s : IGMPSnooper) : Prop :=
  forall v podName podNamespace group igmpType ruleInfo,
    validator s = Some v ->
    fst (v podName podNamespace group igmpType) = Some ruleInfo ->
    NPType ruleInfo <> None.

(** The group records [processPacketIn] takes for a leave: "is include" or
    "change to include" with no source. *)
Definition leaveRecord (gr : protocol.IGMPv3GroupRecord.t) : bool :=
  ((protocol.IGMPv3GroupRecord.Type_ gr =? protocol.IGMPIsIn)
   || (protocol.IGMPv3GroupRecord.Type_ gr =? protocol.IGMPToIn))
  && (protocol.IGMPv3GroupRecord.NumberOfSources gr =? 0).

(** *** Reading the statistics *)

#[global] Instance NetworkPolicyType_eq_dec : EqDecision NetworkPolicyType.
Proof. solve_decision. Defined.

(** The metric of a rule in a statistics map, if the rule has one. *)
Definition lookupMetric (m : gmap string (gmap string RuleMetric))
    (uuid name : string) : option RuleMetric :=
  m !! uuid ≫= (fun rules => rules !! name).

(** The lengths of the reports of one rule of one policy type. *)
Definition reportsOf (t : NetworkPolicyType) (uuid name : string)
    (reports : list (IGMPNPRuleInfo * Z)) : list Z :=
  map snd
    (filter (fun r => NPType (fst r) = Some t /\ UUID (fst r) = uuid
                      /\ Name (fst r) = name) reports).

Definition total (lens : list Z) : Z := fold_right Z.add 0 lens.

(** What a rule is expected to show after reports of these lengths, from
    what it showed before, and from nothing. *)
Definition metricAfter (start : option RuleMetric) (lens : list Z)
    : option RuleMetric :=
  match lens with
  | [] => start
  | _ =>
      let t := default (mkRuleMetric 0 0) start in
      Some {| Bytes := uint64 (Bytes t + total lens);
              Packets := uint64 (Packets t + Z.of_nat (length lens)) |}
  end.

Definition metricOf (lens : list Z) : option RuleMetric := metricAfter None lens.

End multicast.

(** A decoder of IGMP payloads for the examples: the fixed fields of a v1
    or v2 message, and the group records of a v3 report that list no
    source. *)
Fixpoint decodeGroupRecords (data : list Z) : list protocol.IGMPv3GroupRecord.t :=
  match data with
  | kind :: _ :: high :: low :: a :: b :: c :: d :: rest =>
      {| protocol.IGMPv3GroupRecord.Type_ := kind;
         protocol.IGMPv3GroupRecord.NumberOfSources := high * 256 + low;
         protocol.IGMPv3GroupRecord.MulticastAddress := [a; b; c; d] |}
      :: decodeGroupRecords rest
  | _ => []
  end.

#[local] Instance snoopDecoders : IGMPDecoders := {
  UnmarshalIGMPv1or2 data :=
    match data with
    | [kind; maxResponse; high; low; a; b; c; d] =>
        inl {| protocol.IGMPv1or2.Type_ := kind;
               protocol.IGMPv1or2.MaxResponseTime := maxResponse;
               protocol.IGMPv1or2.Checksum := high * 256 + low;
               protocol.IGMPv1or2.GroupAddress := [a; b; c; d] |}
    | _ => inr (Errorf "the []byte is too short to unmarshal a full IGMPv1or2 message")
    end;
  UnmarshalIGMPv3Query data :=
    inr (Errorf "the []byte is too short to unmarshal a full IGMPv3Query message");
  UnmarshalIGMPv3MembershipReport data :=
    match data with
    | kind :: _ :: _ :: _ :: _ :: _ :: _ :: _ :: records =>
        inl {| protocol.IGMPv3MembershipReport.Type_ := kind;
               protocol.IGMPv3MembershipReport.GroupRecords :=
                 decodeGroupRecords records |}
    | _ => inr (Errorf "the []byte is too short to unmarshal a full IGMPv3MembershipReport message")
    end
}.

(** A snooper of a node with one Pod on port 3 and the gateway on port 1,
    whose validator knows a dropping rule for 225.1.2.3 and fails for
    225.0.0.9. *)
Definition podInterface : multicast.InterfaceConfig :=
  {| multicast.Type_ := multicast.ContainerInterface;
     multicast.InterfaceName := "pod-1-eth0"; multicast.OFPort := 3;
     multicast.PodName := "pod-1"; multicast.PodNamespace := "default" |}.

Definition gatewayInterface : multicast.InterfaceConfig :=
  {| multicast.Type_ := multicast.OtherInterface 1;
     multicast.InterfaceName := "antrea-gw0"; multicast.OFPort := 1;
     multicast.PodName := EmptyString; multicast.PodNamespace := EmptyString |}.

Definition snoopStore (ofPort : Z) : option multicast.InterfaceConfig :=
  if ofPort =? 3 then Some podInterface
  else if ofPort =? 1 then Some gatewayInterface
  else None.

Definition dropRule : multicast.IGMPNPRuleInfo :=
  {| multicast.RuleAction_ := multicast.RuleActionDrop;
     multicast.UUID := "uid-1";
     multicast.NPType := Some multicast.AntreaNetworkPolicy;
     multicast.Name := "rule-1" |}.

Definition clusterRule : multicast.IGMPNPRuleInfo :=
  {| multicast.RuleAction_ := multicast.RuleActionAllow;
     multicast.UUID := "uid-2";
     multicast.NPType := Some multicast.AntreaClusterNetworkPolicy;
     multicast.Name := "rule-1" |}.

Definition snoopValidator : multicast.Validator :=
  fun podName podNamespace group igmpType =>
    if decide (group = [225; 1; 2; 3]) then (Some dropRule, None)
    else if decide (group = [225; 0; 0; 9])
         then (None, Some (Errorf "validator unavailable"))
         else (None, None).

Definition acceptingClient : multicast.OFClient :=
  {| multicast.sendAnswer := fun _ _ => None; multicast.requested := [] |}.

Definition refusingSecondSend : multicast.OFClient :=
  {| multicast.sendAnswer := fun h _ =>
       if (length h =? 1)%nat then Some (DriverError "connection lost") else None;
     multicast.requested := [] |}.

Definition validatingSnooper : multicast.IGMPSnooper :=
  {| multicast.ofClient := acceptingClient;
     multicast.ifaceStore := snoopStore;
     multicast.eventCh := [];
     multicast.validator := Some snoopValidator;
     multicast.queryInterval := 125 * GoTime.Second;
     multicast.igmpReportANPStats := ∅;
     multicast.igmpReportACNPStats := ∅ |}.

Definition wholeSeconds (d : GoTime.Duration) : Z :=
  multicast.uint8 (d / GoTime.Second).

Definition igmpFrame (data : list Z) : protocol.Ethernet :=
  {| protocol.Ethertype := protocol.IPv4_MSG;
     protocol.EthernetData :=
       protocol.PayloadIPv4
         {| protocol.Protocol := multicast.IGMPProtocolNumber;
            protocol.Length := 20 + Z.of_nat (length data);
            protocol.IHL := 5;
            protocol.Data := data |};
     protocol.Len := 34 + Z.of_nat (length data) |}.

Definition v2ReportFrame : protocol.Ethernet :=
  igmpFrame [22; 0; 0; 0; 225; 1; 2; 3].

Definition leaveFrame : protocol.Ethernet :=
  igmpFrame [23; 0; 0; 0; 225; 1; 2; 3].

Definition v3ReportFrame : protocol.Ethernet :=
  igmpFrame [34; 0; 0; 0; 0; 0; 0; 2;
             4; 0; 0; 0; 225; 1; 2; 3;
             3; 0; 0; 0; 225; 1; 2; 4].

Definition exampleReports : list (multicast.IGMPNPRuleInfo * Z) :=
  [(dropRule, 46); (clusterRule, 60); (dropRule, 60)].

(** * Properties *)

(** ** Strings *)

Section StringFacts.
Import GoStrings.

Lemma Split_nonempty (s : string) (sep : ascii) : Split s sep <> [].
Proof.
  destruct s as [|c s]; simpl; [discriminate|].
  destruct (Ascii.eqb c sep); [discriminate|].
  destruct (Split s sep); discriminate.
Qed.

Lemma Split_lacks (s : string) (sep : ascii) :
  lacks sep s = true -> Split s sep = [s].
Proof.
  induction s as [|c s IH]; simpl; [reflexivity|].
  intros Hl. apply andb_true_iff in Hl as [Hc Hs].
  apply negb_true_iff in Hc. rewrite Hc, (IH Hs). reflexivity.
Qed.

Lemma Split_app (a b : string) (sep : ascii) :
  lacks sep a = true ->
  Split (a +:+ String sep b) sep = a :: Split b sep.
Proof.
  induction a as [|c a IH]; simpl.
  - intros _. rewrite Ascii.eqb_refl. reflexivity.
  - intros Hl. apply andb_true_iff in Hl as [Hc Ha].
    apply negb_true_iff in Hc. rewrite Hc, (IH Ha). reflexivity.
Qed.

Lemma lacks_app (c : ascii) (a b : string) :
  lacks c (a +:+ b) = lacks c a && lacks c b.
Proof.
  induction a as [|d a IH]; simpl; [reflexivity|].
  rewrite IH, andb_assoc. reflexivity.
Qed.

Lemma append_assoc (a b c : string) : (a +:+ b) +:+ c = a +:+ (b +:+ c).
Proof.
  induction a as [|d a IH]; [reflexivity|].
  change (String d ((a +:+ b) +:+ c) = String d (a +:+ (b +:+ c))).
  f_equal. exact IH.
Qed.

Lemma length_zero_empty (s : string) :
  (Z.of_nat (String.length s) =? 0) = true <-> s = EmptyString.
Proof.
  destruct s; simpl; split; try reflexivity; discriminate.
Qed.

End StringFacts.

Section DsnFacts.
Import GoStrings clickhouseclient.

Lemma lacks_String (c d : ascii) (s : string) :
  lacks c (String d s) = negb (Ascii.eqb d c) && lacks c s.
Proof. reflexivity. Qed.

Lemma Split_joinWith (sep : ascii) (pieces : list string) :
  pieces <> [] ->
  Forall (fun p => lacks sep p = true) pieces ->
  Split (joinWith sep pieces) sep = pieces.
Proof.
  induction pieces as [|p pieces IH]; [congruence|].
  intros _ Hall. inversion Hall as [|? ? Hp Hrest]; subst.
  destruct pieces as [|q pieces].
  - simpl. apply Split_lacks, Hp.
  - change (joinWith sep (p :: q :: pieces))
      with (p +:+ String sep (joinWith sep (q :: pieces))).
    rewrite (Split_app _ _ _ Hp), IH; [reflexivity | discriminate | exact Hrest].
Qed.

Lemma lacks_joinWith (c sep : ascii) (pieces : list string) :
  Ascii.eqb sep c = false ->
  Forall (fun p => lacks c p = true) pieces ->
  lacks c (joinWith sep pieces) = true.
Proof.
  intros Hsep. induction pieces as [|p pieces IH]; [reflexivity|].
  intros Hall. inversion Hall as [|? ? Hp Hrest]; subst.
  destruct pieces as [|q pieces]; [exact Hp|].
  change (joinWith sep (p :: q :: pieces))
    with (p +:+ String sep (joinWith sep (q :: pieces))).
  rewrite lacks_app, Hp, lacks_String, Hsep, (IH Hrest). reflexivity.
Qed.

Lemma lacks_keyValue (c : ascii) (kv : string * string) :
  Ascii.eqb "=" c = false ->
  lacks c (fst kv) = true -> lacks c (snd kv) = true ->
  lacks c (keyValue kv) = true.
Proof.
  intros Hc Hk Hv. unfold keyValue.
  rewrite lacks_app, Hk, lacks_String, Hc, Hv. reflexivity.
Qed.

Lemma Split_keyValue (kv : string * string) :
  lacks "=" (fst kv) = true -> lacks "=" (snd kv) = true ->
  Split (keyValue kv) "=" = [fst kv; snd kv].
Proof.
  intros Hk Hv. unfold keyValue.
  rewrite (Split_app _ _ _ Hk), (Split_lacks _ _ Hv). reflexivity.
Qed.

Lemma dsnPairs_keyValues (kvs : list (string * string)) (m : gmap string string) :
  Forall (fun kv => lacks "=" (fst kv) = true /\ lacks "=" (snd kv) = true) kvs ->
  dsnPairs (map keyValue kvs) m
  = Ret (fold_left (fun m kv => <[fst kv := snd kv]> m) kvs m).
Proof.
  revert m. induction kvs as [|kv kvs IH]; intros m Hall; [reflexivity|].
  inversion Hall as [|? ? [Hk Hv] Hrest]; subst.
  simpl. rewrite (Split_keyValue _ Hk Hv). apply IH, Hrest.
Qed.

Lemma dsnSafe_boolText (b : bool) : dsnSafe (boolText b) = true.
Proof. destruct b; reflexivity. Qed.

Lemma dsnSafe_lacks (s : string) :
  dsnSafe s = true ->
  lacks "?" s = true /\ lacks "&" s = true /\ lacks "=" s = true.
Proof.
  unfold dsnSafe. intros Hs.
  apply andb_true_iff in Hs as [Hs H3]. apply andb_true_iff in Hs as [H1 H2].
  auto.
Qed.

Lemma getDataSourceName_text (ci : ClickHouseInput) (c : bool) :
  DatabaseURL ci <> EmptyString -> Username ci <> EmptyString ->
  Password ci <> EmptyString -> Compress ci = Some c ->
  getDataSourceName ci = Ret (dsnText ci c, None).
Proof.
  intros Hu Hn Hp Hc. unfold getDataSourceName, dsnText, dsnFields, len.
  destruct (Z.of_nat (String.length (DatabaseURL ci)) =? 0) eqn:E1.
  { apply length_zero_empty in E1. contradiction. }
  destruct (Z.of_nat (String.length (Username ci)) =? 0) eqn:E2.
  { apply length_zero_empty in E2. contradiction. }
  destruct (Z.of_nat (String.length (Password ci)) =? 0) eqn:E3.
  { apply length_zero_empty in E3. contradiction. }
  rewrite Hc. cbn [orb].
  destruct (Z.of_nat (String.length (Database ci)) >? 0), (Debug ci), c;
    rewrite !append_assoc; reflexivity.
Qed.

Lemma getDataSourceName_missing (ci : ClickHouseInput) :
  DatabaseURL ci = EmptyString \/ Username ci = EmptyString
  \/ Password ci = EmptyString ->
  getDataSourceName ci
  = Ret (EmptyString,
         Some (Errorf "URL, Username or Password missing for clickhouse DSN")).
Proof.
  intros Hm. unfold getDataSourceName, len.
  destruct Hm as [Hm | [Hm | Hm]]; rewrite Hm; cbn [String.length Z.of_nat Z.eqb orb];
    rewrite ?orb_true_r; reflexivity.
Qed.

Lemma GetDsnMap_text (ci : ClickHouseInput) (c : bool) (ch : ClickHouseExportProcess) :
  lacks "?" (DatabaseURL ci) = true ->
  dsnSafe (Username ci) = true -> dsnSafe (Password ci) = true ->
  dsnSafe (Database ci) = true ->
  dsn ch = dsnText ci c ->
  GetDsnMap ch
  = Ret (fold_left (fun m kv => <[fst kv := snd kv]> m) (dsnFields ci c)
           (<["databaseURL" := DatabaseURL ci]> ∅)).
Proof.
  intros Hurl Hn Hp Hd Hdsn.
  apply dsnSafe_lacks in Hn as (Hn1 & Hn2 & Hn3).
  apply dsnSafe_lacks in Hp as (Hp1 & Hp2 & Hp3).
  apply dsnSafe_lacks in Hd as (Hd1 & Hd2 & Hd3).
  pose proof (dsnSafe_lacks _ (dsnSafe_boolText (Debug ci))) as (Hg1 & Hg2 & Hg3).
  pose proof (dsnSafe_lacks _ (dsnSafe_boolText c)) as (Hc1 & Hc2 & Hc3).
  assert (Hfields : forall x : ascii,
    lacks x "username" = true -> lacks x "password" = true ->
    lacks x "database" = true -> lacks x "debug" = true ->
    lacks x "compress" = true ->
    lacks x (Username ci) = true -> lacks x (Password ci) = true ->
    lacks x (Database ci) = true -> lacks x (boolText (Debug ci)) = true ->
    lacks x (boolText c) = true ->
    Forall (fun kv => lacks x (fst kv) = true /\ lacks x (snd kv) = true)
      (dsnFields ci c)).
  { intros x K1 K2 K3 K4 K5 V1 V2 V3 V4 V5. unfold dsnFields.
    destruct (len (Database ci) >? 0); repeat constructor; assumption. }
  assert (Hpieces : forall x : ascii, Ascii.eqb "=" x = false ->
    Forall (fun kv => lacks x (fst kv) = true /\ lacks x (snd kv) = true)
      (dsnFields ci c) ->
    Forall (fun p => lacks x p = true) (map keyValue (dsnFields ci c))).
  { intros x Hx Hall. apply Forall_map. eapply Forall_impl; [exact Hall|].
    intros kv [Hk Hv]. apply lacks_keyValue; assumption. }
  unfold GetDsnMap. rewrite Hdsn. unfold dsnText.
  rewrite (Split_app _ _ _ Hurl), Split_lacks.
  2:{ apply lacks_joinWith; [reflexivity|].
      apply Hpieces; [reflexivity|]. apply Hfields; (reflexivity || assumption). }
  rewrite Split_joinWith.
  - apply dsnPairs_keyValues. apply Hfields; (reflexivity || assumption).
  - unfold dsnFields. discriminate.
  - apply Hpieces; [reflexivity|]. apply Hfields; (reflexivity || assumption).
Qed.

(** C10. For an input with non-empty DatabaseURL, Username and Password, a
    non-nil Compress and no [?], [&] or [=] in its fields,
    [getDataSourceName] succeeds and [GetDsnMap] on the resulting DSN gives
    back DatabaseURL, Username, Password, Database (when non-empty) and the
    Debug and Compress flags as "true"/"false"; with DatabaseURL, Username
    or Password empty, [getDataSourceName] returns an error. *)
Theorem dsn_round_trip (ci : ClickHouseInput) (ch : ClickHouseExportProcess) :
  (forall c : bool,
     DatabaseURL ci <> EmptyString -> Username ci <> EmptyString ->
     Password ci <> EmptyString -> Compress ci = Some c ->
     dsnSafe (DatabaseURL ci) = true -> dsnSafe (Username ci) = true ->
     dsnSafe (Password ci) = true -> dsnSafe (Database ci) = true ->
     exists (d : string) (m : gmap string string),
       getDataSourceName ci = Ret (d, None)
       /\ GetDsnMap (withDsn d ch) = Ret m
       /\ m !! "databaseURL" = Some (DatabaseURL ci)
       /\ m !! "username" = Some (Username ci)
       /\ m !! "password" = Some (Password ci)
       /\ (Database ci <> EmptyString -> m !! "database" = Some (Database ci))
       /\ m !! "debug" = Some (boolText (Debug ci))
       /\ m !! "compress" = Some (boolText c))
  /\ (DatabaseURL ci = EmptyString \/ Username ci = EmptyString
      \/ Password ci = EmptyString ->
      exists err, getDataSourceName ci = Ret (EmptyString, Some err)).
Proof.
  split.
  - intros c Hu Hn Hp Hc Su Sn Sp Sd.
    exists (dsnText ci c). eexists.
    split; [apply getDataSourceName_text; assumption|].
    split.
    { apply (GetDsnMap_text ci c); try assumption; [|reflexivity].
      apply dsnSafe_lacks in Su. tauto. }
    unfold dsnFields. destruct (len (Database ci) >? 0) eqn:Hd; cbn [app fold_left fst snd].
    + repeat split; intros; simplify_map_eq; reflexivity.
    + repeat split; intros; simplify_map_eq; try reflexivity.
      exfalso. unfold len in Hd.
      destruct (Database ci); [congruence|]. simpl in Hd. discriminate.
  - intros Hm. eexists. apply getDataSourceName_missing, Hm.
Qed.

Lemma dsn_round_trip_witness :
  exists (d : string) (m : gmap string string),
    getDataSourceName exampleInput = Ret (d, None)
    /\ GetDsnMap (withDsn d exampleProcess) = Ret m
    /\ m !! "databaseURL" = Some "tcp://clickhouse-clickhouse.flow-visibility.svc:9000"
    /\ m !! "username" = Some "clickhouse_operator"
    /\ m !! "password" = Some "clickhouse_operator_password"
    /\ (Database exampleInput <> EmptyString -> m !! "database" = Some "default")
    /\ m !! "debug" = Some "false"
    /\ m !! "compress" = Some "true".
Proof.
  apply (proj1 (dsn_round_trip exampleInput exampleProcess) true);
    first [discriminate | reflexivity].
Defined.

End DsnFacts.


(** ** The insert statement and the row *)

Section SchemaFacts.
Import clickhouseclient.

Lemma statementColumns_insertQuery :
  statementColumns insertQuery = map fieldName execFields.
Proof. vm_compute. reflexivity. Qed.

Lemma statementPlaceholders_insertQuery :
  statementPlaceholders insertQuery = 47%nat.
Proof. vm_compute. reflexivity. Qed.

Lemma execFields_structFields : execFields = structFields.
Proof. reflexivity. Qed.

(** C8. [insertQuery] names as many columns as it has placeholders, every
    execution supplies that many arguments, and the i-th argument is the
    field of the row whose name is the i-th column (field names being
    pairwise distinct): the columns of the statement and the arguments of
    [stmt.Exec] for a row pair up, in order, as each column name with the
    row's field of that name. *)
Theorem insert_statement_matches_row :
  length (statementColumns insertQuery) = statementPlaceholders insertQuery
  /\ (forall record : ClickHouseFlowRow,
        length (execArgs record) = statementPlaceholders insertQuery)
  /\ (forall (record : ClickHouseFlowRow) (i : nat),
        statementColumns insertQuery !! i = fieldName <$> (execFields !! i)
        /\ execArgs record !! i
           = (fun f => fieldValue f record) <$> (execFields !! i))
  /\ NoDup (map fieldName structFields)
  /\ (forall f : Field, f ∈ structFields)
  /\ (forall record : ClickHouseFlowRow,
        zip (statementColumns insertQuery) (execArgs record)
        = [ ("flowStartSeconds", GoSql.ArgTime (flowStartSeconds record));
             ("flowEndSeconds", GoSql.ArgTime (flowEndSeconds record));
             ("flowEndSecondsFromSourceNode", GoSql.ArgTime (flowEndSecondsFromSourceNode record));
             ("flowEndSecondsFromDestinationNode", GoSql.ArgTime (flowEndSecondsFromDestinationNode record));
             ("flowEndReason", GoSql.ArgUint8 (flowEndReason record));
             ("sourceIP", GoSql.ArgString (sourceIP record));
             ("destinationIP", GoSql.ArgString (destinationIP record));
             ("sourceTransportPort", GoSql.ArgUint16 (sourceTransportPort record));
             ("destinationTransportPort", GoSql.ArgUint16 (destinationTransportPort record));
             ("protocolIdentifier", GoSql.ArgUint8 (protocolIdentifier record));
             ("packetTotalCount", GoSql.ArgUint64 (packetTotalCount record));
             ("octetTotalCount", GoSql.ArgUint64 (octetTotalCount record));
             ("packetDeltaCount", GoSql.ArgUint64 (packetDeltaCount record));
             ("octetDeltaCount", GoSql.ArgUint64 (octetDeltaCount record));
             ("reversePacketTotalCount", GoSql.ArgUint64 (reversePacketTotalCount record));
             ("reverseOctetTotalCount", GoSql.ArgUint64 (reverseOctetTotalCount record));
             ("reversePacketDeltaCount", GoSql.ArgUint64 (reversePacketDeltaCount record));
             ("reverseOctetDeltaCount", GoSql.ArgUint64 (reverseOctetDeltaCount record));
             ("sourcePodName", GoSql.ArgString (sourcePodName record));
             ("sourcePodNamespace", GoSql.ArgString (sourcePodNamespace record));
             ("sourceNodeName", GoSql.ArgString (sourceNodeName record));
             ("destinationPodName", GoSql.ArgString (destinationPodName record));
             ("destinationPodNamespace", GoSql.ArgString (destinationPodNamespace record));
             ("destinationNodeName", GoSql.ArgString (destinationNodeName record));
             ("destinationClusterIP", GoSql.ArgString (destinationClusterIP record));
             ("destinationServicePort", GoSql.ArgUint16 (destinationServicePort record));
             ("destinationServicePortName", GoSql.ArgString (destinationServicePortName record));
             ("ingressNetworkPolicyName", GoSql.ArgString (ingressNetworkPolicyName record));
             ("ingressNetworkPolicyNamespace", GoSql.ArgString (ingressNetworkPolicyNamespace record));
             ("ingressNetworkPolicyRuleName", GoSql.ArgString (ingressNetworkPolicyRuleName record));
             ("ingressNetworkPolicyRuleAction", GoSql.ArgUint8 (ingressNetworkPolicyRuleAction record));
             ("ingressNetworkPolicyType", GoSql.ArgUint8 (ingressNetworkPolicyType record));
             ("egressNetworkPolicyName", GoSql.ArgString (egressNetworkPolicyName record));
             ("egressNetworkPolicyNamespace", GoSql.ArgString (egressNetworkPolicyNamespace record));
             ("egressNetworkPolicyRuleName", GoSql.ArgString (egressNetworkPolicyRuleName record));
             ("egressNetworkPolicyRuleAction", GoSql.ArgUint8 (egressNetworkPolicyRuleAction record));
             ("egressNetworkPolicyType", GoSql.ArgUint8 (egressNetworkPolicyType record));
             ("tcpState", GoSql.ArgString (tcpState record));
             ("flowType", GoSql.ArgUint8 (flowType record));
             ("sourcePodLabels", GoSql.ArgString (sourcePodLabels record));
             ("destinationPodLabels", GoSql.ArgString (destinationPodLabels record));
             ("throughput", GoSql.ArgUint64 (throughput record));
             ("reverseThroughput", GoSql.ArgUint64 (reverseThroughput record));
             ("throughputFromSourceNode", GoSql.ArgUint64 (throughputFromSourceNode record));
             ("throughputFromDestinationNode", GoSql.ArgUint64 (throughputFromDestinationNode record));
             ("reverseThroughputFromSourceNode", GoSql.ArgUint64 (reverseThroughputFromSourceNode record));
             ("reverseThroughputFromDestinationNode", GoSql.ArgUint64 (reverseThroughputFromDestinationNode record)) ]).
Proof.
  rewrite statementColumns_insertQuery, statementPlaceholders_insertQuery.
  split; [reflexivity|]. split.
  { intros record. unfold execArgs. rewrite length_map. reflexivity. }
  split.
  { intros record i. unfold execArgs. rewrite !list_lookup_fmap. split; reflexivity. }
  split.
  { apply (bool_decide_unpack _). vm_compute. reflexivity. }
  split.
  { intros f. apply list_elem_of_In.
    destruct f; simpl; repeat (first [left; reflexivity | right]). }
  intros record. reflexivity.
Qed.

End SchemaFacts.


(** ** The ingestion buffer *)

Section BufferFacts.
Import clickhouseclient.

Lemma maxQueueSize_value : maxQueueSize = 524288.
Proof. reflexivity. Qed.

Lemma evict_newest (queueSize : Z) (d : list Item) :
  1 <= queueSize ->
  evict queueSize d = Ret (newest (queueSize - 1) d).
Proof.
  intros Hq. unfold newest.
  induction d as [|x d IH]; cbn [evict]; unfold GoDeque.Len in *;
    rewrite Z.geb_leb; simpl length.
  - destruct (Z.leb_spec queueSize (Z.of_nat 0)); [lia | reflexivity].
  - destruct (Z.leb_spec queueSize (Z.of_nat (S (length d)))).
    + rewrite IH.
      replace (S (length d) - Z.to_nat (queueSize - 1))%nat
        with (S (length d - Z.to_nat (queueSize - 1))) by lia.
      reflexivity.
    + replace (S (length d) - Z.to_nat (queueSize - 1))%nat with O by lia.
      reflexivity.
Qed.

Lemma newest_snoc {A : Type} (n : Z) (l : list A) (x : A) :
  1 <= n -> newest (n - 1) l ++ [x] = newest n (l ++ [x]).
Proof.
  intros Hn. unfold newest. rewrite length_app. simpl length.
  replace (length l + 1 - Z.to_nat n)%nat
    with (length l - Z.to_nat (n - 1))%nat by lia.
  rewrite drop_app_le by lia. reflexivity.
Qed.

Lemma newest_newest {A : Type} (n : Z) (l : list A) :
  1 <= n -> newest (n - 1) (newest n l) = newest (n - 1) l.
Proof.
  intros Hn. unfold newest. rewrite drop_drop, length_drop. f_equal. lia.
Qed.

Lemma length_newest {A : Type} (n : Z) (l : list A) :
  0 <= n -> Z.of_nat (length (newest n l)) = Z.min (Z.of_nat (length l)) n.
Proof. intros Hn. unfold newest. rewrite length_drop. lia. Qed.

Lemma cacheRow_newest (chRow : ClickHouseFlowRow) (ch : ClickHouseExportProcess) :
  1 <= queueSize ch ->
  cacheRow chRow ch
  = Ret (withDeque (newest (queueSize ch) (deque ch ++ [FlowRowPtr chRow])) ch).
Proof.
  intros Hq. unfold cacheRow. rewrite (evict_newest _ _ Hq). simpl.
  unfold GoDeque.PushBack. rewrite newest_snoc by exact Hq. reflexivity.
Qed.

(** A push onto a full buffer drops the oldest record and appends. *)
Lemma cacheRow_full (chRow : ClickHouseFlowRow) (ch : ClickHouseExportProcess) :
  1 <= queueSize ch -> GoDeque.Len (deque ch) = queueSize ch ->
  cacheRow chRow ch = Ret (withDeque (drop 1 (deque ch) ++ [FlowRowPtr chRow]) ch).
Proof.
  intros Hq Hfull. rewrite (cacheRow_newest _ _ Hq). do 2 f_equal.
  unfold newest, GoDeque.Len in *. rewrite length_app. simpl length.
  replace (length (deque ch) + 1 - Z.to_nat (queueSize ch))%nat with 1%nat by lia.
  rewrite drop_app_le by lia. reflexivity.
Qed.

Section WithEntities.
Context `{IpfixEntities}.

Lemma CacheSets_snoc (sets : list IpfixSet) (set : IpfixSet)
    (ch : ClickHouseExportProcess) :
  CacheSets (sets ++ [set]) ch = (ch' <~ CacheSets sets ch ;; CacheSet set ch').
Proof.
  revert ch. induction sets as [|s sets IH]; intros ch; simpl.
  - destruct (CacheSet set ch); reflexivity.
  - destruct (CacheSet s ch) as [ch1|msg]; simpl; [apply IH | reflexivity].
Qed.

Lemma cachedItems_snoc (sets : list IpfixSet) (set : IpfixSet) :
  cachedItems (sets ++ [set])
  = cachedItems sets ++ match cachedItem set with Some i => [i] | None => [] end.
Proof.
  unfold cachedItems. rewrite omap_app. simpl.
  destruct (cachedItem set); reflexivity.
Qed.

Lemma length_cachedItems (sets : list IpfixSet) :
  Forall (fun set => GetRecords set <> []) sets ->
  length (cachedItems sets) = length sets.
Proof.
  induction 1 as [|set sets Hset _ IH]; [reflexivity|].
  change (cachedItems (set :: sets))
    with (match cachedItem set with Some i => i :: cachedItems sets
          | None => cachedItems sets end).
  unfold cachedItem. destruct (GetRecords set); [congruence|].
  simpl. f_equal. exact IH.
Qed.

Lemma CacheSets_newest (sets : list IpfixSet) (ch : ClickHouseExportProcess) :
  1 <= queueSize ch ->
  GoDeque.Len (deque ch) <= queueSize ch ->
  Forall (fun set => GetRecords set <> []) sets ->
  CacheSets sets ch
  = Ret (withDeque (newest (queueSize ch) (deque ch ++ cachedItems sets)) ch).
Proof.
  intros Hq Hlen. induction sets as [|set sets IH] using rev_ind; intros Hall.
  - simpl. unfold cachedItems. simpl. rewrite app_nil_r.
    unfold newest, GoDeque.Len in *.
    replace (length (deque ch) - Z.to_nat (queueSize ch))%nat with O by lia.
    destruct ch; reflexivity.
  - apply Forall_app in Hall as [Hsets Hset]. inversion Hset as [|? ? Hrec _]; subst.
    rewrite CacheSets_snoc, (IH Hsets), cachedItems_snoc. simpl.
    unfold CacheSet, cachedItem. destruct (GetRecords set) as [|record ?]; [congruence|].
    rewrite cacheRow_newest by exact Hq. simpl.
    unfold cacheRow. simpl. f_equal. unfold withDeque. simpl. f_equal.
    rewrite <- newest_snoc by exact Hq. rewrite newest_newest by exact Hq.
    rewrite newest_snoc by exact Hq. rewrite app_assoc. reflexivity.
Qed.

(** C3. After [n] calls of [CacheSet] on an empty buffer of capacity [N]
    the buffer holds the [min n N] most recently pushed records in FIFO
    order, so its length never exceeds [N]; a further push onto a full
    buffer drops the oldest record and appends the new one. *)
Theorem CacheSet_bounded_fifo (N : Z) (sets : list IpfixSet) (next : IpfixSet)
    (ch : ClickHouseExportProcess) :
  1 <= N -> queueSize ch = N -> deque ch = [] ->
  Forall (fun set => GetRecords set <> []) sets -> GetRecords next <> [] ->
  exists ch' ch'' : ClickHouseExportProcess,
    CacheSets sets ch = Ret ch'
    /\ deque ch' = newest N (cachedItems sets)
    /\ GoDeque.Len (deque ch') = Z.min (Z.of_nat (length sets)) N
    /\ GoDeque.Len (deque ch') <= N
    /\ CacheSet next ch' = Ret ch''
    /\ (GoDeque.Len (deque ch') = N ->
        deque ch'' = drop 1 (deque ch') ++ cachedItems [next]).
Proof.
  intros HN Hq Hd Hall Hnext.
  assert (Hrun : CacheSets sets ch
                 = Ret (withDeque (newest N (cachedItems sets)) ch)).
  { rewrite CacheSets_newest; [|lia| |exact Hall].
    - rewrite Hq, Hd. reflexivity.
    - rewrite Hd, Hq. unfold GoDeque.Len. simpl. lia. }
  assert (Hlen : GoDeque.Len (newest N (cachedItems sets))
                 = Z.min (Z.of_nat (length sets)) N).
  { unfold GoDeque.Len. rewrite length_newest by lia.
    rewrite (length_cachedItems _ Hall). reflexivity. }
  unfold CacheSet, cachedItems, cachedItem. simpl.
  destruct (GetRecords next) as [|record ?]; [congruence|].
  eexists. eexists. split; [exact Hrun|]. simpl.
  split; [reflexivity|]. split; [exact Hlen|]. split; [lia|].
  split; [apply cacheRow_newest; simpl; lia|].
  intros Hfull. simpl. rewrite Hq.
  unfold newest at 1. rewrite length_app. simpl length.
  unfold GoDeque.Len in Hfull.
  replace (length (newest N (cachedItems sets)) + 1 - Z.to_nat N)%nat
    with 1%nat by lia.
  rewrite drop_app_le by lia. reflexivity.
Qed.

End WithEntities.

Lemma CacheSet_bounded_fifo_witness :
  exists ch' ch'' : ClickHouseExportProcess,
    CacheSets (map listEntities.setWithPackets [1; 2; 3])
      (withQueueSize 2 exampleProcess) = Ret ch'
    /\ deque ch' = newest 2 (cachedItems (map listEntities.setWithPackets [1; 2; 3]))
    /\ GoDeque.Len (deque ch') = Z.min (Z.of_nat 3) 2
    /\ GoDeque.Len (deque ch') <= 2
    /\ CacheSet (listEntities.setWithPackets 4) ch' = Ret ch''
    /\ (GoDeque.Len (deque ch') = 2 ->
        deque ch'' = drop 1 (deque ch') ++ cachedItems [listEntities.setWithPackets 4]).
Proof.
  apply (CacheSet_bounded_fifo 2
           (map listEntities.setWithPackets [1; 2; 3])
           (listEntities.setWithPackets 4) (withQueueSize 2 exampleProcess)).
  - lia.
  - reflexivity.
  - reflexivity.
  - repeat constructor; discriminate.
  - discriminate.
Defined.

(** Three pushes into a buffer of capacity two: the first record is gone. *)
Example CacheSets_capacity_two :
  option_map deque
    (match CacheSets (map listEntities.setWithPackets [1; 2; 3])
             (withQueueSize 2 exampleProcess) with
     | Ret ch' => Some ch' | Panic _ => None end)
  = Some (cachedItems (map listEntities.setWithPackets [2; 3])).
Proof. vm_compute. reflexivity. Qed.

(** A process made by [NewClickHouseClient] starts with an empty buffer of
    the default capacity. *)
Lemma NewClickHouseClient_buffer (connect : string -> GoSql.DB + Error)
    (input : ClickHouseInput) (ch : ClickHouseExportProcess) :
  NewClickHouseClient connect input = Ret (inl ch) ->
  deque ch = [] /\ queueSize ch = 524288 /\ stopCh ch = ChanOpen.
Proof.
  unfold NewClickHouseClient. destruct (PrepareConnection connect input) as [r|]; simpl;
    [|discriminate].
  destruct r as [[d c]|e]; [|discriminate].
  destruct (GoTime.NewTicker (CommitInterval input)); simpl; [|discriminate].
  intros Heq; inversion Heq; subst. simpl. auto.
Qed.

End BufferFacts.


(** ** The batch committer *)

Section CommitterFacts.
Import clickhouseclient.

Lemma newest_all {A : Type} (n : Z) (l : list A) :
  Z.of_nat (length l) <= n -> newest n l = l.
Proof.
  intros Hl. unfold newest.
  replace (length l - Z.to_nat n)%nat with O by lia. reflexivity.
Qed.

Lemma withDeque_id (ch : ClickHouseExportProcess) : withDeque (deque ch) ch = ch.
Proof. destruct ch; reflexivity. Qed.

Lemma newest_app_newest {A : Type} (n : Z) (a b : list A) :
  newest n (newest n a ++ b) = newest n (a ++ b).
Proof.
  unfold newest. rewrite !length_app, length_drop.
  destruct (Nat.le_gt_cases (length a) (Z.to_nat n)) as [Hle | Hgt].
  - replace (length a - Z.to_nat n)%nat with O by lia. simpl.
    rewrite Nat.sub_0_r. reflexivity.
  - replace (length a + length b - Z.to_nat n)%nat
      with ((length a - Z.to_nat n) + length b)%nat by lia.
    rewrite <- drop_drop, (drop_app_le a) by lia.
    f_equal. lia.
Qed.

Lemma arrive_newest (rows : list ClickHouseFlowRow) (ch : ClickHouseExportProcess) :
  1 <= queueSize ch -> GoDeque.Len (deque ch) <= queueSize ch ->
  arrive rows ch
  = Ret (withDeque (newest (queueSize ch) (deque ch ++ map FlowRowPtr rows)) ch).
Proof.
  revert ch. induction rows as [|chRow rows IH]; intros ch Hq Hlen.
  - simpl. rewrite app_nil_r, newest_all by exact Hlen.
    rewrite withDeque_id. reflexivity.
  - cbn [arrive]. rewrite cacheRow_newest by exact Hq. cbn [bindGo].
    rewrite IH; cbn [queueSize deque withDeque]; [|exact Hq|].
    2:{ unfold GoDeque.Len. rewrite length_newest by lia. lia. }
    rewrite newest_app_newest, <- app_assoc. reflexivity.
Qed.

Lemma perform_succeeds (c : GoSql.Call) (d : GoSql.DB) :
  GoSql.alwaysSucceeds d -> GoSql.perform c d = (None, GoSql.succeeded [c] d).
Proof. intros Hd. unfold GoSql.perform. rewrite Hd. reflexivity. Qed.

Lemma succeeded_alwaysSucceeds (calls : list GoSql.Call) (d : GoSql.DB) :
  GoSql.alwaysSucceeds d -> GoSql.alwaysSucceeds (GoSql.succeeded calls d).
Proof. intros Hd h c. apply Hd. Qed.

Lemma succeeded_succeeded (c1 c2 : list GoSql.Call) (d : GoSql.DB) :
  GoSql.succeeded c2 (GoSql.succeeded c1 d) = GoSql.succeeded (c1 ++ c2) d.
Proof.
  unfold GoSql.succeeded. simpl. rewrite map_app, app_assoc. reflexivity.
Qed.

Lemma succeeded_nil (d : GoSql.DB) : GoSql.succeeded [] d = d.
Proof. destruct d. unfold GoSql.succeeded. simpl. rewrite app_nil_r. reflexivity. Qed.

Lemma At_lookup {A : Type} (d : list A) (i : Z) (x : A) :
  0 <= i -> d !! Z.to_nat i = Some x -> GoDeque.At d i = Ret x.
Proof.
  intros Hi Hx. unfold GoDeque.At, GoDeque.Len.
  pose proof (lookup_lt_Some _ _ _ Hx) as Hlt.
  destruct (Z.ltb_spec i 0); [lia|].
  destruct (Z.leb_spec (Z.of_nat (length d)) i); [lia|]. simpl.
  rewrite Hx. reflexivity.
Qed.

Lemma execCalls_cons_row (record : ClickHouseFlowRow) (items : list Item) :
  execCalls (FlowRowPtr record :: items)
  = GoSql.CallExec (execArgs record) :: execCalls items.
Proof. reflexivity. Qed.

Lemma execCalls_cons_other (items : list Item) :
  execCalls (OtherValue :: items) = execCalls items.
Proof. reflexivity. Qed.

(** While nothing is evicted and the database accepts every call, the
    loop executes the statement for the records at indices [i] to
    [i + remaining - 1], in order; arrivals only extend the buffer. *)
Lemma execLoop_succeeds (arrivals : Arrivals) (tx : option GoSql.TxHandle)
    (remaining : nat) :
  forall (i : Z) (ch : ClickHouseExportProcess),
    GoSql.alwaysSucceeds (db ch) -> 1 <= queueSize ch -> 0 <= i ->
    i + Z.of_nat remaining <= GoDeque.Len (deque ch) ->
    GoDeque.Len (deque ch) + Z.of_nat (length (arrivedIn arrivals i remaining))
      <= queueSize ch ->
    execLoop arrivals tx remaining i ch
    = Ret (None,
           withDb (GoSql.succeeded
                     (execCalls (take remaining (drop (Z.to_nat i) (deque ch))))
                     (db ch))
             (withDeque (deque ch ++ map FlowRowPtr (arrivedIn arrivals i remaining))
                ch)).
Proof.
  induction remaining as [|remaining IH]; intros i ch Hdb Hq Hi Hrem Hcap.
  - simpl. rewrite app_nil_r. unfold execCalls. simpl. rewrite succeeded_nil.
    destruct ch; reflexivity.
  - cbn [execLoop arrivedIn] in *. unfold GoDeque.Len in *.
    rewrite length_app in Hcap.
    rewrite arrive_newest by (unfold GoDeque.Len; lia). cbn [bindGo].
    rewrite newest_all by (rewrite length_app, length_map; lia).
    cbn [deque withDeque].
    destruct (lookup_lt_is_Some_2 (deque ch) (Z.to_nat i)) as [item Hitem]; [lia|].
    rewrite (At_lookup _ _ item Hi) by (apply lookup_app_l_Some; exact Hitem).
    cbn [bindGo].
    rewrite (drop_S _ _ _ Hitem). cbn [take].
    assert (Htail : forall extra : list Item,
      take remaining (drop (Z.to_nat (i + 1)) (deque ch ++ extra))
      = take remaining (drop (S (Z.to_nat i)) (deque ch))).
    { intros extra. replace (Z.to_nat (i + 1)) with (S (Z.to_nat i)) by lia.
      rewrite drop_app_le by lia. apply take_app_le. rewrite length_drop. lia. }
    destruct item as [record|].
    + unfold GoSql.Exec. cbn [db withDeque]. rewrite perform_succeeds by exact Hdb.
      rewrite IH; cbn [db deque queueSize withDb withDeque]; unfold GoDeque.Len;
        rewrite ?length_app, ?length_map;
        [|apply succeeded_alwaysSucceeds; exact Hdb|lia|lia|lia|lia].
      rewrite Htail, succeeded_succeeded, execCalls_cons_row, map_app, <- app_assoc.
      reflexivity.
    + rewrite IH; cbn [db deque queueSize withDb withDeque]; unfold GoDeque.Len;
        rewrite ?length_app, ?length_map; [|exact Hdb|lia|lia|lia|lia].
      rewrite Htail, execCalls_cons_other, map_app, <- app_assoc.
      reflexivity.
Qed.

Lemma popFronts_drop (n : nat) (d : list Item) :
  (n <= length d)%nat -> popFronts n d = Ret (drop n d).
Proof.
  revert d. induction n as [|n IH]; intros d Hn; [reflexivity|].
  destruct d as [|x d]; simpl in *; [lia|]. apply IH. lia.
Qed.

Lemma arrivedIn_arrivalsAt (position : Z) (rows : list ClickHouseFlowRow)
    (n : nat) :
  forall i : Z, i + Z.of_nat n <= position ->
    arrivedIn (arrivalsAt position rows) i n = [].
Proof.
  induction n as [|n IH]; intros i Hi; [reflexivity|].
  cbn [arrivedIn]. rewrite IH by lia. unfold arrivalsAt.
  destruct (Z.eqb_spec i position); [lia | reflexivity].
Qed.

Lemma arrivedIn_noArrivals (n : nat) :
  forall i : Z, arrivedIn noArrivals i n = [].
Proof. induction n as [|n IH]; intros i; [reflexivity|]. simpl. apply IH. Qed.

(** With a database that accepts every call and no eviction while the
    statement is executed, [batchCommitAll] executes the statement for the
    snapshot, commits, and removes as many records from the front as the
    snapshot held, from the buffer as it is by then. *)
Lemma batchCommitAllWith_succeeds (arrivals : Arrivals) (ch : ClickHouseExportProcess) :
  let currSize := GoDeque.Len (deque ch) in
  let during := arrivedIn arrivals 0 (Z.to_nat currSize) in
  GoSql.alwaysSucceeds (db ch) -> 1 <= currSize ->
  currSize + Z.of_nat (length during) <= queueSize ch ->
  batchCommitAllWith arrivals ch
  = Ret ((currSize, None),
         withDb (GoSql.succeeded
                   ([GoSql.CallBegin; GoSql.CallPrepare insertQuery]
                    ++ execCalls (deque ch) ++ [GoSql.CallCommit])
                   (db ch))
           (withDeque
              (drop (Z.to_nat currSize)
                 (newest (queueSize ch)
                    (deque ch ++ map FlowRowPtr (during ++ arrivals currSize))))
              ch)).
Proof.
  intros currSize during Hdb Hsize Hcap. unfold batchCommitAllWith.
  fold currSize. destruct (Z.eqb_spec currSize 0); [lia|].
  unfold GoSql.Begin, GoSql.Prepare, GoSql.Commit.
  rewrite perform_succeeds by exact Hdb.
  rewrite perform_succeeds by (apply succeeded_alwaysSucceeds; exact Hdb).
  rewrite succeeded_succeeded. cbn [app].
  unfold currSize, GoDeque.Len in *.
  rewrite execLoop_succeeds; cbn [db deque queueSize withDb withDeque];
    unfold GoDeque.Len; fold during;
    [|apply succeeded_alwaysSucceeds; exact Hdb|lia|lia|lia|lia].
  cbn [bindGo]. cbn [db deque queueSize withDb withDeque].
  rewrite perform_succeeds by (do 2 apply succeeded_alwaysSucceeds; exact Hdb).
  rewrite !succeeded_succeeded.
  rewrite arrive_newest; cbn [db deque queueSize withDb withDeque];
    unfold GoDeque.Len; rewrite ?length_app, ?length_map; [|lia|lia].
  cbn [bindGo]. cbn [db deque queueSize withDb withDeque].
  rewrite popFronts_drop.
  2:{ pose proof (length_newest (queueSize ch)
        ((deque ch ++ map FlowRowPtr during) ++ map FlowRowPtr (arrivals (Z.of_nat (length (deque ch)))))) as Hn.
      rewrite !length_app, !length_map in Hn. lia. }
  cbn [bindGo]. rewrite Nat2Z.id. cbn [drop]. rewrite firstn_all.
  rewrite map_app, <- !app_assoc. reflexivity.
Qed.

(** When what arrives during the whole commit still fits the buffer, the
    commit removes the snapshot and leaves exactly the arrivals, in order. *)
Lemma batchCommitAllWith_keeps_arrivals (arrivals : Arrivals)
    (ch : ClickHouseExportProcess) :
  let currSize := GoDeque.Len (deque ch) in
  let arrived := arrivedIn arrivals 0 (Z.to_nat currSize) ++ arrivals currSize in
  GoSql.alwaysSucceeds (db ch) -> 1 <= currSize ->
  currSize + Z.of_nat (length arrived) <= queueSize ch ->
  exists ch' : ClickHouseExportProcess,
    batchCommitAllWith arrivals ch = Ret ((currSize, None), ch')
    /\ deque ch' = map FlowRowPtr arrived
    /\ db ch' = GoSql.succeeded
                  ([GoSql.CallBegin; GoSql.CallPrepare insertQuery]
                   ++ execCalls (deque ch) ++ [GoSql.CallCommit]) (db ch).
Proof.
  intros currSize arrived Hdb Hsize Hcap. unfold arrived in *.
  rewrite length_app in Hcap.
  eexists. split; [apply batchCommitAllWith_succeeds; fold currSize; try assumption; lia|].
  cbn [deque db withDb withDeque]. split; [|reflexivity].
  fold currSize. unfold currSize, GoDeque.Len in *.
  rewrite newest_all by (rewrite length_app, length_map, length_app; lia).
  rewrite Nat2Z.id, drop_app_length. reflexivity.
Qed.

(** Without concurrent pushes a successful commit empties the buffer. *)
Lemma batchCommitAll_succeeds (ch : ClickHouseExportProcess) :
  GoSql.alwaysSucceeds (db ch) -> 1 <= GoDeque.Len (deque ch) ->
  GoDeque.Len (deque ch) <= queueSize ch ->
  exists ch' : ClickHouseExportProcess,
    batchCommitAll ch = Ret ((GoDeque.Len (deque ch), None), ch')
    /\ deque ch' = []
    /\ db ch' = GoSql.succeeded
                  ([GoSql.CallBegin; GoSql.CallPrepare insertQuery]
                   ++ execCalls (deque ch) ++ [GoSql.CallCommit]) (db ch).
Proof.
  intros Hdb Hsize Hcap.
  destruct (batchCommitAllWith_keeps_arrivals noArrivals ch Hdb Hsize)
    as (ch' & Hrun & Hdeque & Hdb').
  { rewrite arrivedIn_noArrivals. simpl. lia. }
  exists ch'. rewrite arrivedIn_noArrivals in Hdeque. auto.
Qed.

(** C1, at a full buffer.  The buffer holds [L = queueSize] records, every
    database call succeeds, and one record arrives after the last
    execution: it evicts the oldest record, and the removal of [L] records
    then empties the buffer, so the arrival is removed although the
    statement was executed for the snapshot only. *)
Theorem batchCommitAll_full_buffer_drops_arrival (chRow : ClickHouseFlowRow)
    (ch : ClickHouseExportProcess) :
  GoSql.alwaysSucceeds (db ch) -> 1 <= queueSize ch ->
  GoDeque.Len (deque ch) = queueSize ch ->
  exists ch' : ClickHouseExportProcess,
    batchCommitAllWith (arrivalsAt (GoDeque.Len (deque ch)) [chRow]) ch
    = Ret ((GoDeque.Len (deque ch), None), ch')
    /\ deque ch' = []
    /\ db ch' = GoSql.succeeded
                  ([GoSql.CallBegin; GoSql.CallPrepare insertQuery]
                   ++ execCalls (deque ch) ++ [GoSql.CallCommit]) (db ch).
Proof.
  intros Hdb Hq Hfull.
  assert (Hquiet : arrivedIn (arrivalsAt (GoDeque.Len (deque ch)) [chRow]) 0
                     (Z.to_nat (GoDeque.Len (deque ch))) = []).
  { apply arrivedIn_arrivalsAt. unfold GoDeque.Len. lia. }
  eexists. split.
  { apply batchCommitAllWith_succeeds; [exact Hdb|lia|].
    rewrite Hquiet. simpl. lia. }
  cbn [deque db withDb withDeque]. split; [|reflexivity].
  rewrite Hquiet.
  apply drop_ge. unfold GoDeque.Len in *.
  pose proof (length_newest (queueSize ch)
    (deque ch ++ map FlowRowPtr ([] ++ arrivalsAt (Z.of_nat (length (deque ch))) [chRow]
                                         (Z.of_nat (length (deque ch)))))) as Hn.
  lia.
Qed.

Lemma batchCommitAll_full_buffer_drops_arrival_witness :
  exists ch' : ClickHouseExportProcess,
    batchCommitAllWith
      (arrivalsAt (GoDeque.Len (deque fullDefault)) [exampleRow 2]) fullDefault
    = Ret ((GoDeque.Len (deque fullDefault), None), ch')
    /\ deque ch' = []
    /\ db ch' = GoSql.succeeded
                  ([GoSql.CallBegin; GoSql.CallPrepare insertQuery]
                   ++ execCalls (deque fullDefault) ++ [GoSql.CallCommit])
                  (db fullDefault).
Proof.
  apply (batchCommitAll_full_buffer_drops_arrival (exampleRow 2) fullDefault).
  - intros h c. reflexivity.
  - vm_compute. discriminate.
  - vm_compute. reflexivity.
Defined.

(** Such a run at capacity two, evaluated: records 1 and 2 are durable, the
    buffer is empty, and record 3 is in neither. *)
Example full_buffer_run :
  match batchCommitAllWith (arrivalsAt 2 [exampleRow 3]) fullOfTwo with
  | Ret ((n, err), ch') =>
      n = 2 /\ err = None /\ deque ch' = []
      /\ GoSql.durable (db ch') = [execArgs (exampleRow 1); execArgs (exampleRow 2)]
  | Panic _ => False
  end.
Proof. vm_compute. repeat split. Qed.

(** C2, when the transaction cannot be opened.  [db.Begin] returns a nil
    transaction with its error, and the error path calls [tx.Rollback()]
    on it: [batchCommitAll] panics instead of returning the error. *)
Theorem batchCommitAll_begin_failure_panics (arrivals : Arrivals)
    (ch : ClickHouseExportProcess) (e : Error) :
  deque ch <> [] ->
  GoSql.answer (db ch) (GoSql.history (db ch)) GoSql.CallBegin = Some e ->
  batchCommitAllWith arrivals ch
  = Panic "invalid memory address or nil pointer dereference".
Proof.
  intros Hd He. unfold batchCommitAllWith, GoDeque.Len.
  destruct (deque ch) as [|item d]; [congruence|].
  destruct (Z.eqb_spec (Z.of_nat (length (item :: d))) 0) as [Hz|_];
    [simpl in Hz; lia|].
  unfold GoSql.Begin, GoSql.perform. rewrite He. reflexivity.
Qed.

Lemma batchCommitAll_begin_failure_panics_witness :
  batchCommitAll (withDb refusingBegin fullOfTwo)
  = Panic "invalid memory address or nil pointer dereference".
Proof.
  apply (batchCommitAll_begin_failure_panics noArrivals
           (withDb refusingBegin fullOfTwo) (DriverError "connection refused")).
  - discriminate.
  - reflexivity.
Defined.

(** When the statement cannot be prepared, the transaction is rolled back
    and the error returned with 0; the buffer is as before. *)
Lemma batchCommitAllWith_prepare_failure (arrivals : Arrivals)
    (ch : ClickHouseExportProcess) (e : Error) :
  let h := GoSql.history (db ch) in
  deque ch <> [] ->
  GoSql.answer (db ch) h GoSql.CallBegin = None ->
  GoSql.answer (db ch) (h ++ [(GoSql.CallBegin, None)])
    (GoSql.CallPrepare insertQuery) = Some e ->
  exists ch' : ClickHouseExportProcess,
    batchCommitAllWith arrivals ch = Ret ((0, Some e), ch')
    /\ deque ch' = deque ch
    /\ exists a : GoSql.Answer,
         GoSql.history (db ch')
         = h ++ [(GoSql.CallBegin, None);
                 (GoSql.CallPrepare insertQuery, Some e);
                 (GoSql.CallRollback, a)].
Proof.
  intros h Hd Hb Hp. unfold batchCommitAllWith, GoDeque.Len.
  destruct (Z.eqb_spec (Z.of_nat (length (deque ch))) 0) as [Hz|_].
  { destruct (deque ch); [congruence | simpl in Hz; lia]. }
  unfold GoSql.Begin, GoSql.Prepare, GoSql.perform. fold h. rewrite Hb.
  cbv beta iota zeta. cbn [GoSql.history GoSql.answer]. rewrite Hp.
  cbv beta iota zeta. cbn [GoSql.Rollback GoSql.perform bindGo snd].
  eexists. split; [reflexivity|]. cbn [deque db withDb GoSql.history].
  split; [reflexivity|].
  eexists. rewrite <- !app_assoc. reflexivity.
Qed.

(** Without concurrent pushes the loop never touches the buffer, always
    returns, and an error it returns comes from a failed execution that
    was followed by the rollback. *)
Lemma execLoop_sequential (tx : GoSql.TxHandle) (remaining : nat) :
  forall (i : Z) (ch : ClickHouseExportProcess),
    0 <= i -> i + Z.of_nat remaining <= GoDeque.Len (deque ch) ->
    exists (err : option Error) (ch' : ClickHouseExportProcess),
      execLoop noArrivals (Some tx) remaining i ch = Ret (err, ch')
      /\ deque ch' = deque ch
      /\ (forall e : Error, err = Some e ->
            exists h args a,
              GoSql.history (db ch')
              = h ++ [(GoSql.CallExec args, Some e); (GoSql.CallRollback, a)]).
Proof.
  induction remaining as [|remaining IH]; intros i ch Hi Hrem.
  - exists None, ch. split; [reflexivity|]. split; [reflexivity|]. discriminate.
  - cbn [execLoop noArrivals arrive bindGo]. unfold GoDeque.Len in *.
    destruct (lookup_lt_is_Some_2 (deque ch) (Z.to_nat i)) as [item Hitem]; [lia|].
    rewrite (At_lookup _ _ item Hi Hitem). cbn [bindGo].
    destruct item as [record|].
    + unfold GoSql.Exec, GoSql.perform.
      destruct (GoSql.answer (db ch) (GoSql.history (db ch))
                  (GoSql.CallExec (execArgs record))) as [e|] eqn:Hans.
      * cbn. eexists. eexists. split; [reflexivity|]. cbn.
        split; [reflexivity|]. intros e' He'. inversion He'; subst.
        eexists. eexists. eexists. rewrite <- app_assoc. reflexivity.
      * destruct (IH (i + 1)
                    (withDb {| GoSql.answer := GoSql.answer (db ch);
                               GoSql.history := GoSql.history (db ch)
                                 ++ [(GoSql.CallExec (execArgs record), None)] |} ch))
          as (err & ch' & Hrun & Hdeque & Herr); [lia|cbn; lia|].
        exists err, ch'. auto.
    + destruct (IH (i + 1) ch) as (err & ch' & Hrun & Hdeque & Herr); [lia|lia|].
      exists err, ch'. auto.
Qed.

(** Once the transaction is open, [batchCommitAll] without concurrent
    pushes always returns, and whenever it returns an error it returns 0
    and leaves the buffer as it was. *)
Lemma batchCommitAll_error_keeps_buffer (ch : ClickHouseExportProcess) :
  GoSql.answer (db ch) (GoSql.history (db ch)) GoSql.CallBegin = None ->
  exists (n : Z) (err : option Error) (ch' : ClickHouseExportProcess),
    batchCommitAll ch = Ret ((n, err), ch')
    /\ (forall e : Error, err = Some e -> n = 0 /\ deque ch' = deque ch).
Proof.
  intros Hb. unfold batchCommitAll, batchCommitAllWith.
  destruct (Z.eqb_spec (GoDeque.Len (deque ch)) 0) as [Hz|Hnz].
  { exists 0, None, ch. split; [reflexivity | discriminate]. }
  unfold GoSql.Begin, GoSql.Prepare. unfold GoSql.perform at 1. rewrite Hb.
  cbn [GoSql.history GoSql.answer].
  unfold GoSql.perform at 1. cbn [GoSql.history GoSql.answer].
  destruct (GoSql.answer (db ch) _ (GoSql.CallPrepare insertQuery)) as [e|].
  { cbn. eexists. eexists. eexists. split; [reflexivity|].
    intros e' He'. split; reflexivity. }
  match goal with
  | |- context [execLoop noArrivals (Some ?tx) ?r ?i ?c] =>
      destruct (execLoop_sequential tx r i c) as (err & ch1 & Hrun & Hdeque & _);
        [lia | cbn; unfold GoDeque.Len; lia | rewrite Hrun]
  end.
  cbn [bindGo]. cbn in Hdeque.
  destruct err as [e|].
  { eexists. eexists. eexists. split; [reflexivity|].
    intros e' He'. split; [reflexivity | exact Hdeque]. }
  unfold GoSql.Commit, GoSql.perform.
  destruct (GoSql.answer (db ch1) (GoSql.history (db ch1)) GoSql.CallCommit) as [e|].
  { eexists. eexists. eexists. split; [reflexivity|].
    intros e' He'. split; [reflexivity | exact Hdeque]. }
  cbn [noArrivals arrive bindGo deque withDb].
  rewrite popFronts_drop by (rewrite Hdeque; unfold GoDeque.Len; lia).
  cbn [bindGo]. eexists. eexists. eexists. split; [reflexivity | discriminate].
Qed.

End CommitterFacts.


(** ** Shutdown *)

Section ShutdownFacts.
Import clickhouseclient.

Lemma batchCommitAll_empty (ch : ClickHouseExportProcess) :
  deque ch = [] -> batchCommitAll ch = Ret ((0, None), ch).
Proof.
  intros Hd. unfold batchCommitAll, batchCommitAllWith. rewrite Hd. reflexivity.
Qed.

(** C7, as the code has it.  [Stop] on a process whose stop channel is open
    returns; when the buffer is empty the final commit returns 0 without a
    call to the database or a change of the buffer, and the committer stops
    both tickers and returns.  A second [Stop] closes the closed channel
    and panics. *)
Theorem shutdown_once (ch : ClickHouseExportProcess) :
  stopCh ch = ChanOpen ->
  exists ch1 : ClickHouseExportProcess,
    Stop ch = Ret ch1
    /\ db ch1 = db ch /\ deque ch1 = deque ch
    /\ Stop ch1 = Panic "close of closed channel"
    /\ (deque ch = [] ->
        batchCommitAll ch1 = Ret ((0, None), ch1)
        /\ exists c : Committer,
             flowRecordPeriodicCommit [CaseStop] ch1 = Ret c
             /\ returned c = true
             /\ committedRec c = 0
             /\ db (process c) = db ch
             /\ deque (process c) = []
             /\ commitTicker (process c) = GoTime.TickerStopped
             /\ logTicker c = GoTime.TickerStopped).
Proof.
  intros Hopen. exists (withStopCh ChanClosed ch).
  unfold Stop. rewrite Hopen. cbn [stopCh withStopCh db deque].
  repeat (split; [reflexivity|]).
  intros Hempty.
  assert (Hcommit : batchCommitAll (withStopCh ChanClosed ch)
                    = Ret ((0, None), withStopCh ChanClosed ch))
    by (apply batchCommitAll_empty; exact Hempty).
  split; [exact Hcommit|].
  unfold flowRecordPeriodicCommit. cbn [periodicCommitLoop process stopCh withStopCh].
  rewrite Hcommit. cbn [bindGo]. eexists. split; [reflexivity|].
  cbn. rewrite Hempty. repeat split; reflexivity.
Qed.

Lemma shutdown_once_witness :
  exists ch1 : ClickHouseExportProcess,
    Stop exampleProcess = Ret ch1
    /\ db ch1 = db exampleProcess /\ deque ch1 = deque exampleProcess
    /\ Stop ch1 = Panic "close of closed channel"
    /\ (deque exampleProcess = [] ->
        batchCommitAll ch1 = Ret ((0, None), ch1)
        /\ exists c : Committer,
             flowRecordPeriodicCommit [CaseStop] ch1 = Ret c
             /\ returned c = true
             /\ committedRec c = 0
             /\ db (process c) = db exampleProcess
             /\ deque (process c) = []
             /\ commitTicker (process c) = GoTime.TickerStopped
             /\ logTicker c = GoTime.TickerStopped).
Proof. apply (shutdown_once exampleProcess). reflexivity. Defined.

(** Two calls of [Stop] in a row do not return. *)
Lemma Stop_twice_panics :
  ~ returns (ch1 <~ Stop exampleProcess ;; Stop ch1).
Proof. intros [ch' Hret]. discriminate Hret. Qed.

End ShutdownFacts.

(** ** [LoadConfig] *)

Section ConfigFacts.
Import options.
Context `{ConfigDeps}.

Lemma clickHouseParams_minimum (config : FlowAggregatorConfig.t)
    (interval : GoTime.Duration) :
  ClickHouseConfig.Enable (FlowAggregatorConfig.ClickHouse config) = true ->
  clickHouseParams config = inl interval ->
  MinClickHouseCommitInterval <= interval.
Proof.
  unfold clickHouseParams. intros ->.
  destruct (ParseDuration _) as [parsed|err]; [|discriminate].
  destruct (Z.ltb_spec parsed MinClickHouseCommitInterval); [discriminate|].
  intros Heq. inversion Heq; subst. assumption.
Qed.

Lemma clickHouseParams_too_small (config : FlowAggregatorConfig.t)
    (interval : GoTime.Duration) :
  ClickHouseConfig.Enable (FlowAggregatorConfig.ClickHouse config) = true ->
  ParseDuration (ClickHouseConfig.CommitInterval
                   (FlowAggregatorConfig.ClickHouse config)) = inl interval ->
  interval < MinClickHouseCommitInterval ->
  exists err, clickHouseParams config = inr err.
Proof.
  unfold clickHouseParams. intros -> -> Hlt.
  destruct (Z.ltb_spec interval MinClickHouseCommitInterval); [|lia].
  eexists. reflexivity.
Qed.

Lemma LoadConfig_Config (configBytes : string) (opt : Options) :
  LoadConfig configBytes = inl opt ->
  clickHouseParams (Config opt) = inl (ClickHouseCommitInterval opt).
Proof.
  unfold LoadConfig.
  destruct (UnmarshalStrict configBytes) as [config|]; [|discriminate].
  destruct (_ && _); [discriminate|]. destruct (_ && _); [discriminate|].
  destruct (ParseDuration _) as [active|]; [|discriminate].
  destruct (ParseDuration _) as [inactive|]; [|discriminate].
  destruct (ParseTransportProtocol _) as [transport|]; [|discriminate].
  destruct (flowCollectorParams _) as [[addr proto]|]; [|discriminate].
  destruct (clickHouseParams _) as [interval|] eqn:Hparams; [|discriminate].
  intros Heq. inversion Heq; subst. exact Hparams.
Qed.

(** C9. With ClickHouse enabled, a parsed commit interval below
    [MinClickHouseCommitInterval] makes [LoadConfig] return an error, and
    whenever [LoadConfig] succeeds the commit interval of the options is at
    least that minimum. *)
Theorem LoadConfig_commit_interval (configBytes : string) :
  (forall (config : FlowAggregatorConfig.t) (interval : GoTime.Duration),
     UnmarshalStrict configBytes = inl config ->
     ClickHouseConfig.Enable
       (FlowAggregatorConfig.ClickHouse (SetConfigDefaults config)) = true ->
     ParseDuration
       (ClickHouseConfig.CommitInterval
          (FlowAggregatorConfig.ClickHouse (SetConfigDefaults config)))
     = inl interval ->
     interval < MinClickHouseCommitInterval ->
     exists err : Error, LoadConfig configBytes = inr err)
  /\ (forall opt : Options,
        LoadConfig configBytes = inl opt ->
        ClickHouseConfig.Enable (FlowAggregatorConfig.ClickHouse (Config opt)) = true ->
        MinClickHouseCommitInterval <= ClickHouseCommitInterval opt).
Proof.
  split.
  - intros config interval Hun Hen Hparse Hlt.
    destruct (clickHouseParams_too_small _ _ Hen Hparse Hlt) as [err Herr].
    clear Hen Hparse Hlt. unfold LoadConfig. rewrite Hun.
    destruct (_ && _); [eexists; reflexivity|].
    destruct (_ && _); [eexists; reflexivity|].
    destruct (ParseDuration _) as [active|]; [|eexists; reflexivity].
    destruct (ParseDuration _) as [inactive|]; [|eexists; reflexivity].
    destruct (ParseTransportProtocol _) as [transport|]; [|eexists; reflexivity].
    destruct (flowCollectorParams _) as [[addr proto]|]; [|eexists; reflexivity].
    rewrite Herr. eexists; reflexivity.
  - intros opt Hload Hen.
    apply (clickHouseParams_minimum (Config opt)); [exact Hen|].
    apply (LoadConfig_Config configBytes), Hload.
Qed.

End ConfigFacts.

Lemma LoadConfig_commit_interval_witness :
  (exists err : Error, @options.LoadConfig exampleDeps "500ms" = inr err)
  /\ (forall opt : options.Options,
        @options.LoadConfig exampleDeps "8s" = inl opt ->
        ClickHouseConfig.Enable
          (FlowAggregatorConfig.ClickHouse (options.Config opt)) = true ->
        1000000000 <= options.ClickHouseCommitInterval opt).
Proof.
  split.
  - apply (proj1 (@LoadConfig_commit_interval exampleDeps "500ms")
             (exampleConfig "500ms") 500000000);
      [reflexivity | reflexivity | reflexivity | reflexivity].
  - apply (proj2 (@LoadConfig_commit_interval exampleDeps "8s")).
Defined.

Example LoadConfig_eight_seconds :
  option_map options.ClickHouseCommitInterval
    (match @options.LoadConfig exampleDeps "8s" with
     | inl opt => Some opt | inr _ => None end)
  = Some 8000000000.
Proof. reflexivity. Qed.


(** ** The denied-connection store *)

Section StoreFacts.
Import connections.
Context `{Providers}.

Lemma queueInsert_Permutation (e : Entry) (q : list Entry) :
  queueInsert e q ≡ₚ e :: q.
Proof.
  induction q as [|e' q IH]; simpl; [reflexivity|].
  destruct (expiryTime e <? expiryTime e'); [reflexivity|].
  rewrite IH. apply Permutation_swap.
Qed.

Lemma queueKeys_insert (e : Entry) (q : list Entry) :
  queueKeys (queueInsert e q) ≡ₚ entryKey e :: queueKeys q.
Proof.
  unfold queueKeys. rewrite queueInsert_Permutation. reflexivity.
Qed.


Lemma elem_of_queueRemove (key k : ConnectionKey) (q : list Entry) :
  k ∈ queueKeys (queueRemove key q) <-> k ∈ queueKeys q /\ k <> key.
Proof.
  unfold queueKeys. induction q as [|e q IH]; simpl.
  - split; [intros Hk; inversion Hk | intros [Hk _]; inversion Hk].
  - destruct (decide (entryKey e = key)) as [Heq|Hne]; simpl;
      rewrite ?elem_of_cons, IH, ?elem_of_cons; intuition congruence.
Qed.

Lemma NoDup_queueRemove (key : ConnectionKey) (q : list Entry) :
  NoDup (queueKeys q) -> NoDup (queueKeys (queueRemove key q)).
Proof.
  induction q as [|e q IH]; simpl; [trivial|].
  intros Hnd. apply NoDup_cons in Hnd as [Hnotin Hnd].
  destruct (decide (entryKey e = key)); simpl; [auto|].
  apply NoDup_cons. split; [|auto].
  intros Hin. apply elem_of_queueRemove in Hin. tauto.
Qed.

Lemma consistent_new (active idle : Z) :
  consistent (NewDenyConnectionStore active idle).
Proof.
  split; simpl; [constructor|].
  intros k. rewrite lookup_empty. split; [intros Hk; inversion Hk|].
  intros [c Hc]. discriminate.
Qed.

Lemma consistent_AddOrUpdateConn (conn : Connection) (timeSeen : Instant)
    (bytes : Z) (ds : DenyConnectionStore) :
  consistent ds -> consistent (AddOrUpdateConn conn timeSeen bytes ds).
Proof.
  intros [Hnd Hkeys]. unfold AddOrUpdateConn, consistent.
  destruct (connections ds !! NewConnectionKey conn) as [existing|] eqn:Hlook;
    [|destruct (inserted conn timeSeen (lookups ds)) as [new log]];
    cbn [expirePriorityQueue connections].
  - unfold queueReschedule. split.
    + rewrite queueKeys_insert. simpl. apply NoDup_cons. split.
      * intros Hin. apply elem_of_queueRemove in Hin. tauto.
      * apply NoDup_queueRemove, Hnd.
    + intros k. rewrite queueKeys_insert. simpl.
      rewrite elem_of_cons, elem_of_queueRemove, Hkeys, lookup_insert_is_Some.
      destruct (decide (NewConnectionKey conn = k)); intuition congruence.
  - split.
    + rewrite queueKeys_insert. simpl. apply NoDup_cons. split; [|exact Hnd].
      intros Hin. apply Hkeys in Hin. rewrite Hlook in Hin.
      destruct Hin; discriminate.
    + intros k. rewrite queueKeys_insert. simpl.
      rewrite elem_of_cons, Hkeys, lookup_insert_is_Some.
      destruct (decide (NewConnectionKey conn = k)); intuition congruence.
Qed.

Lemma consistent_DeleteConnByKey (key : ConnectionKey) (ds : DenyConnectionStore) :
  consistent ds -> consistent (DeleteConnByKey key ds).
Proof.
  intros [Hnd Hkeys]. unfold DeleteConnByKey, consistent.
  cbn [expirePriorityQueue connections]. split.
  - apply NoDup_queueRemove, Hnd.
  - intros k. rewrite elem_of_queueRemove, Hkeys, lookup_delete_is_Some.
    intuition congruence.
Qed.

Lemma consistent_run (ops : list Operation) (ds : DenyConnectionStore) :
  consistent ds -> consistent (run ops ds).
Proof.
  revert ds. induction ops as [|op ops IH]; intros ds Hds; [exact Hds|].
  simpl. apply IH. destruct op; simpl.
  - apply consistent_AddOrUpdateConn, Hds.
  - apply consistent_DeleteConnByKey, Hds.
Qed.

Lemma consistent_Len (ds : DenyConnectionStore) :
  consistent ds -> Len ds = length (expirePriorityQueue ds).
Proof.
  intros [Hnd Hkeys]. unfold Len.
  rewrite <- size_dom.
  assert (Hdom : dom (connections ds)
                 = list_to_set (queueKeys (expirePriorityQueue ds))).
  { apply set_eq. intros k.
    rewrite elem_of_dom, elem_of_list_to_set. symmetry. apply Hkeys. }
  rewrite Hdom, size_list_to_set by exact Hnd.
  unfold queueKeys. apply length_map.
Qed.

(** C6. After any sequence of add, update and delete operations on a new
    store, [Len] equals the number of entries of the ExpiryQueue, and the
    queue holds exactly one entry for every live Connection. *)
Theorem Len_equals_queue_length (ops : list Operation) (active idle : Z) :
  let ds := run ops (NewDenyConnectionStore active idle) in
  Len ds = length (expirePriorityQueue ds)
  /\ consistent ds
  /\ deniedConnectionCount ds = Z.of_nat (Len ds).
Proof.
  intros ds.
  assert (Hc : consistent ds) by (apply consistent_run, consistent_new).
  split; [apply consistent_Len, Hc|]. split; [exact Hc|].
  unfold ds. clear ds Hc.
  induction ops as [|op ops IH] using rev_ind; [reflexivity|].
  unfold run in *. rewrite fold_left_app. simpl.
  destruct op; simpl; unfold AddOrUpdateConn, DeleteConnByKey, Len;
    [destruct (connections _ !! _); [|destruct (inserted _ _ _)]|]; reflexivity.
Qed.


Lemma lookups_update (conn : Connection) (timeSeen : Instant) (bytes : Z)
    (ds : DenyConnectionStore) :
  is_Some (connections ds !! FlowKey conn) ->
  lookups (AddOrUpdateConn conn timeSeen bytes ds) = lookups ds.
Proof.
  intros [existing Hex]. unfold AddOrUpdateConn, NewConnectionKey.
  rewrite Hex. reflexivity.
Qed.

Lemma present_after_add (conn : Connection) (timeSeen : Instant) (bytes : Z)
    (ds : DenyConnectionStore) :
  is_Some (connections (AddOrUpdateConn conn timeSeen bytes ds) !! FlowKey conn).
Proof.
  unfold AddOrUpdateConn, NewConnectionKey.
  destruct (connections ds !! FlowKey conn);
    [|destruct (inserted conn timeSeen (lookups ds))]; cbn [connections];
    rewrite lookup_insert_eq; eauto.
Qed.

Lemma lookups_updates (key : ConnectionKey)
    (later : list (Connection * Instant * Z)) (ds : DenyConnectionStore) :
  is_Some (connections ds !! key) ->
  Forall (fun call => FlowKey call.1.1 = key) later ->
  lookups (run (map addOrUpdate later) ds) = lookups ds.
Proof.
  intros Hin Hall. revert ds Hin.
  induction Hall as [|[[conn timeSeen] bytes] later Hkey _ IH]; intros ds Hin;
    [reflexivity|].
  simpl in Hkey. subst key. cbn [map run fold_left addOrUpdate apply].
  unfold run in IH. rewrite IH by apply present_after_add.
  apply lookups_update, Hin.
Qed.

(** C5, as the store does it.  Over [N >= 1] calls of [AddOrUpdateConn] for
    one ConnectionKey that the store does not hold yet, the providers are
    invoked during the first call only: the interface lookup once for the
    source address and once for the destination address, the service
    lookup once.  No later call for the key invokes a provider. *)
Theorem enrichment_on_insert_only (conn : Connection) (timeSeen : Instant)
    (bytes : Z) (later : list (Connection * Instant * Z))
    (ds : DenyConnectionStore) :
  connections ds !! FlowKey conn = None ->
  Forall (fun call => FlowKey call.1.1 = FlowKey conn) later ->
  let first := AddOrUpdateConn conn timeSeen bytes ds in
  let final := run (map addOrUpdate later) first in
  lookups first
  = lookups ds
    ++ [ InterfaceLookup (SourceAddress (FlowKey conn));
         InterfaceLookup (DestinationAddress (FlowKey conn));
         ServiceLookup (DestinationAddress (FlowKey conn))
           (DestinationPort (FlowKey conn)) (Protocol (FlowKey conn)) ]
  /\ lookups final = lookups first
  /\ invocations isServiceLookup final = S (invocations isServiceLookup ds)
  /\ invocations isInterfaceLookup final = S (S (invocations isInterfaceLookup ds)).
Proof.
  intros Hnew Hall first final.
  assert (Hfirst : lookups first
                   = lookups ds
                     ++ [ InterfaceLookup (SourceAddress (FlowKey conn));
                          InterfaceLookup (DestinationAddress (FlowKey conn));
                          ServiceLookup (DestinationAddress (FlowKey conn))
                            (DestinationPort (FlowKey conn))
                            (Protocol (FlowKey conn)) ]).
  { unfold first, AddOrUpdateConn, NewConnectionKey. rewrite Hnew.
    cbn [inserted enrich resolveInterface resolveService lookups].
    rewrite <- !app_assoc. reflexivity. }
  assert (Hfinal : lookups final = lookups first).
  { apply (lookups_updates (FlowKey conn)); [apply present_after_add | exact Hall]. }
  split; [exact Hfirst|]. split; [exact Hfinal|].
  unfold invocations. rewrite Hfinal, Hfirst, !List.filter_app, !length_app.
  simpl. split; lia.
Qed.

End StoreFacts.

Section StoreExamples.
Import connections.



Lemma enrichment_on_insert_only_witness :
  let T := 1656000000 * GoTime.Second in
  let ds := NewDenyConnectionStore (60 * GoTime.Second) (90 * GoTime.Second) in
  let first := @AddOrUpdateConn testProviders (testFlow T) (T - 20 * GoTime.Second) 60 ds in
  let final :=
    @run testProviders
      (map addOrUpdate [(testFlow T, T - 10 * GoTime.Second, 60)]) first in
  lookups first
  = [ InterfaceLookup [1; 2; 3; 4]; InterfaceLookup [4; 3; 2; 1];
      ServiceLookup [4; 3; 2; 1] 255 6 ]
  /\ lookups final = lookups first
  /\ invocations isServiceLookup final = 1%nat
  /\ invocations isInterfaceLookup final = 2%nat.
Proof.
  apply (@enrichment_on_insert_only testProviders
           (testFlow (1656000000 * GoTime.Second))
           (1656000000 * GoTime.Second - 20 * GoTime.Second) 60
           [(testFlow (1656000000 * GoTime.Second),
             1656000000 * GoTime.Second - 10 * GoTime.Second, 60)]
           (NewDenyConnectionStore (60 * GoTime.Second) (90 * GoTime.Second))).
  - reflexivity.
  - repeat constructor.
Defined.

(** The first call of the test invokes the interface provider twice, not
    once. *)
Lemma interface_lookups_of_first_insert :
  ~ (invocations isServiceLookup
       (@AddOrUpdateConn testProviders (testFlow 0) (0 - 20 * GoTime.Second) 60
          (NewDenyConnectionStore (60 * GoTime.Second) (90 * GoTime.Second)))
     = 1%nat
     /\ invocations isInterfaceLookup
          (@AddOrUpdateConn testProviders (testFlow 0) (0 - 20 * GoTime.Second) 60
             (NewDenyConnectionStore (60 * GoTime.Second) (90 * GoTime.Second)))
        = 1%nat).
Proof. intros [_ Hone]. vm_compute in Hone. discriminate Hone. Qed.

End StoreExamples.

(** ** What a batch leaves in the database *)

Section DurableFacts.
Import clickhouseclient.

Lemma durableFrom_app (h1 : list (GoSql.Call * option Error)) :
  forall pending durable : list (list GoSql.Arg),
  exists pending' durable' : list (list GoSql.Arg),
    forall h2, GoSql.durableFrom pending durable (h1 ++ h2)
               = GoSql.durableFrom pending' durable' h2.
Proof.
  induction h1 as [|[c a] h1 IH]; intros pending durable.
  - exists pending, durable. reflexivity.
  - destruct c; destruct a; simpl; apply IH.
Qed.

Lemma durableFrom_execs (rows : list ClickHouseFlowRow)
    (rest : list (GoSql.Call * option Error)) :
  forall pending durable : list (list GoSql.Arg),
    GoSql.durableFrom pending durable
      (map (fun c => (c, None)) (map (fun r => GoSql.CallExec (execArgs r)) rows) ++ rest)
    = GoSql.durableFrom (pending ++ map execArgs rows) durable rest.
Proof.
  induction rows as [|r rows IH]; intros pending durable; simpl.
  - rewrite app_nil_r. reflexivity.
  - rewrite IH, <- app_assoc. reflexivity.
Qed.

(** A transaction that begins, prepares, executes the statement for some rows
    and commits, all successfully, adds exactly these rows, in order. *)
Lemma durable_committed_batch (items : list Item) (d : GoSql.DB) :
  GoSql.durable
    (GoSql.succeeded
       ([GoSql.CallBegin; GoSql.CallPrepare insertQuery]
        ++ execCalls items ++ [GoSql.CallCommit]) d)
  = GoSql.durable d ++ map execArgs (flowRows items).
Proof.
  unfold GoSql.durable, GoSql.succeeded. cbn [GoSql.history].
  destruct (durableFrom_app (GoSql.history d) [] []) as (p & dur & Hsplit).
  rewrite Hsplit. rewrite <- (app_nil_r (GoSql.history d)), Hsplit.
  cbn [app map GoSql.durableFrom]. rewrite map_app. unfold execCalls.
  rewrite durableFrom_execs. reflexivity.
Qed.

(** A transaction that is rolled back, or whose commit fails, adds nothing. *)
Lemma durable_abandoned_batch (rows : list ClickHouseFlowRow)
    (tail_ : list (GoSql.Call * option Error)) (d : GoSql.DB)
    (h : list (GoSql.Call * option Error)) :
  h = GoSql.history d
      ++ [(GoSql.CallBegin, None); (GoSql.CallPrepare insertQuery, None)]
      ++ map (fun c => (c, None)) (map (fun r => GoSql.CallExec (execArgs r)) rows)
      ++ tail_ ->
  (forall pending durable, GoSql.durableFrom pending durable tail_ = durable) ->
  GoSql.durableFrom [] [] h = GoSql.durable d.
Proof.
  intros -> Htail. unfold GoSql.durable.
  destruct (durableFrom_app (GoSql.history d) [] []) as (p & dur & Hsplit).
  rewrite Hsplit. rewrite <- (app_nil_r (GoSql.history d)), Hsplit.
  cbn [app GoSql.durableFrom]. rewrite durableFrom_execs. apply Htail.
Qed.

End DurableFacts.

Section EndToEnd.
Import clickhouseclient.
Context `{IpfixEntities}.

(** X1. Sets cached into an empty buffer that has room for them, then committed
    to a database that accepts every call: the commit returns their number,
    the database gains exactly the rows of their first records, in the order
    of arrival, the buffer is empty again, and a further commit does
    nothing. *)
Theorem cached_sets_become_durable (sets : list IpfixSet)
    (ch : ClickHouseExportProcess) :
  GoSql.alwaysSucceeds (db ch) -> deque ch = [] -> 1 <= queueSize ch ->
  Z.of_nat (length sets) <= queueSize ch ->
  Forall (fun set => GetRecords set <> []) sets ->
  exists ch1 ch2 : ClickHouseExportProcess,
    CacheSets sets ch = Ret ch1
    /\ batchCommitAll ch1 = Ret ((Z.of_nat (length sets), None), ch2)
    /\ deque ch2 = []
    /\ GoSql.durable (db ch2)
       = GoSql.durable (db ch) ++ map execArgs (flowRows (cachedItems sets))
    /\ batchCommitAll ch2 = Ret ((0, None), ch2).
Proof.
  intros Hdb Hempty Hq Hfit Hall.
  assert (Hcached : CacheSets sets ch = Ret (withDeque (cachedItems sets) ch)).
  { rewrite CacheSets_newest; [|exact Hq|rewrite Hempty; unfold GoDeque.Len; simpl; lia|exact Hall].
    rewrite Hempty. cbn [app].
    rewrite newest_all by (rewrite (length_cachedItems _ Hall); exact Hfit).
    reflexivity. }
  exists (withDeque (cachedItems sets) ch).
  destruct sets as [|set sets].
  - exists (withDeque [] ch). cbn [cachedItems omap length Z.of_nat flowRows map].
    rewrite app_nil_r. repeat split; try reflexivity. exact Hcached.
  - destruct (batchCommitAll_succeeds (withDeque (cachedItems (set :: sets)) ch))
      as (ch2 & Hrun & Hdeque & Hdb2).
    + exact Hdb.
    + cbn [deque withDeque]. unfold GoDeque.Len.
      rewrite (length_cachedItems _ Hall). simpl length. lia.
    + cbn [deque withDeque queueSize]. unfold GoDeque.Len.
      rewrite (length_cachedItems _ Hall). exact Hfit.
    + exists ch2. cbn [deque withDeque db] in *. unfold GoDeque.Len in Hrun.
      rewrite (length_cachedItems _ Hall) in Hrun.
      split; [exact Hcached|]. split; [exact Hrun|]. split; [exact Hdeque|].
      split; [rewrite Hdb2; apply durable_committed_batch|].
      apply batchCommitAll_empty, Hdeque.
Qed.

End EndToEnd.

Lemma cached_sets_become_durable_witness :
  exists ch1 ch2 : clickhouseclient.ClickHouseExportProcess,
    clickhouseclient.CacheSets (map listEntities.setWithPackets [1; 2; 3])
      clickhouseclient.exampleProcess = Ret ch1
    /\ clickhouseclient.batchCommitAll ch1 = Ret ((Z.of_nat 3, None), ch2)
    /\ clickhouseclient.deque ch2 = []
    /\ GoSql.durable (clickhouseclient.db ch2)
       = GoSql.durable (clickhouseclient.db clickhouseclient.exampleProcess)
         ++ map clickhouseclient.execArgs
              (clickhouseclient.flowRows
                 (clickhouseclient.cachedItems
                    (map listEntities.setWithPackets [1; 2; 3])))
    /\ clickhouseclient.batchCommitAll ch2 = Ret ((0, None), ch2).
Proof.
  apply (cached_sets_become_durable (map listEntities.setWithPackets [1; 2; 3])
           clickhouseclient.exampleProcess).
  - intros h c. reflexivity.
  - reflexivity.
  - vm_compute. discriminate.
  - vm_compute. discriminate.
  - repeat constructor; discriminate.
Defined.

(** ** Failures inside a batch *)

Section BatchFailures.
Import clickhouseclient.

(** The executions of the statement for [rows], each answered with success. *)
Lemma flowRows_step (remaining : nat) (i : Z) (d : list Item) (item : Item) :
  0 <= i -> d !! Z.to_nat i = Some item ->
  take (S remaining) (drop (Z.to_nat i) d)
  = item :: take remaining (drop (Z.to_nat (i + 1)) d).
Proof.
  intros Hi Hitem. rewrite (drop_S _ _ _ Hitem).
  replace (Z.to_nat (i + 1)) with (S (Z.to_nat i)) by lia. reflexivity.
Qed.

(** Without concurrent pushes the loop executes the statement for the rows
    in order for as long as the database accepts them; at the first row it
    refuses, the loop rolls back and stops. *)
Lemma execLoop_rows (tx : GoSql.TxHandle) (remaining : nat) :
  forall (i : Z) (ch : ClickHouseExportProcess) (pre : list ClickHouseFlowRow),
    0 <= i -> i + Z.of_nat remaining <= GoDeque.Len (deque ch) ->
    (forall pre1 r pre2, pre = pre1 ++ r :: pre2 ->
       GoSql.answer (db ch)
         (GoSql.history (db ch)
          ++ map (fun c => (c, None))
               (map (fun r => GoSql.CallExec (execArgs r)) pre1))
         (GoSql.CallExec (execArgs r)) = None) ->
    (flowRows (take remaining (drop (Z.to_nat i) (deque ch))) = pre ->
     execLoop noArrivals (Some tx) remaining i ch
     = Ret (None,
            withDb (GoSql.succeeded
                      (map (fun r => GoSql.CallExec (execArgs r)) pre) (db ch)) ch))
    /\ (forall bad post e,
          flowRows (take remaining (drop (Z.to_nat i) (deque ch)))
          = pre ++ bad :: post ->
          GoSql.answer (db ch)
            (GoSql.history (db ch)
             ++ map (fun c => (c, None))
                  (map (fun r => GoSql.CallExec (execArgs r)) pre))
            (GoSql.CallExec (execArgs bad)) = Some e ->
          exists (ch' : ClickHouseExportProcess) (a : option Error),
            execLoop noArrivals (Some tx) remaining i ch = Ret (Some e, ch')
            /\ deque ch' = deque ch
            /\ GoSql.history (db ch')
               = GoSql.history (db ch)
                 ++ map (fun c => (c, None))
                      (map (fun r => GoSql.CallExec (execArgs r)) pre)
                 ++ [(GoSql.CallExec (execArgs bad), Some e);
                     (GoSql.CallRollback, a)]).
Proof.
  induction remaining as [|remaining IH]; intros i ch pre Hi Hrem Hok.
  - cbn [take flowRows omap execLoop]. split.
    + intros <-. cbn [map]. rewrite succeeded_nil. destruct ch; reflexivity.
    + intros bad post e Hrows. destruct pre; discriminate Hrows.
  - unfold GoDeque.Len in Hrem.
    destruct (lookup_lt_is_Some_2 (deque ch) (Z.to_nat i)) as [item Hitem]; [lia|].
    rewrite (flowRows_step _ _ _ _ Hi Hitem).
    cbn [execLoop noArrivals arrive bindGo].
    rewrite (At_lookup _ _ item Hi Hitem). cbn [bindGo].
    destruct item as [record|].
    + change (flowRows (FlowRowPtr record :: ?l)) with (record :: flowRows l).
      unfold GoSql.Exec, GoSql.perform.
      destruct pre as [|r0 pre].
      * split; [intros Hrows; discriminate Hrows|].
        intros bad post e Hrows Hbad. cbn [app] in Hrows.
        inversion Hrows; subst bad post. cbn [map app] in Hbad.
        rewrite app_nil_r in Hbad. rewrite Hbad.
        cbn [GoSql.Rollback GoSql.perform bindGo snd GoSql.history GoSql.answer].
        eexists. eexists. split; [reflexivity|].
        cbn [deque db withDb GoSql.history]. split; [reflexivity|].
        rewrite <- app_assoc. reflexivity.
      * assert (Hfirst : GoSql.answer (db ch) (GoSql.history (db ch))
                           (GoSql.CallExec (execArgs r0)) = None).
        { specialize (Hok [] r0 pre eq_refl). cbn [map] in Hok.
          rewrite app_nil_r in Hok. exact Hok. }
        set (ch1 := withDb {| GoSql.answer := GoSql.answer (db ch);
                              GoSql.history := GoSql.history (db ch)
                                ++ [(GoSql.CallExec (execArgs r0), None)] |} ch).
        assert (Hok1 : forall pre1 r pre2, pre = pre1 ++ r :: pre2 ->
                  GoSql.answer (db ch1)
                    (GoSql.history (db ch1)
                     ++ map (fun c => (c, None))
                          (map (fun r => GoSql.CallExec (execArgs r)) pre1))
                    (GoSql.CallExec (execArgs r)) = None).
        { intros pre1 r pre2 Hpre. unfold ch1. cbn [db withDb GoSql.answer GoSql.history].
          rewrite <- app_assoc.
          apply (Hok (r0 :: pre1) r pre2). rewrite Hpre. reflexivity. }
        destruct (IH (i + 1) ch1 pre) as [IHok IHbad];
          [lia | unfold ch1; cbn [deque withDb]; unfold GoDeque.Len; lia | exact Hok1 |].
        split.
        -- intros Hrows. injection Hrows as Hr0 Hrest. subst record.
           rewrite Hfirst. fold ch1. rewrite (IHok Hrest).
           unfold ch1, GoSql.succeeded, withDb.
           cbn [db dsn deque queueSize commitInterval stopCh commitTicker
                GoSql.answer GoSql.history map].
           rewrite <- app_assoc. reflexivity.
        -- intros bad post e Hrows Hbad. cbn [app] in Hrows.
           injection Hrows as Hr0 Hrest. subst record.
           rewrite Hfirst. fold ch1.
           destruct (IHbad bad post e Hrest) as (ch' & a & Hrun & Hdeque & Hhist).
           { unfold ch1. cbn [db withDb GoSql.answer GoSql.history].
             rewrite <- app_assoc. exact Hbad. }
           exists ch', a. split; [exact Hrun|]. split; [exact Hdeque|].
           rewrite Hhist. unfold ch1. cbn [db withDb GoSql.history map].
           rewrite <- !app_assoc. reflexivity.
    + change (flowRows (OtherValue :: ?l)) with (flowRows l).
      apply IH; [lia | unfold GoDeque.Len; lia | exact Hok].
Qed.

Lemma batch_items (d : list Item) :
  take (Z.to_nat (GoDeque.Len d)) (drop (Z.to_nat 0) d) = d.
Proof.
  unfold GoDeque.Len. rewrite Nat2Z.id. cbn [Z.to_nat drop]. apply firstn_all.
Qed.

(** X2. When the database accepts the statement for the first [k] rows and
    refuses it for the next one, [batchCommitAll] has executed it for these
    [k + 1] rows only, rolls the transaction back and returns 0 with the
    error; the buffer is untouched and nothing has become durable. *)
Theorem batchCommitAll_exec_failure (ch : ClickHouseExportProcess)
    (pre post : list ClickHouseFlowRow) (bad : ClickHouseFlowRow) (e : Error) :
  let h0 := GoSql.history (db ch)
            ++ [(GoSql.CallBegin, None); (GoSql.CallPrepare insertQuery, None)] in
  let executed := map (fun c => (c, None))
                    (map (fun r => GoSql.CallExec (execArgs r)) pre) in
  flowRows (deque ch) = pre ++ bad :: post ->
  GoSql.answer (db ch) (GoSql.history (db ch)) GoSql.CallBegin = None ->
  GoSql.answer (db ch) (GoSql.history (db ch) ++ [(GoSql.CallBegin, None)])
    (GoSql.CallPrepare insertQuery) = None ->
  (forall pre1 r pre2, pre = pre1 ++ r :: pre2 ->
     GoSql.answer (db ch)
       (h0 ++ map (fun c => (c, None))
                (map (fun r => GoSql.CallExec (execArgs r)) pre1))
       (GoSql.CallExec (execArgs r)) = None) ->
  GoSql.answer (db ch) (h0 ++ executed) (GoSql.CallExec (execArgs bad)) = Some e ->
  exists (ch' : ClickHouseExportProcess) (a : option Error),
    batchCommitAll ch = Ret ((0, Some e), ch')
    /\ deque ch' = deque ch
    /\ GoSql.history (db ch')
       = h0 ++ executed
         ++ [(GoSql.CallExec (execArgs bad), Some e); (GoSql.CallRollback, a)]
    /\ GoSql.durable (db ch') = GoSql.durable (db ch).
Proof.
  intros h0 executed Hrows Hbegin Hprepare Hok Hbad.
  unfold batchCommitAll, batchCommitAllWith.
  destruct (Z.eqb_spec (GoDeque.Len (deque ch)) 0) as [Hz|_].
  { unfold GoDeque.Len in Hz. destruct (deque ch); [|simpl in Hz; lia].
    destruct pre; discriminate Hrows. }
  unfold GoSql.Begin, GoSql.Prepare. unfold GoSql.perform at 1. rewrite Hbegin.
  cbv beta iota zeta. unfold GoSql.perform at 1.
  cbn [GoSql.history GoSql.answer]. rewrite Hprepare. cbv beta iota zeta.
  set (ch0 := withDb _ ch).
  assert (Hh0 : GoSql.history (db ch0) = h0).
  { unfold ch0, h0. cbn [db withDb GoSql.history]. rewrite <- app_assoc. reflexivity. }
  destruct (execLoop_rows GoSql.TxOpen (Z.to_nat (GoDeque.Len (deque ch))) 0 ch0 pre)
    as [_ Hfail].
  { lia. }
  { unfold ch0. cbn [deque withDb]. unfold GoDeque.Len. lia. }
  { intros pre1 r pre2 Hpre. rewrite Hh0. apply (Hok pre1 r pre2 Hpre). }
  destruct (Hfail bad post e) as (ch' & a & Hrun & Hdeque & Hhist).
  { unfold ch0. cbn [deque withDb]. rewrite batch_items. exact Hrows. }
  { rewrite Hh0. exact Hbad. }
  rewrite Hrun. cbn [bindGo]. exists ch', a.
  split; [reflexivity|]. split; [exact Hdeque|].
  rewrite Hh0 in Hhist. split; [exact Hhist|].
  unfold GoSql.durable at 1. rewrite Hhist. unfold h0, executed.
  rewrite <- !app_assoc.
  apply (durable_abandoned_batch pre
           [(GoSql.CallExec (execArgs bad), Some e); (GoSql.CallRollback, a)]);
    [reflexivity|].
  intros pending durable. reflexivity.
Qed.

(** X3. When only the commit fails, [batchCommitAll] returns 0 with the error
    after executing the statement for every buffered row; it does not roll
    back, the buffer is untouched and nothing has become durable. *)
Theorem batchCommitAll_commit_failure (ch : ClickHouseExportProcess) (e : Error) :
  let h1 := GoSql.history (db ch)
            ++ map (fun c => (c, None))
                 ([GoSql.CallBegin; GoSql.CallPrepare insertQuery]
                  ++ execCalls (deque ch)) in
  deque ch <> [] ->
  (forall h c, c <> GoSql.CallCommit -> GoSql.answer (db ch) h c = None) ->
  GoSql.answer (db ch) h1 GoSql.CallCommit = Some e ->
  exists ch' : ClickHouseExportProcess,
    batchCommitAll ch = Ret ((0, Some e), ch')
    /\ deque ch' = deque ch
    /\ GoSql.history (db ch') = h1 ++ [(GoSql.CallCommit, Some e)]
    /\ GoSql.durable (db ch') = GoSql.durable (db ch).
Proof.
  intros h1 Hne Hother Hcommit.
  unfold batchCommitAll, batchCommitAllWith.
  destruct (Z.eqb_spec (GoDeque.Len (deque ch)) 0) as [Hz|_].
  { unfold GoDeque.Len in Hz. destruct (deque ch); [congruence|simpl in Hz; lia]. }
  unfold GoSql.Begin, GoSql.Prepare. unfold GoSql.perform at 1.
  rewrite Hother by discriminate.
  cbv beta iota zeta. unfold GoSql.perform at 1.
  cbn [GoSql.history GoSql.answer]. rewrite Hother by discriminate.
  cbv beta iota zeta.
  set (ch0 := withDb _ ch).
  destruct (execLoop_rows GoSql.TxOpen (Z.to_nat (GoDeque.Len (deque ch))) 0 ch0
              (flowRows (deque ch))) as [Hdone _].
  { lia. }
  { unfold ch0. cbn [deque withDb]. unfold GoDeque.Len. lia. }
  { intros pre1 r pre2 Hpre. unfold ch0. cbn [db withDb GoSql.answer].
    apply Hother. discriminate. }
  rewrite Hdone by (unfold ch0; cbn [deque withDb]; rewrite batch_items; reflexivity).
  cbn [bindGo]. unfold GoSql.Commit, GoSql.perform.
  cbn [db withDb GoSql.succeeded GoSql.answer GoSql.history].
  assert (Hh1 : ((GoSql.history (db ch) ++ [(GoSql.CallBegin, None)])
                 ++ [(GoSql.CallPrepare insertQuery, None)])
                ++ map (fun c => (c, None))
                     (map (fun r => GoSql.CallExec (execArgs r)) (flowRows (deque ch)))
                = h1).
  { unfold h1, execCalls. rewrite map_app, <- !app_assoc. reflexivity. }
  unfold ch0. cbn [db withDb GoSql.answer GoSql.history].
  rewrite Hh1, Hcommit.
  eexists. split; [reflexivity|]. cbn [deque db withDb GoSql.history].
  split; [reflexivity|]. split; [reflexivity|].
  unfold GoSql.durable at 1. cbn [GoSql.history]. unfold h1, execCalls.
  rewrite map_app, <- !app_assoc.
  apply (durable_abandoned_batch (flowRows (deque ch)) [(GoSql.CallCommit, Some e)]);
    [reflexivity|].
  intros pending durable. reflexivity.
Qed.

End BatchFailures.

Lemma batchCommitAll_exec_failure_witness :
  exists (ch' : clickhouseclient.ClickHouseExportProcess) (a : option Error),
    clickhouseclient.batchCommitAll
      (clickhouseclient.withDb refusingSecondExec fullOfTwo)
    = Ret ((0, Some (DriverError "too many parts")), ch')
    /\ clickhouseclient.deque ch' = clickhouseclient.deque fullOfTwo
    /\ GoSql.history (clickhouseclient.db ch')
       = ([(GoSql.CallBegin, None);
           (GoSql.CallPrepare clickhouseclient.insertQuery, None)]
          ++ [(GoSql.CallExec (clickhouseclient.execArgs (exampleRow 1)), None)])
         ++ [(GoSql.CallExec (clickhouseclient.execArgs (exampleRow 2)),
              Some (DriverError "too many parts"));
             (GoSql.CallRollback, a)]
    /\ GoSql.durable (clickhouseclient.db ch') = [].
Proof.
  apply (batchCommitAll_exec_failure
           (clickhouseclient.withDb refusingSecondExec fullOfTwo)
           [exampleRow 1] [] (exampleRow 2) (DriverError "too many parts")).
  - reflexivity.
  - reflexivity.
  - reflexivity.
  - intros pre1 r pre2 Hpre.
    destruct pre1 as [|r1 pre1]; [|destruct pre1; discriminate Hpre].
    reflexivity.
  - reflexivity.
Defined.

Lemma batchCommitAll_commit_failure_witness :
  exists ch' : clickhouseclient.ClickHouseExportProcess,
    clickhouseclient.batchCommitAll
      (clickhouseclient.withDb refusingCommit fullOfTwo)
    = Ret ((0, Some (DriverError "connection lost")), ch')
    /\ clickhouseclient.deque ch' = clickhouseclient.deque fullOfTwo
    /\ GoSql.history (clickhouseclient.db ch')
       = map (fun c => (c, None))
           ([GoSql.CallBegin; GoSql.CallPrepare clickhouseclient.insertQuery]
            ++ clickhouseclient.execCalls (clickhouseclient.deque fullOfTwo))
         ++ [(GoSql.CallCommit, Some (DriverError "connection lost"))]
    /\ GoSql.durable (clickhouseclient.db ch') = [].
Proof.
  apply (batchCommitAll_commit_failure
           (clickhouseclient.withDb refusingCommit fullOfTwo)
           (DriverError "connection lost")).
  - discriminate.
  - intros h c Hc. destruct c; try reflexivity. congruence.
  - reflexivity.
Defined.

(** ** What a batch changes, retries and the final flush *)

Section BatchFrame.
Import clickhouseclient.

Lemma execLoop_only_db (tx : option GoSql.TxHandle) (remaining : nat) :
  forall (i : Z) (ch ch' : ClickHouseExportProcess) (err : option Error),
    execLoop noArrivals tx remaining i ch = Ret (err, ch') ->
    ch' = withDb (db ch') ch.
Proof.
  induction remaining as [|remaining IH]; intros i ch ch' err Hrun.
  - cbn in Hrun. inversion Hrun; subst. destruct ch'; reflexivity.
  - cbn [execLoop noArrivals arrive bindGo] in Hrun.
    destruct (GoDeque.At (deque ch) i) as [item|]; [|discriminate Hrun].
    cbn [bindGo] in Hrun. destruct item as [record|].
    + unfold GoSql.Exec, GoSql.perform in Hrun.
      destruct (GoSql.answer (db ch) (GoSql.history (db ch))
                  (GoSql.CallExec (execArgs record))) as [e|].
      * destruct tx; cbn in Hrun; [|discriminate Hrun].
        inversion Hrun; subst. reflexivity.
      * apply IH in Hrun. rewrite Hrun. destruct ch; reflexivity.
    + apply IH in Hrun. exact Hrun.
Qed.

(** [batchCommitAll] changes nothing but the database and the buffer, and
    when it returns an error it returns 0 and has not changed the buffer. *)
Lemma batchCommitAll_changes (ch ch' : ClickHouseExportProcess) (n : Z)
    (err : option Error) :
  batchCommitAll ch = Ret ((n, err), ch') ->
  ch' = withDb (db ch') (withDeque (deque ch') ch)
  /\ (forall e, err = Some e -> n = 0 /\ deque ch' = deque ch).
Proof.
  unfold batchCommitAll, batchCommitAllWith.
  destruct (Z.eqb_spec (GoDeque.Len (deque ch)) 0) as [Hz|Hnz].
  { intros Hrun. inversion Hrun; subst. split; [destruct ch'; reflexivity | discriminate]. }
  unfold GoSql.Begin, GoSql.Prepare. unfold GoSql.perform at 1.
  destruct (GoSql.answer (db ch) (GoSql.history (db ch)) GoSql.CallBegin) as [e0|].
  { cbn. discriminate. }
  cbv beta iota zeta. unfold GoSql.perform at 1. cbn [GoSql.history GoSql.answer].
  destruct (GoSql.answer (db ch) _ (GoSql.CallPrepare insertQuery)) as [e1|].
  { cbn. intros Hrun. inversion Hrun; subst. cbn.
    split; [destruct ch; reflexivity|]. intros e He. split; reflexivity. }
  cbv beta iota zeta.
  match goal with
  | |- context [execLoop noArrivals ?tx ?r ?i ?c] =>
      destruct (execLoop noArrivals tx r i c) as [[err1 ch1]|] eqn:Hloop;
        [apply execLoop_only_db in Hloop | discriminate]
  end.
  cbn [bindGo]. destruct err1 as [e2|].
  { intros Hrun. inversion Hrun; subst. rewrite Hloop. cbn.
    split; [destruct ch; reflexivity|]. intros e He. split; reflexivity. }
  unfold GoSql.Commit, GoSql.perform.
  destruct (GoSql.answer (db ch1) (GoSql.history (db ch1)) GoSql.CallCommit) as [e3|].
  { intros Hrun. inversion Hrun; subst. rewrite Hloop. cbn.
    split; [destruct ch; reflexivity|]. intros e He. split; reflexivity. }
  cbn [noArrivals arrive bindGo deque withDb].
  destruct (popFronts _ _) as [d|]; [|discriminate].
  cbn [bindGo]. intros Hrun. inversion Hrun; subst. rewrite Hloop. cbn.
  split; [destruct ch; reflexivity | discriminate].
Qed.

(** X4. Records that a failed batch left in the buffer are committed by the next
    batch once [UpdateCH] has installed a connection that accepts every
    call: all of them become durable there, in order. *)
Theorem failed_batch_is_retried (ch ch1 : ClickHouseExportProcess) (n : Z)
    (e : Error) (newDsn : string) (connect : GoSql.DB) :
  batchCommitAll ch = Ret ((n, Some e), ch1) ->
  GoDeque.Len (deque ch) <= queueSize ch ->
  GoSql.alwaysSucceeds connect ->
  exists ch2 : ClickHouseExportProcess,
    batchCommitAll (UpdateCH ch1 ch1 newDsn connect)
    = Ret ((GoDeque.Len (deque ch), None), ch2)
    /\ deque ch2 = []
    /\ GetDsn ch2 = newDsn
    /\ GoSql.durable (db ch2)
       = GoSql.durable connect ++ map execArgs (flowRows (deque ch)).
Proof.
  intros Hfail Hcap Hconnect.
  assert (Hlen : 1 <= GoDeque.Len (deque ch)).
  { unfold batchCommitAll, batchCommitAllWith in Hfail.
    destruct (Z.eqb_spec (GoDeque.Len (deque ch)) 0); [discriminate Hfail|].
    unfold GoDeque.Len in *. lia. }
  destruct (batchCommitAll_changes _ _ _ _ Hfail) as [Hframe Herr].
  destruct (Herr e eq_refl) as [_ Hdeque].
  destruct (batchCommitAll_succeeds (UpdateCH ch1 ch1 newDsn connect))
    as (ch2 & Hrun & Hempty & Hdb).
  - exact Hconnect.
  - cbn. rewrite Hdeque. exact Hlen.
  - rewrite Hframe. cbn. rewrite Hdeque. exact Hcap.
  - exists ch2. cbn [UpdateCH deque db withDb withDsn] in *.
    rewrite Hdeque in Hrun, Hdb.
    split; [exact Hrun|]. split; [exact Hempty|]. split.
    + apply batchCommitAll_changes in Hrun as [Hframe2 _].
      rewrite Hframe2. reflexivity.
    + rewrite Hdb. apply durable_committed_batch.
Qed.

(** X5. Once the stop channel is closed and [select] takes that case, the
    committer flushes the whole buffer to a database that accepts every
    call, stops both tickers and returns; whatever [select] could take
    afterwards no longer happens. *)
Theorem shutdown_flushes_buffer (ch : ClickHouseExportProcess)
    (later : list SelectCase) :
  stopCh ch = ChanClosed -> GoSql.alwaysSucceeds (db ch) ->
  GoDeque.Len (deque ch) <= queueSize ch ->
  exists c : Committer,
    flowRecordPeriodicCommit (CaseStop :: later) ch = Ret c
    /\ returned c = true
    /\ committedRec c = GoDeque.Len (deque ch)
    /\ deque (process c) = []
    /\ GoSql.durable (db (process c))
       = GoSql.durable (db ch) ++ map execArgs (flowRows (deque ch))
    /\ commitTicker (process c) = GoTime.TickerStopped
    /\ logTicker c = GoTime.TickerStopped.
Proof.
  intros Hclosed Hdb Hcap.
  unfold flowRecordPeriodicCommit. cbn [periodicCommitLoop process]. rewrite Hclosed.
  destruct (deque ch) as [|item d] eqn:Hd.
  - rewrite batchCommitAll_empty by exact Hd. cbn [bindGo].
    eexists. split; [reflexivity|]. cbn. rewrite Hd, app_nil_r.
    repeat split; reflexivity.
  - destruct (batchCommitAll_succeeds ch Hdb) as (ch' & Hrun & Hempty & Hdb').
    + rewrite Hd. unfold GoDeque.Len. simpl length. lia.
    + rewrite Hd. exact Hcap.
    + rewrite Hrun. cbn [bindGo]. eexists. split; [reflexivity|].
      cbn [returned committedRec process logTicker deque db commitTicker
           withCommitTicker].
      rewrite Hempty, Hdb', Hd, durable_committed_batch.
      repeat split; reflexivity.
Qed.

(** X6. While the stop channel is open the committer never returns and never
    closes it: a run of [flowRecordPeriodicCommit] that does not panic is
    still looping, with both tickers running. *)
Theorem committer_runs_until_stopped (cases : list SelectCase)
    (ch : ClickHouseExportProcess) (c : Committer) (period : GoTime.Duration) :
  stopCh ch = ChanOpen -> commitTicker ch = GoTime.TickerRunning period ->
  flowRecordPeriodicCommit cases ch = Ret c ->
  returned c = false
  /\ stopCh (process c) = ChanOpen
  /\ commitTicker (process c) = GoTime.TickerRunning period
  /\ logTicker c = GoTime.TickerRunning (60 * GoTime.Second).
Proof.
  intros Hopen Hticker. unfold flowRecordPeriodicCommit.
  set (c0 := {| process := ch; committedRec := 0;
                logTicker := GoTime.TickerRunning (60 * GoTime.Second);
                returned := false |}).
  assert (Hinv : returned c0 = false /\ stopCh (process c0) = ChanOpen
                 /\ commitTicker (process c0) = GoTime.TickerRunning period
                 /\ logTicker c0 = GoTime.TickerRunning (60 * GoTime.Second))
    by (unfold c0; cbn; auto).
  clearbody c0. revert c0 Hinv.
  induction cases as [|case cases IH]; intros c0 Hinv Hrun.
  - cbn in Hrun. inversion Hrun; subst. exact Hinv.
  - destruct Hinv as (Hret & Hstop & Htick & Hlog).
    cbn [periodicCommitLoop] in Hrun. destruct case.
    + rewrite Hstop in Hrun. apply (IH c0); [auto | exact Hrun].
    + rewrite Htick in Hrun.
      destruct (batchCommitAll (process c0)) as [[[n err] ch']|] eqn:Hbatch;
        [|discriminate Hrun].
      cbn [bindGo] in Hrun.
      apply batchCommitAll_changes in Hbatch as [Hframe _].
      apply IH in Hrun; [exact Hrun|].
      cbn. rewrite Hframe. cbn. auto.
    + rewrite Hlog in Hrun. apply IH in Hrun; [exact Hrun|]. cbn. auto.
Qed.

End BatchFrame.

Lemma failed_batch_is_retried_witness :
  exists ch2 : clickhouseclient.ClickHouseExportProcess,
    clickhouseclient.batchCommitAll
      (clickhouseclient.UpdateCH afterFailedCommit afterFailedCommit
         "tcp://clickhouse:9000?username=u&password=p&debug=false&compress=true"
         clickhouseclient.healthyDB)
    = Ret ((GoDeque.Len (clickhouseclient.deque
                           (clickhouseclient.withDb refusingCommit fullOfTwo)), None),
           ch2)
    /\ clickhouseclient.deque ch2 = []
    /\ clickhouseclient.GetDsn ch2
       = "tcp://clickhouse:9000?username=u&password=p&debug=false&compress=true"
    /\ GoSql.durable (clickhouseclient.db ch2)
       = GoSql.durable clickhouseclient.healthyDB
         ++ map clickhouseclient.execArgs
              (clickhouseclient.flowRows
                 (clickhouseclient.deque
                    (clickhouseclient.withDb refusingCommit fullOfTwo))).
Proof.
  apply (failed_batch_is_retried
           (clickhouseclient.withDb refusingCommit fullOfTwo) afterFailedCommit
           0 (DriverError "connection lost")).
  - vm_compute. reflexivity.
  - vm_compute. discriminate.
  - intros h c. reflexivity.
Defined.

Lemma shutdown_flushes_buffer_witness :
  exists c : clickhouseclient.Committer,
    clickhouseclient.flowRecordPeriodicCommit
      [clickhouseclient.CaseStop; clickhouseclient.CaseCommitTick]
      (clickhouseclient.withStopCh clickhouseclient.ChanClosed fullOfTwo) = Ret c
    /\ clickhouseclient.returned c = true
    /\ clickhouseclient.committedRec c = 2
    /\ clickhouseclient.deque (clickhouseclient.process c) = []
    /\ GoSql.durable (clickhouseclient.db (clickhouseclient.process c))
       = [] ++ map clickhouseclient.execArgs [exampleRow 1; exampleRow 2]
    /\ clickhouseclient.commitTicker (clickhouseclient.process c) = GoTime.TickerStopped
    /\ clickhouseclient.logTicker c = GoTime.TickerStopped.
Proof.
  apply (shutdown_flushes_buffer
           (clickhouseclient.withStopCh clickhouseclient.ChanClosed fullOfTwo)
           [clickhouseclient.CaseCommitTick]).
  - reflexivity.
  - intros h c. reflexivity.
  - vm_compute. discriminate.
Defined.

Lemma committer_runs_until_stopped_witness :
  clickhouseclient.returned afterTwoTicks = false
  /\ clickhouseclient.stopCh (clickhouseclient.process afterTwoTicks)
     = clickhouseclient.ChanOpen
  /\ clickhouseclient.commitTicker (clickhouseclient.process afterTwoTicks)
     = GoTime.TickerRunning (8 * GoTime.Second)
  /\ clickhouseclient.logTicker afterTwoTicks
     = GoTime.TickerRunning (60 * GoTime.Second).
Proof.
  apply (committer_runs_until_stopped
           [clickhouseclient.CaseCommitTick; clickhouseclient.CaseStop;
            clickhouseclient.CaseLogTick]
           fullOfTwo afterTwoTicks (8 * GoTime.Second)).
  - reflexivity.
  - reflexivity.
  - vm_compute. reflexivity.
Defined.

(** ** Rows from records *)

Section RowFacts.
Import clickhouseclient.
Context `{IpfixEntities}.

(** Reduce [fieldValue f (getClickHouseFlowRow r)] to the lookups it makes. *)
Ltac read_field :=
  cbn [fieldValue getClickHouseFlowRow zeroRow
       flowStartSeconds flowEndSeconds flowEndSecondsFromSourceNode
       flowEndSecondsFromDestinationNode flowEndReason sourceIP destinationIP
       sourceTransportPort destinationTransportPort protocolIdentifier
       packetTotalCount octetTotalCount packetDeltaCount octetDeltaCount
       reversePacketTotalCount reverseOctetTotalCount reversePacketDeltaCount
       reverseOctetDeltaCount sourcePodName sourcePodNamespace sourceNodeName
       destinationPodName destinationPodNamespace destinationNodeName
       destinationClusterIP destinationServicePort destinationServicePortName
       ingressNetworkPolicyName ingressNetworkPolicyNamespace
       ingressNetworkPolicyRuleName ingressNetworkPolicyRuleAction
       ingressNetworkPolicyType egressNetworkPolicyName
       egressNetworkPolicyNamespace egressNetworkPolicyRuleName
       egressNetworkPolicyRuleAction egressNetworkPolicyType tcpState
       flowType sourcePodLabels destinationPodLabels throughput
       reverseThroughput throughputFromSourceNode
       throughputFromDestinationNode reverseThroughputFromSourceNode
       reverseThroughputFromDestinationNode];
  unfold element.

Ltac split_Forall :=
  repeat match goal with
         | Hall : Forall _ (_ :: _) |- _ =>
             let Hhd := fresh "Hhd" in
             let Htl := fresh "Htl" in
             inversion Hall as [|? ? Hhd Htl]; subst; clear Hall
         end.

Ltac use_lookups r :=
  repeat match goal with
         | Heq : GetInfoElementWithValue r _ = _ |- _ => rewrite Heq; clear Heq
         end.

(** X7. Every column of the row is read from the record's information elements
    of [elementNames]: when the first of them is present the column is its
    value, read with the getter of the column's Go type, and the second is
    not looked at; when only the second (IPv6) element is present the
    column is that one's value; two records that agree on the elements give
    the same value, and a record that has none of them gives the zero value
    of the column. *)
Theorem row_field_from_named_elements (f : Field) (r1 r2 : IpfixRecord) :
  (Forall (fun name => GetInfoElementWithValue r1 name
                       = GetInfoElementWithValue r2 name) (elementNames f) ->
   fieldValue f (getClickHouseFlowRow r1) = fieldValue f (getClickHouseFlowRow r2))
  /\ (Forall (fun name => GetInfoElementWithValue r1 name = None) (elementNames f) ->
      fieldValue f (getClickHouseFlowRow r1) = fieldValue f zeroRow)
  /\ (forall e : InfoElementWithValue,
        GetInfoElementWithValue r1 (hd EmptyString (elementNames f)) = Some e ->
        GetInfoElementWithValue r2 (hd EmptyString (elementNames f)) = Some e ->
        fieldValue f (getClickHouseFlowRow r1)
        = fieldValue f (getClickHouseFlowRow r2))
  /\ (forall e : InfoElementWithValue,
        GetInfoElementWithValue r1 (hd EmptyString (elementNames f)) = Some e ->
        fieldValue f (getClickHouseFlowRow r1) = readAs f e)
  /\ (forall (first second : string) (e : InfoElementWithValue),
        elementNames f = [first; second] ->
        GetInfoElementWithValue r1 first = None ->
        GetInfoElementWithValue r1 second = Some e ->
        fieldValue f (getClickHouseFlowRow r1) = readAs f e).
Proof.
  split; [|split; [|split; [|split]]].
  - intros Hsame.
    destruct f; cbn [elementNames fieldName] in Hsame; split_Forall;
      read_field; use_lookups r1; reflexivity.
  - intros Hnone.
    destruct f; cbn [elementNames fieldName] in Hnone; split_Forall;
      read_field; use_lookups r1; reflexivity.
  - intros e He1 He2.
    destruct f; cbn [elementNames fieldName hd] in He1, He2;
      read_field; rewrite He1, He2; reflexivity.
  - intros e He.
    destruct f; cbn [elementNames fieldName hd] in He;
      unfold readAs; cbn [fieldType elementNames fieldName];
      read_field; rewrite He; reflexivity.
  - intros first second e Hnames Hfirst Hsecond.
    destruct f; cbn [elementNames fieldName] in Hnames; try discriminate;
      injection Hnames as <- <-;
      unfold readAs; cbn [fieldType elementNames];
      read_field; rewrite Hfirst, Hsecond; reflexivity.
Qed.

End RowFacts.

Lemma row_field_from_named_elements_witness :
  clickhouseclient.fieldValue clickhouseclient.F_packetTotalCount
    (@clickhouseclient.getClickHouseFlowRow listEntities.entities
       [("packetTotalCount", listEntities.mkElement 7 EmptyString EmptyString);
        ("sourcePodName", listEntities.mkElement 0 "client" EmptyString)])
  = clickhouseclient.fieldValue clickhouseclient.F_packetTotalCount
      (@clickhouseclient.getClickHouseFlowRow listEntities.entities
         [("octetTotalCount", listEntities.mkElement 420 EmptyString EmptyString);
          ("packetTotalCount", listEntities.mkElement 7 EmptyString EmptyString)])
  /\ clickhouseclient.fieldValue clickhouseclient.F_packetTotalCount
       (@clickhouseclient.getClickHouseFlowRow listEntities.entities
          [("packetTotalCount", listEntities.mkElement 7 EmptyString EmptyString);
           ("sourcePodName", listEntities.mkElement 0 "client" EmptyString)])
     = GoSql.ArgUint64 7
  /\ clickhouseclient.fieldValue clickhouseclient.F_sourceIP
       (@clickhouseclient.getClickHouseFlowRow listEntities.entities
          [("sourceIPv6Address", listEntities.mkElement 0 EmptyString "2001:db8::1")])
     = GoSql.ArgString "2001:db8::1".
Proof.
  split; [|split].
  - apply (proj1 (@row_field_from_named_elements listEntities.entities
                    clickhouseclient.F_packetTotalCount
                    [("packetTotalCount", listEntities.mkElement 7 EmptyString EmptyString);
                     ("sourcePodName", listEntities.mkElement 0 "client" EmptyString)]
                    [("octetTotalCount", listEntities.mkElement 420 EmptyString EmptyString);
                     ("packetTotalCount", listEntities.mkElement 7 EmptyString EmptyString)])).
    repeat constructor.
  - apply (proj1 (proj2 (proj2 (proj2
             (@row_field_from_named_elements listEntities.entities
                clickhouseclient.F_packetTotalCount
                [("packetTotalCount", listEntities.mkElement 7 EmptyString EmptyString);
                 ("sourcePodName", listEntities.mkElement 0 "client" EmptyString)]
                []))))
             (listEntities.mkElement 7 EmptyString EmptyString)).
    reflexivity.
  - apply (proj2 (proj2 (proj2 (proj2
             (@row_field_from_named_elements listEntities.entities
                clickhouseclient.F_sourceIP
                [("sourceIPv6Address",
                  listEntities.mkElement 0 EmptyString "2001:db8::1")]
                []))))
             "sourceIPv4Address" "sourceIPv6Address"
             (listEntities.mkElement 0 EmptyString "2001:db8::1")).
    + reflexivity.
    + reflexivity.
    + reflexivity.
Defined.

(** ** Connecting: DSN edge cases, [PrepareConnection], [NewClickHouseClient] *)

Section ConnectFacts.
Import GoStrings clickhouseclient.

Lemma Split_two (s : string) (sep : ascii) :
  lacks sep s = false ->
  exists (a b : string) (rest : list string), Split s sep = a :: b :: rest.
Proof.
  induction s as [|c s IH]; simpl; [discriminate|].
  destruct (Ascii.eqb c sep) eqn:Hc; simpl.
  - intros _. destruct (Split s sep) as [|b rest] eqn:Hs.
    + exfalso. exact (Split_nonempty s sep Hs).
    + eauto.
  - intros Hl. destruct (IH Hl) as (a & b & rest & Hs). rewrite Hs. eauto.
Qed.

Lemma dsnPairs_returns_iff (pieces : list string) :
  forall m : gmap string string,
    returns (dsnPairs pieces m) <-> Forall (fun p => lacks "=" p = false) pieces.
Proof.
  induction pieces as [|p pieces IH]; intros m.
  - split; [constructor | intros _; eexists; reflexivity].
  - cbn [dsnPairs]. destruct (lacks "=" p) eqn:Hp.
    + rewrite (Split_lacks _ _ Hp). split.
      * intros [m' Hm']. discriminate Hm'.
      * intros Hall. inversion Hall; subst. congruence.
    + destruct (Split_two _ _ Hp) as (k & v & rest & Hs). rewrite Hs.
      rewrite IH. split.
      * intros Hall. constructor; assumption.
      * intros Hall. inversion Hall; subst. assumption.
Qed.

(** X8. [GetDsnMap] returns exactly for a DSN that contains a [?] and whose
    pieces between [&] (up to a second [?]) each contain an [=]; on every
    other DSN, the empty one included, it panics on an index out of range. *)
Theorem GetDsnMap_returns_iff (ch : ClickHouseExportProcess) :
  returns (GetDsnMap ch)
  <-> exists (url query : string) (rest : list string),
        Split (dsn ch) "?" = url :: query :: rest
        /\ Forall (fun p => lacks "=" p = false) (Split query "&").
Proof.
  unfold GetDsnMap. destruct (Split (dsn ch) "?") as [|url [|query rest]] eqn:Hs.
  - split; [intros [m Hm]; discriminate Hm | intros (u & q & r & Heq & _); discriminate Heq].
  - split; [intros [m Hm]; discriminate Hm | intros (u & q & r & Heq & _); discriminate Heq].
  - rewrite dsnPairs_returns_iff. split.
    + intros Hall. eauto.
    + intros (u & q & r & Heq & Hall). inversion Heq; subst. exact Hall.
Qed.

Example GetDsnMap_without_query :
  GetDsnMap (withDsn "tcp://clickhouse:9000" exampleProcess)
  = Panic "index out of range [1]".
Proof. reflexivity. Qed.

Lemma getDataSourceName_nil_Compress (ci : ClickHouseInput) :
  DatabaseURL ci <> EmptyString -> Username ci <> EmptyString ->
  Password ci <> EmptyString -> Compress ci = None ->
  getDataSourceName ci = Panic "invalid memory address or nil pointer dereference".
Proof.
  intros Hu Hn Hp Hc. unfold getDataSourceName, len.
  destruct (Z.of_nat (String.length (DatabaseURL ci)) =? 0) eqn:E1.
  { apply length_zero_empty in E1. contradiction. }
  destruct (Z.of_nat (String.length (Username ci)) =? 0) eqn:E2.
  { apply length_zero_empty in E2. contradiction. }
  destruct (Z.of_nat (String.length (Password ci)) =? 0) eqn:E3.
  { apply length_zero_empty in E3. contradiction. }
  rewrite Hc. reflexivity.
Qed.

Lemma string_empty_dec (s : string) : {s = EmptyString} + {s <> EmptyString}.
Proof. destruct s; [left; reflexivity | right; discriminate]. Qed.

(** The outcome of [getDataSourceName] by cases. *)
Lemma getDataSourceName_cases (ci : ClickHouseInput) :
  (exists err, getDataSourceName ci = Ret (EmptyString, Some err)
               /\ (DatabaseURL ci = EmptyString \/ Username ci = EmptyString
                   \/ Password ci = EmptyString))
  \/ (getDataSourceName ci = Panic "invalid memory address or nil pointer dereference"
      /\ Compress ci = None
      /\ DatabaseURL ci <> EmptyString /\ Username ci <> EmptyString
      /\ Password ci <> EmptyString)
  \/ (exists c, getDataSourceName ci = Ret (dsnText ci c, None)
                /\ Compress ci = Some c
                /\ DatabaseURL ci <> EmptyString /\ Username ci <> EmptyString
                /\ Password ci <> EmptyString).
Proof.
  destruct (string_empty_dec (DatabaseURL ci)) as [Hu|Hu];
    [left; eexists; split; [apply getDataSourceName_missing|]; auto|].
  destruct (string_empty_dec (Username ci)) as [Hn|Hn];
    [left; eexists; split; [apply getDataSourceName_missing|]; auto|].
  destruct (string_empty_dec (Password ci)) as [Hp|Hp];
    [left; eexists; split; [apply getDataSourceName_missing|]; auto|].
  right. destruct (Compress ci) as [c|] eqn:Hc.
  - right. exists c. split; [apply getDataSourceName_text; assumption | auto].
  - left. split; [apply getDataSourceName_nil_Compress; assumption | auto].
Qed.

(** X9. [PrepareConnection] succeeds exactly when the DSN can be written, the
    connection is established, and the test transaction can be opened and
    the insert statement prepared in it.  It then returns the DSN of the
    input and the connection after [Begin], [Prepare] and a [Commit] whose
    answer is not looked at. *)
Theorem PrepareConnection_succeeds_iff
    (ConnectClickHouse : string -> GoSql.DB + Error) (input : ClickHouseInput)
    (d : string) (connect' : GoSql.DB) :
  PrepareConnection ConnectClickHouse input = Ret (inl (d, connect'))
  <-> exists (c : bool) (connect : GoSql.DB),
        DatabaseURL input <> EmptyString /\ Username input <> EmptyString
        /\ Password input <> EmptyString /\ Compress input = Some c
        /\ d = dsnText input c
        /\ ConnectClickHouse d = inl connect
        /\ GoSql.answer connect (GoSql.history connect) GoSql.CallBegin = None
        /\ GoSql.answer connect (GoSql.history connect ++ [(GoSql.CallBegin, None)])
             (GoSql.CallPrepare insertQuery) = None
        /\ connect'
           = snd (GoSql.Commit
                    (GoSql.succeeded
                       [GoSql.CallBegin; GoSql.CallPrepare insertQuery] connect)).
Proof.
  unfold PrepareConnection.
  destruct (getDataSourceName_cases input)
    as [(err & Hget & Hmiss) | [(Hget & Hnil & Hu & Hn & Hp)
                               | (c & Hget & Hc & Hu & Hn & Hp)]];
    rewrite Hget; cbn [bindGo].
  - split; [discriminate|]. intros (c & connect & Hu & Hn & Hp & _). tauto.
  - split; [discriminate|]. intros (c & connect & _ & _ & _ & Hc & _). congruence.
  - destruct (ConnectClickHouse (dsnText input c)) as [connect|err] eqn:Hconn.
    2:{ split; [discriminate|].
        intros (c' & connect & _ & _ & _ & Hc' & Hd & Hconn' & _).
        assert (c' = c) by congruence. subst. congruence. }
    unfold GoSql.Begin, GoSql.Prepare. unfold GoSql.perform at 1.
    destruct (GoSql.answer connect (GoSql.history connect) GoSql.CallBegin)
      as [e|] eqn:Hbegin.
    { cbn. split; [discriminate|].
      intros (c' & connect0 & _ & _ & _ & Hc' & Hd & Hconn' & Hb & _).
      assert (c' = c) by congruence. subst. congruence. }
    cbv beta iota zeta. unfold GoSql.perform at 1. cbn [GoSql.history GoSql.answer].
    destruct (GoSql.answer connect (GoSql.history connect ++ [(GoSql.CallBegin, None)])
                (GoSql.CallPrepare insertQuery)) as [e|] eqn:Hprep.
    { cbn. split; [discriminate|].
      intros (c' & connect0 & _ & _ & _ & Hc' & Hd & Hconn' & _ & Hp' & _).
      assert (c' = c) by congruence. subst. congruence. }
    cbv beta iota zeta.
    assert (Hdb : {| GoSql.answer := GoSql.answer connect;
                     GoSql.history := (GoSql.history connect ++ [(GoSql.CallBegin, None)])
                                      ++ [(GoSql.CallPrepare insertQuery, None)] |}
                  = GoSql.succeeded [GoSql.CallBegin; GoSql.CallPrepare insertQuery]
                      connect).
    { unfold GoSql.succeeded. cbn [map]. rewrite <- app_assoc. reflexivity. }
    rewrite Hdb. destruct (GoSql.Commit _) as [a db3] eqn:Hcommit. split.
    + intros Heq. inversion Heq; subst. exists c, connect. cbn [snd].
      repeat split; auto. rewrite Hcommit. reflexivity.
    + intros (c' & connect0 & _ & _ & _ & Hc' & Hd & Hconn' & _ & _ & Hres).
      assert (c' = c) by congruence. subst c' d.
      assert (connect0 = connect) by congruence. subst connect0.
      rewrite Hcommit in Hres. cbn [snd] in Hres. subst. reflexivity.
Qed.

(** The test transaction of [PrepareConnection] makes nothing durable. *)
Lemma durable_test_transaction (connect : GoSql.DB) :
  GoSql.durable
    (snd (GoSql.Commit
            (GoSql.succeeded [GoSql.CallBegin; GoSql.CallPrepare insertQuery] connect)))
  = GoSql.durable connect.
Proof.
  unfold GoSql.Commit, GoSql.perform, GoSql.succeeded, GoSql.durable.
  cbn [snd GoSql.history GoSql.answer map].
  destruct (durableFrom_app (GoSql.history connect) [] []) as (p & dur & Hsplit).
  rewrite <- app_assoc, Hsplit. rewrite <- (app_nil_r (GoSql.history connect)), Hsplit.
  cbn [app GoSql.durableFrom].
  destruct (GoSql.answer connect _ GoSql.CallCommit); cbn; [reflexivity|].
  apply app_nil_r.
Qed.

(** X10. A process made by [NewClickHouseClient]: its DSN is the one written from
    the input and reads back through [GetDsnMap] when the input's fields
    are free of separators; its buffer is empty with the default capacity;
    its commit interval is the input's, which is positive, and the ticker
    runs with it; the stop channel is open; the connection test has made
    nothing durable. *)
Theorem NewClickHouseClient_creates
    (ConnectClickHouse : string -> GoSql.DB + Error) (input : ClickHouseInput)
    (ch : ClickHouseExportProcess) :
  NewClickHouseClient ConnectClickHouse input = Ret (inl ch) ->
  exists (c : bool) (connect : GoSql.DB),
    Compress input = Some c
    /\ GetDsn ch = dsnText input c
    /\ ConnectClickHouse (GetDsn ch) = inl connect
    /\ GoSql.durable (db ch) = GoSql.durable connect
    /\ deque ch = [] /\ queueSize ch = 524288 /\ stopCh ch = ChanOpen
    /\ 0 < CommitInterval input
    /\ GetCommitInterval ch = CommitInterval input
    /\ commitTicker ch = GoTime.TickerRunning (CommitInterval input)
    /\ (dsnSafe (DatabaseURL input) = true -> dsnSafe (Username input) = true ->
        dsnSafe (Password input) = true -> dsnSafe (Database input) = true ->
        GetDsnMap ch
        = Ret (fold_left (fun m kv => <[fst kv := snd kv]> m) (dsnFields input c)
                 (<["databaseURL" := DatabaseURL input]> ∅))).
Proof.
  unfold NewClickHouseClient.
  destruct (PrepareConnection ConnectClickHouse input) as [[[d connect']|err]|] eqn:Hprep;
    cbn [bindGo]; try discriminate.
  apply PrepareConnection_succeeds_iff in Hprep
    as (c & connect & Hu & Hn & Hp & Hc & Hd & Hconn & _ & _ & Hres).
  unfold GoTime.NewTicker.
  destruct (Z.leb_spec (CommitInterval input) 0) as [Hle|Hgt]; cbn [bindGo];
    [discriminate|].
  intros Heq. inversion Heq; subst ch. clear Heq.
  exists c, connect. unfold GetDsn, GetCommitInterval.
  cbn [dsn db deque queueSize stopCh commitInterval commitTicker].
  subst d connect'. repeat (split; [first [assumption | reflexivity]|]).
  split; [apply durable_test_transaction|].
  repeat (split; [first [assumption | reflexivity]|]).
  intros Su Sn Sp Sd. apply (GetDsnMap_text input c); try assumption; [|reflexivity].
  apply dsnSafe_lacks in Su. tauto.
Qed.

(** X11. [NewClickHouseClient] panics in two cases only: the input has URL,
    Username and Password but a nil [Compress], or the connection test
    passed and the commit interval is not positive, which [time.NewTicker]
    refuses. *)
Theorem NewClickHouseClient_panics_iff
    (ConnectClickHouse : string -> GoSql.DB + Error) (input : ClickHouseInput) :
  (exists msg, NewClickHouseClient ConnectClickHouse input = Panic msg)
  <-> (Compress input = None /\ DatabaseURL input <> EmptyString
       /\ Username input <> EmptyString /\ Password input <> EmptyString)
      \/ ((exists r, PrepareConnection ConnectClickHouse input = Ret (inl r))
          /\ CommitInterval input <= 0).
Proof.
  unfold NewClickHouseClient.
  destruct (PrepareConnection ConnectClickHouse input) as [[[d connect']|err]|msg] eqn:Hprep;
    cbn [bindGo].
  - unfold GoTime.NewTicker.
    destruct (Z.leb_spec (CommitInterval input) 0) as [Hle|Hgt]; cbn [bindGo].
    + split; [intros _; right; eauto | intros _; eauto].
    + split; [intros [msg Hm]; discriminate Hm|].
      intros [(Hnil & _) | (_ & Hle)]; [|lia].
      apply PrepareConnection_succeeds_iff in Hprep as (c & _ & _ & _ & _ & Hc & _).
      congruence.
  - split; [intros [msg Hm]; discriminate Hm|].
    intros [(Hnil & Hu & Hn & Hp) | ([r Hr] & _)]; [|discriminate Hr].
    unfold PrepareConnection in Hprep.
    rewrite (getDataSourceName_nil_Compress _ Hu Hn Hp Hnil) in Hprep. discriminate Hprep.
  - split; [|eauto]. intros _. left.
    unfold PrepareConnection in Hprep.
    destruct (getDataSourceName_cases input)
      as [(err & Hget & _) | [(Hget & Hnil & Hu & Hn & Hp) | (c & Hget & _)]];
      rewrite Hget in Hprep; cbn [bindGo] in Hprep.
    + discriminate Hprep.
    + auto.
    + destruct (ConnectClickHouse (dsnText input c)) as [connect|];
        [|discriminate Hprep].
      destruct (GoSql.Begin connect) as [[tx [e|]] db1]; [discriminate Hprep|].
      destruct (GoSql.Prepare insertQuery db1) as [[st [e|]] db2];
        [discriminate Hprep|].
      destruct (GoSql.Commit db2). discriminate Hprep.
Qed.

(** X12. [SetCommitInterval] with a positive interval stores it and restarts the
    ticker with it, also when the ticker had been stopped, and leaves the
    buffer and the connection alone; with an interval that is not positive
    it panics in [Ticker.Reset]. *)
Theorem SetCommitInterval_positive (d : GoTime.Duration)
    (ch : ClickHouseExportProcess) :
  (0 < d ->
   exists ch', SetCommitInterval d ch = Ret ch'
               /\ GetCommitInterval ch' = d
               /\ commitTicker ch' = GoTime.TickerRunning d
               /\ deque ch' = deque ch /\ db ch' = db ch /\ GetDsn ch' = GetDsn ch
               /\ queueSize ch' = queueSize ch /\ stopCh ch' = stopCh ch)
  /\ (d <= 0 ->
      SetCommitInterval d ch = Panic "non-positive interval for Ticker.Reset").
Proof.
  unfold SetCommitInterval, GoTime.Reset, GetCommitInterval.
  cbn [commitInterval withCommitInterval].
  destruct (Z.leb_spec d 0); split; intros Hd; try lia.
  - reflexivity.
  - eexists. split; [reflexivity|]. cbn. auto 10.
Qed.

End ConnectFacts.

(** ** What [LoadConfig] accepts *)

Section ConfigMore.
Import options.
Context `{ConfigDeps}.

Lemma flowCollectorParams_inl (config : FlowAggregatorConfig.t) (addr proto : string) :
  flowCollectorParams config = inl (addr, proto) ->
  let fc := FlowAggregatorConfig.FlowCollector config in
  (FlowCollectorConfig.Enable fc = true -> FlowCollectorConfig.Address fc <> EmptyString ->
   (FlowCollectorConfig.RecordFormat fc = "IPFIX"
    \/ FlowCollectorConfig.RecordFormat fc = "JSON")
   /\ exists host port,
        ParseFlowCollectorAddr (FlowCollectorConfig.Address fc)
          DefaultExternalFlowCollectorPort DefaultExternalFlowCollectorTransport
        = inl (host, port, proto)
        /\ addr = JoinHostPort host port)
  /\ (FlowCollectorConfig.Enable fc = false -> addr = EmptyString /\ proto = EmptyString).
Proof.
  intros Hparams fc. unfold flowCollectorParams in Hparams. fold fc in Hparams.
  destruct (FlowCollectorConfig.Enable fc).
  - split; [|discriminate]. intros _ Haddr.
    destruct (FlowCollectorConfig.Address fc) as [|a s] eqn:Ha; [congruence|].
    cbn [andb String.length] in Hparams.
    replace (Z.of_nat (S (String.length s)) >? 0) with true in Hparams
      by (symmetry; apply Z.gtb_lt; lia).
    destruct (ParseFlowCollectorAddr _ _ _) as [[[host port] proto']|] eqn:Hparse;
      [|discriminate Hparams].
    destruct (String.eqb (FlowCollectorConfig.RecordFormat fc) "IPFIX") eqn:E1;
      [apply String.eqb_eq in E1|];
      (destruct (String.eqb (FlowCollectorConfig.RecordFormat fc) "JSON") eqn:E2;
       [apply String.eqb_eq in E2|]); cbn in Hparams; try discriminate Hparams;
      inversion Hparams; subst; (split; [auto | exists host, port; auto]).
  - cbn in Hparams. inversion Hparams; subst. split; [discriminate | auto].
Qed.

(** X13. Options returned by [LoadConfig] come from a configuration that decoded,
    with the defaults applied, and passed every check: a sink is enabled; an
    enabled flow collector has an address that parsed and a record format of
    IPFIX or JSON; the timeouts, the transport protocol and (with ClickHouse
    enabled) the commit interval are the parsed values of the configured
    strings; what is not enabled is left at its zero value. *)
Theorem LoadConfig_validated (configBytes : string) (opt : Options) :
  LoadConfig configBytes = inl opt ->
  let fc := FlowAggregatorConfig.FlowCollector (Config opt) in
  let chc := FlowAggregatorConfig.ClickHouse (Config opt) in
  (exists config, UnmarshalStrict configBytes = inl config
                  /\ Config opt = SetConfigDefaults config)
  /\ (FlowCollectorConfig.Enable fc = true \/ ClickHouseConfig.Enable chc = true)
  /\ ParseDuration (FlowAggregatorConfig.ActiveFlowRecordTimeout (Config opt))
     = inl (ActiveFlowRecordTimeout opt)
  /\ ParseDuration (FlowAggregatorConfig.InactiveFlowRecordTimeout (Config opt))
     = inl (InactiveFlowRecordTimeout opt)
  /\ ParseTransportProtocol (FlowAggregatorConfig.AggregatorTransportProtocol (Config opt))
     = inl (AggregatorTransportProtocol opt)
  /\ (FlowCollectorConfig.Enable fc = true ->
      FlowCollectorConfig.Address fc <> EmptyString
      /\ (FlowCollectorConfig.RecordFormat fc = "IPFIX"
          \/ FlowCollectorConfig.RecordFormat fc = "JSON")
      /\ exists host port,
           ParseFlowCollectorAddr (FlowCollectorConfig.Address fc)
             DefaultExternalFlowCollectorPort DefaultExternalFlowCollectorTransport
           = inl (host, port, ExternalFlowCollectorProto opt)
           /\ ExternalFlowCollectorAddr opt = JoinHostPort host port)
  /\ (FlowCollectorConfig.Enable fc = false ->
      ExternalFlowCollectorAddr opt = EmptyString
      /\ ExternalFlowCollectorProto opt = EmptyString)
  /\ (ClickHouseConfig.Enable chc = true ->
      ParseDuration (ClickHouseConfig.CommitInterval chc)
      = inl (ClickHouseCommitInterval opt))
  /\ (ClickHouseConfig.Enable chc = false -> ClickHouseCommitInterval opt = 0).
Proof.
  unfold LoadConfig.
  destruct (UnmarshalStrict configBytes) as [config|] eqn:Hun; [|discriminate].
  set (cfg := SetConfigDefaults config).
  destruct (FlowCollectorConfig.Enable (FlowAggregatorConfig.FlowCollector cfg)
            && String.eqb (FlowCollectorConfig.Address
                             (FlowAggregatorConfig.FlowCollector cfg)) EmptyString)
    eqn:Haddr; [discriminate|].
  destruct (negb (FlowCollectorConfig.Enable (FlowAggregatorConfig.FlowCollector cfg))
            && negb (ClickHouseConfig.Enable (FlowAggregatorConfig.ClickHouse cfg)))
    eqn:Hsink; [discriminate|].
  destruct (ParseDuration (FlowAggregatorConfig.ActiveFlowRecordTimeout cfg))
    as [active|] eqn:Hactive; [|discriminate].
  destruct (ParseDuration (FlowAggregatorConfig.InactiveFlowRecordTimeout cfg))
    as [inactive|] eqn:Hinactive; [|discriminate].
  destruct (ParseTransportProtocol _) as [transport|] eqn:Htransport; [|discriminate].
  destruct (flowCollectorParams cfg) as [[addr proto]|] eqn:Hfc; [|discriminate].
  destruct (clickHouseParams cfg) as [interval|] eqn:Hch; [|discriminate].
  intros Heq. inversion Heq; subst opt. clear Heq.
  cbn [Config ActiveFlowRecordTimeout InactiveFlowRecordTimeout
       AggregatorTransportProtocol ExternalFlowCollectorAddr
       ExternalFlowCollectorProto ClickHouseCommitInterval].
  apply flowCollectorParams_inl in Hfc. destruct Hfc as [Hfcon Hfcoff].
  split; [exists config; auto|].
  split.
  { destruct (FlowCollectorConfig.Enable _); [auto|].
    destruct (ClickHouseConfig.Enable _); [auto | discriminate Hsink]. }
  repeat (split; [assumption|]).
  split.
  { intros Hen. rewrite Hen in Haddr. cbn in Haddr.
    apply String.eqb_neq in Haddr. split; [exact Haddr|].
    destruct (Hfcon Hen Haddr) as (Hformat & host & port & Hparse & Haddr').
    split; [exact Hformat|]. exists host, port. auto. }
  split; [exact Hfcoff|].
  unfold clickHouseParams in Hch.
  destruct (ClickHouseConfig.Enable (FlowAggregatorConfig.ClickHouse cfg)).
  - split; [|discriminate]. intros _.
    destruct (ParseDuration (ClickHouseConfig.CommitInterval _)) as [parsed|];
      [|discriminate Hch].
    destruct (parsed <? MinClickHouseCommitInterval); [discriminate Hch|].
    inversion Hch; subst. reflexivity.
  - split; [discriminate|]. intros _. inversion Hch; subst. reflexivity.
Qed.

(** X14. [LoadConfig] accepts every configuration that decodes and, with the
    defaults applied, enables a sink, has timeouts and a transport protocol
    that parse, has for an enabled flow collector an address that parses and
    a record format of IPFIX or JSON, and has for an enabled ClickHouse a
    commit interval that parses and is not below the minimum. *)
Theorem LoadConfig_accepts (configBytes : string) (config : FlowAggregatorConfig.t)
    (active inactive : GoTime.Duration) (transport : string) :
  let cfg := SetConfigDefaults config in
  let fc := FlowAggregatorConfig.FlowCollector cfg in
  let chc := FlowAggregatorConfig.ClickHouse cfg in
  UnmarshalStrict configBytes = inl config ->
  (FlowCollectorConfig.Enable fc = true \/ ClickHouseConfig.Enable chc = true) ->
  ParseDuration (FlowAggregatorConfig.ActiveFlowRecordTimeout cfg) = inl active ->
  ParseDuration (FlowAggregatorConfig.InactiveFlowRecordTimeout cfg) = inl inactive ->
  ParseTransportProtocol (FlowAggregatorConfig.AggregatorTransportProtocol cfg)
  = inl transport ->
  (FlowCollectorConfig.Enable fc = true ->
   FlowCollectorConfig.Address fc <> EmptyString
   /\ (FlowCollectorConfig.RecordFormat fc = "IPFIX"
       \/ FlowCollectorConfig.RecordFormat fc = "JSON")
   /\ exists parsed,
        ParseFlowCollectorAddr (FlowCollectorConfig.Address fc)
          DefaultExternalFlowCollectorPort DefaultExternalFlowCollectorTransport
        = inl parsed) ->
  (ClickHouseConfig.Enable chc = true ->
   exists interval,
     ParseDuration (ClickHouseConfig.CommitInterval chc) = inl interval
     /\ MinClickHouseCommitInterval <= interval) ->
  exists opt : Options,
    LoadConfig configBytes = inl opt
    /\ Config opt = cfg
    /\ ActiveFlowRecordTimeout opt = active
    /\ InactiveFlowRecordTimeout opt = inactive
    /\ AggregatorTransportProtocol opt = transport.
Proof.
  intros cfg fc chc Hun Hsink Hactive Hinactive Htransport Hfc Hch.
  unfold LoadConfig. rewrite Hun. fold cfg. fold fc. fold chc.
  assert (Haddr : FlowCollectorConfig.Enable fc
                  && String.eqb (FlowCollectorConfig.Address fc) EmptyString = false).
  { destruct (FlowCollectorConfig.Enable fc) eqn:Hen; [|reflexivity].
    destruct (Hfc eq_refl) as [Hne _]. cbn. apply String.eqb_neq. exact Hne. }
  rewrite Haddr.
  assert (Hsink' : negb (FlowCollectorConfig.Enable fc)
                   && negb (ClickHouseConfig.Enable chc) = false).
  { destruct Hsink as [-> | ->]; [reflexivity | apply andb_false_r]. }
  rewrite Hsink', Hactive, Hinactive, Htransport.
  assert (Hfcp : exists addr proto, flowCollectorParams cfg = inl (addr, proto)).
  { unfold flowCollectorParams. fold fc.
    destruct (FlowCollectorConfig.Enable fc) eqn:Hen; [|cbn; eauto].
    destruct (Hfc eq_refl) as (Hne & Hformat & [[host port] proto] & Hparse).
    destruct (FlowCollectorConfig.Address fc) as [|a s] eqn:Ha; [congruence|].
    cbn [andb String.length].
    replace (Z.of_nat (S (String.length s)) >? 0) with true
      by (symmetry; apply Z.gtb_lt; lia).
    rewrite Hparse. destruct Hformat as [-> | ->]; cbn; eauto. }
  destruct Hfcp as (addr & proto & ->).
  assert (Hchp : exists interval, clickHouseParams cfg = inl interval).
  { unfold clickHouseParams. fold chc.
    destruct (ClickHouseConfig.Enable chc) eqn:Hen; [|eauto].
    destruct (Hch eq_refl) as (interval & -> & Hmin).
    destruct (Z.ltb_spec interval MinClickHouseCommitInterval); [lia | eauto]. }
  destruct Hchp as (interval & ->).
  eexists. split; [reflexivity|]. cbn. auto.
Qed.

End ConfigMore.

Lemma LoadConfig_validated_witness :
  let opt := exampleOptions in
  let fc := FlowAggregatorConfig.FlowCollector (options.Config opt) in
  let chc := FlowAggregatorConfig.ClickHouse (options.Config opt) in
  (exists config, @UnmarshalStrict exampleDeps "8s" = inl config
                  /\ options.Config opt = @SetConfigDefaults exampleDeps config)
  /\ (FlowCollectorConfig.Enable fc = true \/ ClickHouseConfig.Enable chc = true)
  /\ exampleParseDuration "60s" = inl (60 * GoTime.Second)
  /\ exampleParseDuration "90s" = inl (90 * GoTime.Second)
  /\ @ParseTransportProtocol exampleDeps "tls" = inl "tls"
  /\ (FlowCollectorConfig.Enable fc = true ->
      FlowCollectorConfig.Address fc <> EmptyString
      /\ (FlowCollectorConfig.RecordFormat fc = "IPFIX"
          \/ FlowCollectorConfig.RecordFormat fc = "JSON")
      /\ exists host port,
           @ParseFlowCollectorAddr exampleDeps (FlowCollectorConfig.Address fc)
             "4739" "tcp"
           = inl (host, port, options.ExternalFlowCollectorProto opt)
           /\ options.ExternalFlowCollectorAddr opt
              = @JoinHostPort exampleDeps host port)
  /\ (FlowCollectorConfig.Enable fc = false ->
      options.ExternalFlowCollectorAddr opt = EmptyString
      /\ options.ExternalFlowCollectorProto opt = EmptyString)
  /\ (ClickHouseConfig.Enable chc = true ->
      exampleParseDuration "8s" = inl (8 * GoTime.Second))
  /\ (ClickHouseConfig.Enable chc = false ->
      options.ClickHouseCommitInterval opt = 0).
Proof.
  exact (@LoadConfig_validated exampleDeps "8s" exampleOptions eq_refl).
Defined.

Lemma LoadConfig_accepts_witness :
  exists opt : options.Options,
    @options.LoadConfig exampleDeps "8s" = inl opt
    /\ options.Config opt = exampleConfig "8s"
    /\ options.ActiveFlowRecordTimeout opt = 60 * GoTime.Second
    /\ options.InactiveFlowRecordTimeout opt = 90 * GoTime.Second
    /\ options.AggregatorTransportProtocol opt = "tls".
Proof.
  apply (@LoadConfig_accepts exampleDeps "8s" (exampleConfig "8s")).
  - reflexivity.
  - right. reflexivity.
  - reflexivity.
  - reflexivity.
  - reflexivity.
  - discriminate.
  - intros _. exists (8 * GoTime.Second). split; [reflexivity | vm_compute; discriminate].
Defined.

Lemma GetDsnMap_returns_iff_witness :
  exists (url query : string) (rest : list string),
    GoStrings.Split (clickhouseclient.dsn exampleClient) "?" = url :: query :: rest
    /\ Forall (fun p => GoStrings.lacks "=" p = false) (GoStrings.Split query "&").
Proof.
  apply (proj1 (GetDsnMap_returns_iff exampleClient)).
  eexists. vm_compute. reflexivity.
Defined.

Lemma PrepareConnection_succeeds_iff_witness :
  clickhouseclient.PrepareConnection (fun _ => inl clickhouseclient.healthyDB)
    clickhouseclient.exampleInput
  = Ret (inl (clickhouseclient.dsnText clickhouseclient.exampleInput true,
              snd (GoSql.Commit
                     (GoSql.succeeded
                        [GoSql.CallBegin;
                         GoSql.CallPrepare clickhouseclient.insertQuery]
                        clickhouseclient.healthyDB)))).
Proof.
  apply (proj2 (PrepareConnection_succeeds_iff
                  (fun _ => inl clickhouseclient.healthyDB)
                  clickhouseclient.exampleInput
                  (clickhouseclient.dsnText clickhouseclient.exampleInput true)
                  (snd (GoSql.Commit
                          (GoSql.succeeded
                             [GoSql.CallBegin;
                              GoSql.CallPrepare clickhouseclient.insertQuery]
                             clickhouseclient.healthyDB))))).
  exists true, clickhouseclient.healthyDB.
  repeat split; try reflexivity; discriminate.
Defined.

Lemma NewClickHouseClient_creates_witness :
  exists (c : bool) (connect : GoSql.DB),
    clickhouseclient.Compress clickhouseclient.exampleInput = Some c
    /\ clickhouseclient.GetDsn exampleClient
       = clickhouseclient.dsnText clickhouseclient.exampleInput c
    /\ (inl clickhouseclient.healthyDB : GoSql.DB + Error) = inl connect
    /\ GoSql.durable (clickhouseclient.db exampleClient) = GoSql.durable connect
    /\ clickhouseclient.deque exampleClient = []
    /\ clickhouseclient.queueSize exampleClient = 524288
    /\ clickhouseclient.stopCh exampleClient = clickhouseclient.ChanOpen
    /\ 0 < clickhouseclient.CommitInterval clickhouseclient.exampleInput
    /\ clickhouseclient.GetCommitInterval exampleClient
       = clickhouseclient.CommitInterval clickhouseclient.exampleInput
    /\ clickhouseclient.commitTicker exampleClient
       = GoTime.TickerRunning
           (clickhouseclient.CommitInterval clickhouseclient.exampleInput)
    /\ (clickhouseclient.dsnSafe
          (clickhouseclient.DatabaseURL clickhouseclient.exampleInput) = true ->
        clickhouseclient.dsnSafe
          (clickhouseclient.Username clickhouseclient.exampleInput) = true ->
        clickhouseclient.dsnSafe
          (clickhouseclient.Password clickhouseclient.exampleInput) = true ->
        clickhouseclient.dsnSafe
          (clickhouseclient.Database clickhouseclient.exampleInput) = true ->
        clickhouseclient.GetDsnMap exampleClient
        = Ret (fold_left (fun m kv => <[fst kv := snd kv]> m)
                 (clickhouseclient.dsnFields clickhouseclient.exampleInput c)
                 (<["databaseURL" :=
                      clickhouseclient.DatabaseURL clickhouseclient.exampleInput]> ∅))).
Proof.
  apply (NewClickHouseClient_creates (fun _ => inl clickhouseclient.healthyDB)
           clickhouseclient.exampleInput exampleClient).
  vm_compute. reflexivity.
Defined.

Lemma NewClickHouseClient_panics_iff_witness :
  exists msg,
    clickhouseclient.NewClickHouseClient (fun _ => inl clickhouseclient.healthyDB)
      (clickhouseclient.mkInput "u" "p" "default" "tcp://clickhouse:9000"
         false (Some true) 0)
    = Panic msg.
Proof.
  apply (proj2 (NewClickHouseClient_panics_iff
                  (fun _ => inl clickhouseclient.healthyDB)
                  (clickhouseclient.mkInput "u" "p" "default"
                     "tcp://clickhouse:9000" false (Some true) 0))).
  right. split; [eexists; vm_compute; reflexivity | vm_compute; discriminate].
Defined.

Lemma SetCommitInterval_positive_witness :
  (exists ch',
     clickhouseclient.SetCommitInterval (10 * GoTime.Second) exampleClient = Ret ch'
     /\ clickhouseclient.GetCommitInterval ch' = 10 * GoTime.Second
     /\ clickhouseclient.commitTicker ch' = GoTime.TickerRunning (10 * GoTime.Second)
     /\ clickhouseclient.deque ch' = clickhouseclient.deque exampleClient
     /\ clickhouseclient.db ch' = clickhouseclient.db exampleClient
     /\ clickhouseclient.GetDsn ch' = clickhouseclient.GetDsn exampleClient
     /\ clickhouseclient.queueSize ch' = clickhouseclient.queueSize exampleClient
     /\ clickhouseclient.stopCh ch' = clickhouseclient.stopCh exampleClient)
  /\ clickhouseclient.SetCommitInterval 0 exampleClient
     = Panic "non-positive interval for Ticker.Reset".
Proof.
  split.
  - apply (proj1 (SetCommitInterval_positive (10 * GoTime.Second) exampleClient)).
    reflexivity.
  - apply (proj2 (SetCommitInterval_positive 0 exampleClient)). discriminate.
Defined.

(** ** IGMP snooping: statistics of reports *)

Section SnooperStats.
Import multicast.

Lemma updateRuleStats_lookup m uuid name packetLen uuid' name' :
  lookupMetric (updateRuleStats m uuid name packetLen) uuid' name'
  = if decide (uuid = uuid' /\ name = name')
    then metricAfter (lookupMetric m uuid name) [packetLen]
    else lookupMetric m uuid' name'.
Proof.
  unfold updateRuleStats, lookupMetric, metricAfter, total.
  cbn [fold_right length Z.of_nat Pos.of_succ_nat].
  rewrite Z.add_0_r.
  destruct (decide (uuid = uuid')) as [->|Hu].
  - rewrite lookup_insert_eq. cbn [mbind option_bind].
    destruct (decide (name = name')) as [->|Hn].
    + rewrite lookup_insert_eq. rewrite decide_True by auto.
      destruct (m !! uuid') as [rules|]; cbn; [|rewrite lookup_empty]; reflexivity.
    + rewrite lookup_insert_ne by exact Hn.
      rewrite decide_False by tauto.
      destruct (m !! uuid') as [rules|]; cbn; [|rewrite lookup_empty]; reflexivity.
  - rewrite lookup_insert_ne by exact Hu.
    rewrite decide_False by tauto. reflexivity.
Qed.

Lemma metricAfter_cons start len lens :
  metricAfter (metricAfter start [len]) lens = metricAfter start (len :: lens).
Proof.
  destruct lens as [|len' lens]; [reflexivity|].
  unfold metricAfter, uint64, total.
  cbn [default id Bytes Packets fold_right length].
  f_equal. f_equal.
  - rewrite Z.add_0_r. rewrite Zplus_mod_idemp_l. f_equal. lia.
  - rewrite Zplus_mod_idemp_l. f_equal. lia.
Qed.

Lemma reportsOf_cons t uuid name item len reports :
  reportsOf t uuid name ((item, len) :: reports)
  = if decide (NPType item = Some t /\ UUID item = uuid /\ Name item = name)
    then len :: reportsOf t uuid name reports
    else reportsOf t uuid name reports.
Proof.
  unfold reportsOf. rewrite filter_cons. cbn [fst].
  case_decide; reflexivity.
Qed.

Lemma addReports_metrics reports : forall s,
  Forall (fun r => NPType (fst r) <> None) reports ->
  exists s',
    addReports reports s = Ret s'
    /\ ofClient s' = ofClient s /\ eventCh s' = eventCh s
    /\ (forall uuid name,
          lookupMetric (igmpReportANPStats s') uuid name
          = metricAfter (lookupMetric (igmpReportANPStats s) uuid name)
              (reportsOf AntreaNetworkPolicy uuid name reports))
    /\ (forall uuid name,
          lookupMetric (igmpReportACNPStats s') uuid name
          = metricAfter (lookupMetric (igmpReportACNPStats s) uuid name)
              (reportsOf AntreaClusterNetworkPolicy uuid name reports)).
Proof.
  induction reports as [|[item len] reports IH]; intros s Hall.
  - exists s. repeat split; reflexivity.
  - apply Forall_cons in Hall as [Htype Hall]. cbn [fst] in Htype.
    cbn [addReports]. unfold addToIGMPReportNPStatsMap.
    destruct (NPType item) as [t|] eqn:Ht; [|congruence].
    destruct t; cbn [bindGo].
    + destruct (IH s Hall) as (s' & Hrun & Hc & He & Hanp & Hacnp).
      exists s'. repeat split; auto.
      * intros uuid name. rewrite Hanp, reportsOf_cons, Ht.
        rewrite decide_False by (intros [? _]; congruence). reflexivity.
      * intros uuid name. rewrite Hacnp, reportsOf_cons, Ht.
        rewrite decide_False by (intros [? _]; congruence). reflexivity.
    + destruct (IH (withACNPStats
                      (updateRuleStats (igmpReportACNPStats s) (UUID item)
                         (Name item) len) s) Hall)
        as (s' & Hrun & Hc & He & Hanp & Hacnp).
      exists s'. repeat split; auto.
      * intros uuid name. rewrite Hanp, reportsOf_cons, Ht.
        rewrite decide_False by (intros [? _]; congruence). reflexivity.
      * intros uuid name. rewrite Hacnp, reportsOf_cons, Ht.
        cbn [withACNPStats igmpReportACNPStats].
        rewrite updateRuleStats_lookup.
        destruct (decide (UUID item = uuid /\ Name item = name)) as [[<- <-]|Hne].
        -- rewrite decide_True by auto. apply metricAfter_cons.
        -- rewrite decide_False by tauto. reflexivity.
    + destruct (IH (withANPStats
                      (updateRuleStats (igmpReportANPStats s) (UUID item)
                         (Name item) len) s) Hall)
        as (s' & Hrun & Hc & He & Hanp & Hacnp).
      exists s'. repeat split; auto.
      * intros uuid name. rewrite Hanp, reportsOf_cons, Ht.
        cbn [withANPStats igmpReportANPStats].
        rewrite updateRuleStats_lookup.
        destruct (decide (UUID item = uuid /\ Name item = name)) as [[<- <-]|Hne].
        -- rewrite decide_True by auto. apply metricAfter_cons.
        -- rewrite decide_False by tauto. reflexivity.
      * intros uuid name. rewrite Hacnp, reportsOf_cons, Ht.
        rewrite decide_False by (intros [? _]; congruence). reflexivity.
Qed.

(** X15. After [collectStats], the reports counted by
    [addToIGMPReportNPStatsMap] show for every rule the number of its
    reports and the sum of their lengths, both as [uint64], in the map of
    its policy type; a rule without reports has no entry, Kubernetes
    policies are counted nowhere, and [collectStats] hands out exactly
    these maps and leaves none of them behind. *)
Theorem igmp_report_stats_accumulate (s0 : IGMPSnooper)
    (reports : list (IGMPNPRuleInfo * Z)) :
  Forall (fun r => NPType (fst r) <> None) reports ->
  exists s1 anp acnp s2,
    addReports reports (snd (collectStats s0)) = Ret s1
    /\ collectStats s1 = ((anp, acnp), s2)
    /\ (forall uuid name,
          lookupMetric anp uuid name
          = metricOf (reportsOf AntreaNetworkPolicy uuid name reports))
    /\ (forall uuid name,
          lookupMetric acnp uuid name
          = metricOf (reportsOf AntreaClusterNetworkPolicy uuid name reports))
    /\ igmpReportANPStats s2 = ∅ /\ igmpReportACNPStats s2 = ∅
    /\ eventCh s2 = eventCh s0 /\ ofClient s2 = ofClient s0.
Proof.
  intros Hall.
  destruct (addReports_metrics reports (snd (collectStats s0)) Hall)
    as (s1 & Hrun & Hc & He & Hanp & Hacnp).
  exists s1, (igmpReportANPStats s1), (igmpReportACNPStats s1),
    (snd (collectStats s1)).
  repeat split; auto.
Qed.

End SnooperStats.

(** ** IGMP snooping: what a packet-in announces *)

Section NotifyFacts.
Import multicast.
Context `{IGMPDecoders}.

Lemma addToIGMPReportNPStatsMap_frame item packetLen s :
  NPType item <> None ->
  exists s',
    addToIGMPReportNPStatsMap item packetLen s = Ret s'
    /\ validator s' = validator s /\ ofClient s' = ofClient s
    /\ eventCh s' = eventCh s /\ ifaceStore s' = ifaceStore s.
Proof.
  intros Htype. unfold addToIGMPReportNPStatsMap.
  destruct (NPType item) as [[| |]|]; [| | |congruence];
    eexists; repeat split; reflexivity.
Qed.

Lemma validatePacketAndNotify_shape event igmpType data s :
  typedRules s ->
  exists s',
    validatePacketAndNotify event igmpType data s = Ret s'
    /\ validator s' = validator s /\ ofClient s' = ofClient s
    /\ ifaceStore s' = ifaceStore s
    /\ (eventCh s' = eventCh s
        \/ eventCh s' = eventCh s ++ [event]
        \/ eventCh s' = eventCh s ++ [withEType groupLeave event])
    /\ (validator s = None -> s' = withEventCh (eventCh s ++ [event]) s).
Proof.
  intros Htyped. unfold validatePacketAndNotify, validate.
  destruct (validator s) as [v|] eqn:Hv.
  - destruct (Type_ (iface event)).
    + destruct (v _ _ _ _) as [[ruleInfo|] [err|]] eqn:Hanswer; cbn [bindGo].
      * exists s. repeat split; auto; discriminate.
      * destruct (addToIGMPReportNPStatsMap_frame ruleInfo
                    (uint64 (protocol.Len data)) s)
          as (s1 & Hadd & Hv1 & Hc1 & He1 & Hi1).
        { eapply (Htyped v); [exact Hv|]. rewrite Hanswer. reflexivity. }
        rewrite Hadd. cbn [bindGo].
        destruct (RuleAction_ ruleInfo); cbn [bindGo];
          eexists; (split; [reflexivity|]);
          cbn [withEventCh validator ofClient ifaceStore eventCh];
          rewrite ?He1; repeat split; auto; try congruence; discriminate.
      * exists s. repeat split; auto; discriminate.
      * eexists. split; [reflexivity|].
        cbn [withEventCh validator ofClient ifaceStore eventCh].
        repeat split; auto; discriminate.
    + cbn [bindGo]. exists s. repeat split; auto; discriminate.
  - cbn [bindGo]. eexists. split; [reflexivity|].
    cbn [withEventCh validator ofClient ifaceStore eventCh].
    repeat split; auto.
Qed.

Lemma notifyGroupRecords_events now ifaceConfig igmpType data records : forall s,
  typedRules s ->
  exists s' kept evs,
    notifyGroupRecords now ifaceConfig igmpType data records s = Ret s'
    /\ validator s' = validator s /\ ofClient s' = ofClient s
    /\ ifaceStore s' = ifaceStore s
    /\ sublist kept records
    /\ eventCh s' = eventCh s ++ evs
    /\ Forall2 (fun gr e =>
                  group e = protocol.IGMPv3GroupRecord.MulticastAddress gr
                  /\ time e = now /\ iface e = ifaceConfig
                  /\ (leaveRecord gr = true -> eType e = groupLeave)) kept evs
    /\ (validator s = None ->
        s' = withEventCh
               (eventCh s
                ++ map (fun gr =>
                          {| group := protocol.IGMPv3GroupRecord.MulticastAddress gr;
                             eType := if leaveRecord gr then groupLeave else groupJoin;
                             time := now; iface := ifaceConfig |}) records) s).
Proof.
  induction records as [|gr records IH]; intros s Htyped.
  - exists s, [], []. cbn [notifyGroupRecords map].
    repeat split; auto; try constructor.
    + rewrite app_nil_r. reflexivity.
    + intros _. rewrite app_nil_r. destruct s; reflexivity.
  - cbn [notifyGroupRecords]. fold (leaveRecord gr).
    set (event := {| group := protocol.IGMPv3GroupRecord.MulticastAddress gr;
                     eType := if leaveRecord gr then groupLeave else groupJoin;
                     time := now; iface := ifaceConfig |}).
    destruct (validatePacketAndNotify_shape event igmpType data s Htyped)
      as (s1 & Hrun1 & Hv1 & Hc1 & Hi1 & Hev1 & Hnone1).
    rewrite Hrun1. cbn [bindGo].
    assert (Htyped1 : typedRules s1).
    { intros v a b c d r Hv. rewrite Hv1 in Hv. exact (Htyped v a b c d r Hv). }
    destruct (IH s1 Htyped1)
      as (s' & kept & evs & Hrun & Hv & Hc & Hi & Hsub & Hev & Hall & Hnone).
    assert (Hthen : validator s = None ->
                    s' = withEventCh
                           (eventCh s ++ map (fun gr =>
                              {| group := protocol.IGMPv3GroupRecord.MulticastAddress gr;
                                 eType := if leaveRecord gr then groupLeave else groupJoin;
                                 time := now; iface := ifaceConfig |}) (gr :: records)) s).
    { intros Hno. rewrite Hnone by congruence. rewrite (Hnone1 Hno).
      cbn [withEventCh eventCh ofClient ifaceStore validator queryInterval
           igmpReportANPStats igmpReportACNPStats map].
      rewrite <- app_assoc. reflexivity. }
    destruct Hev1 as [Hev1|[Hev1|Hev1]].
    + exists s', kept, evs. rewrite Hev1 in Hev.
      repeat split; auto; try congruence.
      apply sublist_cons. exact Hsub.
    + exists s', (gr :: kept), (event :: evs). rewrite Hev1, <- app_assoc in Hev.
      repeat split; auto; try congruence.
      * apply sublist_skip. exact Hsub.
      * constructor; [|exact Hall].
        subst event. cbn [group time iface eType]. repeat split; auto.
        intros ->. reflexivity.
    + exists s', (gr :: kept), (withEType groupLeave event :: evs).
      rewrite Hev1, <- app_assoc in Hev.
      repeat split; auto; try congruence.
      apply sublist_skip. exact Hsub.
Qed.

(** X16. For an IGMPv3 membership report [processPacketIn] returns no error,
    provided every rule of the validator has a policy type, and the events
    it sends follow the group records: in the order of the records, at most
    one per record, with the record's group, the time of arrival and the
    source interface, and never a join for a record that is a leave; without
    a validator there is exactly one event per record. *)
Theorem v3_report_events_follow_records (now : Z) (pktIn : PacketIn)
    (s : IGMPSnooper) (ifaceConfig : InterfaceConfig)
    (msg : protocol.IGMPv3MembershipReport.t) :
  typedRules s ->
  parseSrcInterface pktIn s = inl ifaceConfig ->
  parseIGMPPacket (packetData pktIn) = Ret (inl (protocol.V3MembershipReport msg)) ->
  protocol.IGMPv3MembershipReport.Type_ msg = protocol.IGMPv3Report ->
  exists s' kept evs,
    processPacketIn now pktIn s = Ret (None, s')
    /\ sublist kept (protocol.IGMPv3MembershipReport.GroupRecords msg)
    /\ eventCh s' = eventCh s ++ evs
    /\ Forall2 (fun gr e =>
                  group e = protocol.IGMPv3GroupRecord.MulticastAddress gr
                  /\ time e = now /\ iface e = ifaceConfig
                  /\ (leaveRecord gr = true -> eType e = groupLeave)) kept evs
    /\ (validator s = None ->
        s' = withEventCh
               (eventCh s
                ++ map (fun gr =>
                          {| group := protocol.IGMPv3GroupRecord.MulticastAddress gr;
                             eType := if leaveRecord gr then groupLeave else groupJoin;
                             time := now; iface := ifaceConfig |})
                     (protocol.IGMPv3MembershipReport.GroupRecords msg)) s).
Proof.
  intros Htyped Hsrc Hparse Htype.
  destruct (notifyGroupRecords_events now ifaceConfig protocol.IGMPv3Report
              (packetData pktIn) (protocol.IGMPv3MembershipReport.GroupRecords msg)
              s Htyped)
    as (s' & kept & evs & Hrun & _ & _ & _ & Hsub & Hev & Hall & Hnone).
  exists s', kept, evs.
  unfold processPacketIn. rewrite Hsrc, Hparse. cbn [bindGo protocol.GetMessageType].
  rewrite Htype. cbn [Z.eqb protocol.IGMPv3Report protocol.IGMPv1Report
                      protocol.IGMPv2Report Pos.eqb orb].
  rewrite Hrun. cbn [bindGo]. repeat split; auto.
Qed.

(** X17. An IGMPv1 or v2 report from a container interface for which the
    validator names a rule of an Antrea network policy is counted for that
    rule, one packet and the length of the frame, and then announced: as a
    leave when the rule's action is drop, as a join otherwise. *)
Theorem v2_report_follows_rule_action (now : Z) (pktIn : PacketIn)
    (s : IGMPSnooper) (ifaceConfig : InterfaceConfig) (m : protocol.IGMPv1or2.t)
    (v : Validator) (ruleInfo : IGMPNPRuleInfo) :
  parseSrcInterface pktIn s = inl ifaceConfig ->
  Type_ ifaceConfig = ContainerInterface ->
  parseIGMPPacket (packetData pktIn) = Ret (inl (protocol.V1or2 m)) ->
  protocol.IGMPv1or2.Type_ m = protocol.IGMPv1Report
  \/ protocol.IGMPv1or2.Type_ m = protocol.IGMPv2Report ->
  validator s = Some v ->
  v (PodName ifaceConfig) (PodNamespace ifaceConfig)
    (protocol.IGMPv1or2.GroupAddress m) (protocol.IGMPv1or2.Type_ m)
  = (Some ruleInfo, None) ->
  NPType ruleInfo = Some AntreaNetworkPolicy ->
  exists s',
    processPacketIn now pktIn s = Ret (None, s')
    /\ eventCh s'
       = eventCh s
         ++ [{| group := protocol.IGMPv1or2.GroupAddress m;
                eType := match RuleAction_ ruleInfo with
                         | RuleActionDrop => groupLeave
                         | _ => groupJoin
                         end;
                time := now; iface := ifaceConfig |}]
    /\ lookupMetric (igmpReportANPStats s') (UUID ruleInfo) (Name ruleInfo)
       = metricAfter
           (lookupMetric (igmpReportANPStats s) (UUID ruleInfo) (Name ruleInfo))
           [uint64 (protocol.Len (packetData pktIn))]
    /\ igmpReportACNPStats s' = igmpReportACNPStats s.
Proof.
  intros Hsrc Hcontainer Hparse Htype Hv Hanswer Hnp.
  unfold processPacketIn. rewrite Hsrc, Hparse. cbn [bindGo protocol.GetMessageType].
  assert (Hreport : (protocol.IGMPv1or2.Type_ m =? protocol.IGMPv1Report)
                    || (protocol.IGMPv1or2.Type_ m =? protocol.IGMPv2Report) = true).
  { destruct Htype as [-> | ->]; reflexivity. }
  rewrite Hreport.
  unfold validatePacketAndNotify, validate.
  rewrite Hv. cbn [iface group]. rewrite Hcontainer, Hanswer.
  unfold addToIGMPReportNPStatsMap. rewrite Hnp. cbn [bindGo].
  destruct (RuleAction_ ruleInfo); cbn [bindGo];
    eexists; (split; [reflexivity|]);
    cbn [withEventCh withANPStats withEType eventCh igmpReportANPStats
         igmpReportACNPStats group time iface eType];
    (repeat split; auto);
    rewrite updateRuleStats_lookup, decide_True by auto; reflexivity.
Qed.

(** X18. With a validator in place, an IGMPv1 or v2 report that comes from an
    interface other than a container's, or for which the validator returns
    an error, is dropped without a trace: [processPacketIn] returns no
    error and the snooper is as before, no event sent and nothing counted. *)
Theorem report_without_verdict_is_discarded (now : Z) (pktIn : PacketIn)
    (s : IGMPSnooper) (ifaceConfig : InterfaceConfig) (m : protocol.IGMPv1or2.t)
    (v : Validator) :
  parseSrcInterface pktIn s = inl ifaceConfig ->
  parseIGMPPacket (packetData pktIn) = Ret (inl (protocol.V1or2 m)) ->
  protocol.IGMPv1or2.Type_ m = protocol.IGMPv1Report
  \/ protocol.IGMPv1or2.Type_ m = protocol.IGMPv2Report ->
  validator s = Some v ->
  Type_ ifaceConfig <> ContainerInterface
  \/ snd (v (PodName ifaceConfig) (PodNamespace ifaceConfig)
            (protocol.IGMPv1or2.GroupAddress m) (protocol.IGMPv1or2.Type_ m))
     <> None ->
  processPacketIn now pktIn s = Ret (None, s).
Proof.
  intros Hsrc Hparse Htype Hv Hwhy.
  unfold processPacketIn. rewrite Hsrc, Hparse. cbn [bindGo protocol.GetMessageType].
  assert (Hreport : (protocol.IGMPv1or2.Type_ m =? protocol.IGMPv1Report)
                    || (protocol.IGMPv1or2.Type_ m =? protocol.IGMPv2Report) = true).
  { destruct Htype as [-> | ->]; reflexivity. }
  rewrite Hreport.
  unfold validatePacketAndNotify, validate.
  rewrite Hv. cbn [iface group].
  destruct (Type_ ifaceConfig) eqn:Hkind; [|reflexivity].
  destruct Hwhy as [Hwhy|Hwhy]; [congruence|].
  destruct (v _ _ _ _) as [[r|] [err|]]; cbn [snd] in Hwhy;
    try congruence; reflexivity.
Qed.

(** X19. An IGMPv2 leave message is announced as a leave of its group
    whatever the validator is: no rule is looked up and nothing is counted. *)
Theorem leave_message_is_always_notified (now : Z) (pktIn : PacketIn)
    (s : IGMPSnooper) (ifaceConfig : InterfaceConfig) (m : protocol.IGMPv1or2.t) :
  parseSrcInterface pktIn s = inl ifaceConfig ->
  parseIGMPPacket (packetData pktIn) = Ret (inl (protocol.V1or2 m)) ->
  protocol.IGMPv1or2.Type_ m = protocol.IGMPv2LeaveGroup ->
  processPacketIn now pktIn s
  = Ret (None,
         withEventCh
           (eventCh s ++ [{| group := protocol.IGMPv1or2.GroupAddress m;
                             eType := groupLeave; time := now;
                             iface := ifaceConfig |}]) s).
Proof.
  intros Hsrc Hparse Htype.
  unfold processPacketIn. rewrite Hsrc, Hparse. cbn [bindGo protocol.GetMessageType].
  rewrite Htype. reflexivity.
Qed.

(** X20. When [processPacketIn] returns an error, it is the error of looking
    up the source interface or of parsing the packet, and the snooper is as
    before: no event was sent and nothing was counted. *)
Theorem processPacketIn_error_changes_nothing (now : Z) (pktIn : PacketIn)
    (s s' : IGMPSnooper) (e : Error) :
  processPacketIn now pktIn s = Ret (Some e, s') ->
  s' = s
  /\ (parseSrcInterface pktIn s = inr e
      \/ parseIGMPPacket (packetData pktIn) = Ret (inr e)).
Proof.
  unfold processPacketIn. intros Hrun.
  destruct (parseSrcInterface pktIn s) as [ifaceConfig|err].
  - destruct (parseIGMPPacket (packetData pktIn)) as [[igmp|err]|]; cbn [bindGo] in Hrun.
    + exfalso.
      destruct (_ || _) in Hrun.
      { destruct igmp; try discriminate.
        destruct (validatePacketAndNotify _ _ _ _); discriminate. }
      destruct (_ =? protocol.IGMPv3Report) in Hrun.
      { destruct igmp; try discriminate.
        destruct (notifyGroupRecords _ _ _ _ _ _); discriminate. }
      destruct (_ =? protocol.IGMPv2LeaveGroup) in Hrun.
      { destruct igmp; discriminate. }
      discriminate.
    + injection Hrun as -> ->. auto.
    + discriminate.
  - injection Hrun as -> ->. auto.
Qed.

End NotifyFacts.

(** ** IGMP snooping: parsing *)

Section ParseFacts.
Import multicast.
Context `{IGMPDecoders}.

(** X21. [parseIGMPPacket] panics exactly on an IPv4 frame of protocol 2
    whose payload is empty while the header lengths do not give an IGMP
    length of 8: the first payload byte is read without a length check. *)
Theorem parseIGMPPacket_panics_iff (pkt : protocol.Ethernet) :
  panics (parseIGMPPacket pkt)
  <-> protocol.Ethertype pkt = protocol.IPv4_MSG
      /\ exists ipPacket,
           protocol.EthernetData pkt = protocol.PayloadIPv4 ipPacket
           /\ protocol.Protocol ipPacket = IGMPProtocolNumber
           /\ uint16 (protocol.Length ipPacket
                      - uint16 (uint8 (4 * protocol.IHL ipPacket))) <> 8
           /\ protocol.Data ipPacket = [].
Proof.
  unfold parseIGMPPacket, panics. split.
  - intros [msg Hp].
    destruct (protocol.Ethertype pkt =? protocol.IPv4_MSG) eqn:Hether;
      cbn [negb] in Hp; [|discriminate].
    split; [lia|].
    destruct (protocol.EthernetData pkt) as [ipPacket|]; [|discriminate].
    exists ipPacket.
    destruct (protocol.Protocol ipPacket =? IGMPProtocolNumber) eqn:Hproto;
      cbn [negb] in Hp; [|discriminate].
    destruct (uint16 _ =? 8) eqn:Hlen in Hp.
    + destruct (UnmarshalIGMPv1or2 _); discriminate.
    + destruct (protocol.Data ipPacket) as [|first rest] eqn:Hdata.
      * repeat split; auto; lia.
      * destruct (first =? protocol.IGMPQuery).
        -- destruct (UnmarshalIGMPv3Query _); discriminate.
        -- destruct (first =? protocol.IGMPv3Report); [|discriminate].
           destruct (UnmarshalIGMPv3MembershipReport _); discriminate.
  - intros (Hether & ipPacket & Hdata & Hproto & Hlen & Hempty).
    rewrite Hdata, Hempty.
    apply Z.eqb_eq in Hether, Hproto. rewrite Hether, Hproto. cbn [negb].
    apply Z.eqb_neq in Hlen. rewrite Hlen.
    eexists. reflexivity.
Qed.

(** X22. A message returned by [parseIGMPPacket] comes from an IPv4 frame of
    protocol 2 and is what the decoder of its kind made of the payload; the
    kind is chosen by the IGMP length of the header alone when that is 8
    (IGMPv1 or v2, whatever the type byte), and otherwise by the first
    payload byte (an IGMPv3 query or report). *)
Theorem parseIGMPPacket_message_kind (pkt : protocol.Ethernet)
    (igmp : protocol.IGMPMessage) :
  parseIGMPPacket pkt = Ret (inl igmp) ->
  protocol.Ethertype pkt = protocol.IPv4_MSG
  /\ exists ipPacket,
       protocol.EthernetData pkt = protocol.PayloadIPv4 ipPacket
       /\ protocol.Protocol ipPacket = IGMPProtocolNumber
       /\ let igmpLength :=
            uint16 (protocol.Length ipPacket
                    - uint16 (uint8 (4 * protocol.IHL ipPacket))) in
          match igmp with
          | protocol.V1or2 m =>
              igmpLength = 8
              /\ UnmarshalIGMPv1or2 (protocol.Data ipPacket) = inl m
          | protocol.V3Query m =>
              igmpLength <> 8
              /\ head (protocol.Data ipPacket) = Some protocol.IGMPQuery
              /\ UnmarshalIGMPv3Query (protocol.Data ipPacket) = inl m
          | protocol.V3MembershipReport m =>
              igmpLength <> 8
              /\ head (protocol.Data ipPacket) = Some protocol.IGMPv3Report
              /\ UnmarshalIGMPv3MembershipReport (protocol.Data ipPacket) = inl m
          end.
Proof.
  unfold parseIGMPPacket. intros Hp.
  destruct (protocol.Ethertype pkt =? protocol.IPv4_MSG) eqn:Hether;
    cbn [negb] in Hp; [|discriminate].
  split; [lia|].
  destruct (protocol.EthernetData pkt) as [ipPacket|]; [|discriminate].
  exists ipPacket.
  destruct (protocol.Protocol ipPacket =? IGMPProtocolNumber) eqn:Hproto;
    cbn [negb] in Hp; [|discriminate].
  split; [reflexivity|]. split; [lia|]. cbv zeta.
  destruct (uint16 _ =? 8) eqn:Hlen in Hp.
  - destruct (UnmarshalIGMPv1or2 _) as [m|] eqn:Hm; [|discriminate].
    injection Hp as <-. split; [lia|auto].
  - destruct (protocol.Data ipPacket) as [|first rest] eqn:Hdata; [discriminate|].
    destruct (first =? protocol.IGMPQuery) eqn:Hq.
    + destruct (UnmarshalIGMPv3Query _) as [m|] eqn:Hm; [|discriminate].
      injection Hp as <-. split; [lia|]. split; [|auto].
      cbn. f_equal. lia.
    + destruct (first =? protocol.IGMPv3Report) eqn:Hr; [|discriminate].
      destruct (UnmarshalIGMPv3MembershipReport _) as [m|] eqn:Hm; [|discriminate].
      injection Hp as <-. split; [lia|]. split; [|auto].
      cbn. f_equal. lia.
Qed.

End ParseFacts.

(** ** IGMP snooping: queries *)

Section QueryFacts.
Import multicast.
Variable secondsAsUint8 : GoTime.Duration -> Z.

Lemma generateIGMPQueryPacket_supported group version interval :
  supported version ->
  exists igmp,
    generateIGMPQueryPacket secondsAsUint8 group version interval = inl igmp
    /\ protocol.GetMessageType igmp = protocol.IGMPQuery.
Proof.
  intros [-> | [-> | ->]]; eexists; split; reflexivity.
Qed.

Lemma generateIGMPQueryPacket_unsupported group version interval :
  ~ supported version ->
  generateIGMPQueryPacket secondsAsUint8 group version interval
  = inr (Errorf "unsupported IGMP version").
Proof.
  intros Hno. unfold generateIGMPQueryPacket, supported in *.
  destruct (version =? 1) eqn:H1; [lia|].
  destruct (version =? 2) eqn:H2; [lia|].
  destruct (version =? 3) eqn:H3; [lia|].
  reflexivity.
Qed.

(** The requests [queryIGMP] makes for versions that are all supported,
    while the client accepts them. *)
Lemma queryIGMP_supported group versions : forall s k,
  Forall supported versions ->
  (forall h p, (length h < length (requested (ofClient s)) + k)%nat ->
               sendAnswer (ofClient s) h p = None) ->
  (length versions <= k)%nat ->
  exists s' msgs,
    queryIGMP secondsAsUint8 group versions s = (None, s')
    /\ Forall2 (fun version igmp =>
                  generateIGMPQueryPacket secondsAsUint8 group version (queryInterval s)
                  = inl igmp) versions msgs
    /\ requested (ofClient s')
       = requested (ofClient s)
         ++ map (fun igmp => (mkPacketOut igmpQueryDstMac McastAllHosts 0 igmp, None))
              msgs
    /\ sendAnswer (ofClient s') = sendAnswer (ofClient s)
    /\ queryInterval s' = queryInterval s
    /\ eventCh s' = eventCh s
    /\ igmpReportANPStats s' = igmpReportANPStats s
    /\ igmpReportACNPStats s' = igmpReportACNPStats s.
Proof.
  induction versions as [|version versions IH]; intros s k Hall Hclient Hk.
  - exists s, []. repeat split; auto. rewrite app_nil_r. reflexivity.
  - apply Forall_cons in Hall as [Hv Hall].
    destruct (generateIGMPQueryPacket_supported group version (queryInterval s) Hv)
      as (igmp & Hgen & _).
    cbn [queryIGMP]. rewrite Hgen.
    unfold SendIGMPQueryPacketOut.
    cbn [length] in Hk.
    rewrite (Hclient (requested (ofClient s))) by lia.
    destruct (IH (withOfClient
                    {| sendAnswer := sendAnswer (ofClient s);
                       requested := requested (ofClient s)
                         ++ [(mkPacketOut igmpQueryDstMac McastAllHosts 0 igmp, None)] |}
                    s) (Nat.pred k) Hall)
      as (s' & msgs & Hrun & Hgens & Hreq & Hans & Hint & Hev & Ha & Hc).
    + intros h p Hlen. cbn [withOfClient ofClient sendAnswer requested] in *.
      rewrite length_app in Hlen. cbn [length] in Hlen.
      apply Hclient. lia.
    + lia.
    + exists s', (igmp :: msgs).
      cbn [withOfClient ofClient sendAnswer requested queryInterval eventCh
           igmpReportANPStats igmpReportACNPStats] in *.
      repeat split; auto.
      rewrite Hreq, <- app_assoc. reflexivity.
Qed.

(** X23. When every requested version is 1, 2 or 3 and the OpenFlow client
    accepts every packet, [queryIGMP] returns no error after asking the
    client to send exactly one query per version, in the order given, each
    an IGMP query for the group, to 224.0.0.1 with the query MAC address
    and output port 0; nothing else of the snooper changes. *)
Theorem queryIGMP_sends_each_version (s : IGMPSnooper) (group : list Z)
    (versions : list Z) :
  Forall supported versions ->
  (forall h p, sendAnswer (ofClient s) h p = None) ->
  exists s' msgs,
    queryIGMP secondsAsUint8 group versions s = (None, s')
    /\ Forall2 (fun version igmp =>
                  generateIGMPQueryPacket secondsAsUint8 group version (queryInterval s)
                  = inl igmp
                  /\ protocol.GetMessageType igmp = protocol.IGMPQuery) versions msgs
    /\ requested (ofClient s')
       = requested (ofClient s)
         ++ map (fun igmp => (mkPacketOut igmpQueryDstMac McastAllHosts 0 igmp, None))
              msgs
    /\ eventCh s' = eventCh s
    /\ igmpReportANPStats s' = igmpReportANPStats s
    /\ igmpReportACNPStats s' = igmpReportACNPStats s.
Proof.
  intros Hall Hclient.
  destruct (queryIGMP_supported group versions s (length versions) Hall)
    as (s' & msgs & Hrun & Hgens & Hreq & _ & _ & Hev & Ha & Hc); auto.
  exists s', msgs. repeat split; auto.
  clear - Hgens Hall. induction Hgens as [|version igmp versions msgs Hgen _ IH].
  - constructor.
  - apply Forall_cons in Hall as [Hv Hall]. constructor; auto.
    split; [exact Hgen|].
    destruct (generateIGMPQueryPacket_supported group version (queryInterval s) Hv)
      as (igmp' & Hgen' & Htype).
    congruence.
Qed.

(** X24. [queryIGMP] stops at the first version that is not 1, 2 or 3: the
    queries of the versions before it have been sent, it returns the
    "unsupported IGMP version" error, and no query of a later version is
    sent. *)
Theorem queryIGMP_stops_at_unsupported_version (s : IGMPSnooper) (group : list Z)
    (before : list Z) (version : Z) (later : list Z) :
  Forall supported before ->
  ~ supported version ->
  (forall h p, sendAnswer (ofClient s) h p = None) ->
  exists s',
    queryIGMP secondsAsUint8 group (before ++ version :: later) s
    = (Some (Errorf "unsupported IGMP version"), s')
    /\ length (requested (ofClient s'))
       = (length (requested (ofClient s)) + length before)%nat
    /\ eventCh s' = eventCh s.
Proof.
  revert s. induction before as [|v before IH]; intros s Hall Hno Hclient.
  - exists s. cbn [app queryIGMP].
    rewrite generateIGMPQueryPacket_unsupported by exact Hno.
    repeat split; auto.
  - apply Forall_cons in Hall as [Hv Hall].
    destruct (generateIGMPQueryPacket_supported group v (queryInterval s) Hv)
      as (igmp & Hgen & _).
    cbn [app queryIGMP]. rewrite Hgen.
    unfold SendIGMPQueryPacketOut. rewrite Hclient.
    destruct (IH (withOfClient
                    {| sendAnswer := sendAnswer (ofClient s);
                       requested := requested (ofClient s)
                         ++ [(mkPacketOut igmpQueryDstMac McastAllHosts 0 igmp, None)] |}
                    s) Hall Hno)
      as (s' & Hrun & Hlen & Hev).
    + intros h p. apply Hclient.
    + exists s'. cbn [withOfClient ofClient requested eventCh] in *.
      repeat split; auto.
      rewrite Hlen, length_app. cbn [length]. lia.
Qed.

(** X25. When the client refuses a query, [queryIGMP] returns the client's
    error at once: the refused request is the last one it makes. *)
Theorem queryIGMP_stops_at_refused_send (s : IGMPSnooper) (group : list Z)
    (before : list Z) (version : Z) (later : list Z) (e : Error) :
  Forall supported before ->
  supported version ->
  (forall h p, (length h < length (requested (ofClient s)) + length before)%nat ->
               sendAnswer (ofClient s) h p = None) ->
  (forall h p, length h = (length (requested (ofClient s)) + length before)%nat ->
               sendAnswer (ofClient s) h p = Some e) ->
  exists s',
    queryIGMP secondsAsUint8 group (before ++ version :: later) s = (Some e, s')
    /\ length (requested (ofClient s'))
       = (length (requested (ofClient s)) + length before + 1)%nat
    /\ (exists p, last (requested (ofClient s')) = Some (p, Some e))
    /\ eventCh s' = eventCh s.
Proof.
  revert s. induction before as [|v before IH]; intros s Hall Hv Hfirst Hthen.
  - destruct (generateIGMPQueryPacket_supported group version (queryInterval s) Hv)
      as (igmp & Hgen & _).
    cbn [app queryIGMP]. rewrite Hgen.
    unfold SendIGMPQueryPacketOut.
    rewrite (Hthen (requested (ofClient s))) by (cbn [length]; lia).
    eexists. split; [reflexivity|].
    cbn [withOfClient ofClient requested eventCh].
    repeat split.
    + rewrite length_app. cbn [length]. lia.
    + eexists. rewrite last_snoc. reflexivity.
  - apply Forall_cons in Hall as [Hv0 Hall].
    destruct (generateIGMPQueryPacket_supported group v (queryInterval s) Hv0)
      as (igmp & Hgen & _).
    cbn [app queryIGMP]. rewrite Hgen.
    unfold SendIGMPQueryPacketOut.
    rewrite (Hfirst (requested (ofClient s))) by (cbn [length]; lia).
    destruct (IH (withOfClient
                    {| sendAnswer := sendAnswer (ofClient s);
                       requested := requested (ofClient s)
                         ++ [(mkPacketOut igmpQueryDstMac McastAllHosts 0 igmp, None)] |}
                    s) Hall Hv)
      as (s' & Hrun & Hlen & Hlast & Hev).
    + intros h p Hh. cbn [withOfClient ofClient requested sendAnswer length] in *.
      rewrite length_app in Hh. cbn [length] in Hh. apply Hfirst. lia.
    + intros h p Hh. cbn [withOfClient ofClient requested sendAnswer length] in *.
      rewrite length_app in Hh. cbn [length] in Hh. apply Hthen. lia.
    + exists s'. cbn [withOfClient ofClient requested eventCh length] in *.
      repeat split; auto.
      rewrite Hlen, length_app. cbn [length]. lia.
Qed.

End QueryFacts.

Lemma igmp_report_stats_accumulate_witness :
  exists s1 anp acnp s2,
    multicast.addReports exampleReports (snd (multicast.collectStats validatingSnooper))
    = Ret s1
    /\ multicast.collectStats s1 = ((anp, acnp), s2)
    /\ (forall uuid name,
          multicast.lookupMetric anp uuid name
          = multicast.metricOf
              (multicast.reportsOf multicast.AntreaNetworkPolicy uuid name
                 exampleReports))
    /\ (forall uuid name,
          multicast.lookupMetric acnp uuid name
          = multicast.metricOf
              (multicast.reportsOf multicast.AntreaClusterNetworkPolicy uuid name
                 exampleReports))
    /\ multicast.igmpReportANPStats s2 = ∅ /\ multicast.igmpReportACNPStats s2 = ∅
    /\ multicast.eventCh s2 = multicast.eventCh validatingSnooper
    /\ multicast.ofClient s2 = multicast.ofClient validatingSnooper.
Proof.
  apply (igmp_report_stats_accumulate validatingSnooper exampleReports).
  repeat constructor; discriminate.
Defined.

Lemma validatingSnooper_typedRules : multicast.typedRules validatingSnooper.
Proof.
  intros v podName podNamespace group igmpType ruleInfo Hv Hrule.
  injection Hv as <-. unfold snoopValidator in Hrule.
  repeat case_decide; cbn [fst] in Hrule; try discriminate.
  injection Hrule as <-. discriminate.
Defined.

Lemma v3_report_events_follow_records_witness :
  exists s' kept evs,
    @multicast.processPacketIn snoopDecoders 1700000000
      (multicast.mkPacketIn (Some 3) v3ReportFrame) validatingSnooper
    = Ret (None, s')
    /\ sublist kept (decodeGroupRecords [4; 0; 0; 0; 225; 1; 2; 3;
                                         3; 0; 0; 0; 225; 1; 2; 4])
    /\ multicast.eventCh s' = multicast.eventCh validatingSnooper ++ evs
    /\ Forall2 (fun gr e =>
                  multicast.group e = protocol.IGMPv3GroupRecord.MulticastAddress gr
                  /\ multicast.time e = 1700000000
                  /\ multicast.iface e = podInterface
                  /\ (multicast.leaveRecord gr = true ->
                      multicast.eType e = multicast.groupLeave)) kept evs
    /\ (multicast.validator validatingSnooper = None ->
        s' = multicast.withEventCh
               (multicast.eventCh validatingSnooper
                ++ map (fun gr =>
                          {| multicast.group :=
                               protocol.IGMPv3GroupRecord.MulticastAddress gr;
                             multicast.eType :=
                               if multicast.leaveRecord gr
                               then multicast.groupLeave else multicast.groupJoin;
                             multicast.time := 1700000000;
                             multicast.iface := podInterface |})
                     (decodeGroupRecords [4; 0; 0; 0; 225; 1; 2; 3;
                                          3; 0; 0; 0; 225; 1; 2; 4]))
               validatingSnooper).
Proof.
  apply (@v3_report_events_follow_records snoopDecoders 1700000000
           (multicast.mkPacketIn (Some 3) v3ReportFrame) validatingSnooper
           podInterface
           {| protocol.IGMPv3MembershipReport.Type_ := 34;
              protocol.IGMPv3MembershipReport.GroupRecords :=
                decodeGroupRecords [4; 0; 0; 0; 225; 1; 2; 3;
                                    3; 0; 0; 0; 225; 1; 2; 4] |}).
  - exact validatingSnooper_typedRules.
  - reflexivity.
  - reflexivity.
  - reflexivity.
Defined.

Lemma v2_report_follows_rule_action_witness :
  exists s',
    @multicast.processPacketIn snoopDecoders 1700000000
      (multicast.mkPacketIn (Some 3) v2ReportFrame) validatingSnooper
    = Ret (None, s')
    /\ multicast.eventCh s'
       = [] ++ [{| multicast.group := [225; 1; 2; 3];
                   multicast.eType := multicast.groupLeave;
                   multicast.time := 1700000000;
                   multicast.iface := podInterface |}]
    /\ multicast.lookupMetric (multicast.igmpReportANPStats s') "uid-1" "rule-1"
       = multicast.metricAfter None [multicast.uint64 42]
    /\ multicast.igmpReportACNPStats s' = ∅.
Proof.
  apply (@v2_report_follows_rule_action snoopDecoders 1700000000
           (multicast.mkPacketIn (Some 3) v2ReportFrame) validatingSnooper
           podInterface
           {| protocol.IGMPv1or2.Type_ := 22;
              protocol.IGMPv1or2.MaxResponseTime := 0;
              protocol.IGMPv1or2.Checksum := 0;
              protocol.IGMPv1or2.GroupAddress := [225; 1; 2; 3] |}
           snoopValidator dropRule).
  - reflexivity.
  - reflexivity.
  - reflexivity.
  - right. reflexivity.
  - reflexivity.
  - reflexivity.
  - reflexivity.
Defined.

Lemma report_without_verdict_is_discarded_witness :
  @multicast.processPacketIn snoopDecoders 1700000000
    (multicast.mkPacketIn (Some 1) v2ReportFrame) validatingSnooper
  = Ret (None, validatingSnooper).
Proof.
  apply (@report_without_verdict_is_discarded snoopDecoders 1700000000
           (multicast.mkPacketIn (Some 1) v2ReportFrame) validatingSnooper
           gatewayInterface
           {| protocol.IGMPv1or2.Type_ := 22;
              protocol.IGMPv1or2.MaxResponseTime := 0;
              protocol.IGMPv1or2.Checksum := 0;
              protocol.IGMPv1or2.GroupAddress := [225; 1; 2; 3] |}
           snoopValidator).
  - reflexivity.
  - reflexivity.
  - right. reflexivity.
  - reflexivity.
  - left. discriminate.
Defined.

Lemma leave_message_is_always_notified_witness :
  @multicast.processPacketIn snoopDecoders 1700000000
    (multicast.mkPacketIn (Some 3) leaveFrame) validatingSnooper
  = Ret (None,
         multicast.withEventCh
           ([] ++ [{| multicast.group := [225; 1; 2; 3];
                      multicast.eType := multicast.groupLeave;
                      multicast.time := 1700000000;
                      multicast.iface := podInterface |}]) validatingSnooper).
Proof.
  apply (@leave_message_is_always_notified snoopDecoders 1700000000
           (multicast.mkPacketIn (Some 3) leaveFrame) validatingSnooper
           podInterface
           {| protocol.IGMPv1or2.Type_ := 23;
              protocol.IGMPv1or2.MaxResponseTime := 0;
              protocol.IGMPv1or2.Checksum := 0;
              protocol.IGMPv1or2.GroupAddress := [225; 1; 2; 3] |}).
  - reflexivity.
  - reflexivity.
  - reflexivity.
Defined.

Lemma processPacketIn_error_changes_nothing_witness :
  validatingSnooper = validatingSnooper
  /\ (multicast.parseSrcInterface (multicast.mkPacketIn (Some 7) v2ReportFrame)
        validatingSnooper
      = inr (Errorf "target Pod not found")
      \/ @multicast.parseIGMPPacket snoopDecoders v2ReportFrame
         = Ret (inr (Errorf "target Pod not found"))).
Proof.
  apply (@processPacketIn_error_changes_nothing snoopDecoders 1700000000
           (multicast.mkPacketIn (Some 7) v2ReportFrame) validatingSnooper
           validatingSnooper (Errorf "target Pod not found")).
  reflexivity.
Defined.

Lemma parseIGMPPacket_panics_iff_witness :
  panics (@multicast.parseIGMPPacket snoopDecoders (igmpFrame [])).
Proof.
  apply (proj2 (@parseIGMPPacket_panics_iff snoopDecoders (igmpFrame []))).
  split; [reflexivity|].
  eexists. split; [reflexivity|].
  split; [reflexivity|]. split; [vm_compute; discriminate|reflexivity].
Defined.

Lemma parseIGMPPacket_message_kind_witness :
  protocol.Ethertype v3ReportFrame = protocol.IPv4_MSG
  /\ exists ipPacket,
       protocol.EthernetData v3ReportFrame = protocol.PayloadIPv4 ipPacket
       /\ protocol.Protocol ipPacket = multicast.IGMPProtocolNumber
       /\ multicast.uint16
            (protocol.Length ipPacket
             - multicast.uint16 (multicast.uint8 (4 * protocol.IHL ipPacket))) <> 8
       /\ head (protocol.Data ipPacket) = Some protocol.IGMPv3Report
       /\ @UnmarshalIGMPv3MembershipReport snoopDecoders (protocol.Data ipPacket)
          = inl {| protocol.IGMPv3MembershipReport.Type_ := 34;
                   protocol.IGMPv3MembershipReport.GroupRecords :=
                     decodeGroupRecords [4; 0; 0; 0; 225; 1; 2; 3;
                                         3; 0; 0; 0; 225; 1; 2; 4] |}.
Proof.
  apply (@parseIGMPPacket_message_kind snoopDecoders v3ReportFrame
           (protocol.V3MembershipReport
              {| protocol.IGMPv3MembershipReport.Type_ := 34;
                 protocol.IGMPv3MembershipReport.GroupRecords :=
                   decodeGroupRecords [4; 0; 0; 0; 225; 1; 2; 3;
                                       3; 0; 0; 0; 225; 1; 2; 4] |})).
  reflexivity.
Defined.

Lemma queryIGMP_sends_each_version_witness :
  exists s' msgs,
    multicast.queryIGMP wholeSeconds [225; 1; 2; 3] [1; 2; 3] validatingSnooper
    = (None, s')
    /\ Forall2 (fun version igmp =>
                  multicast.generateIGMPQueryPacket wholeSeconds [225; 1; 2; 3] version
                    (multicast.queryInterval validatingSnooper) = inl igmp
                  /\ protocol.GetMessageType igmp = protocol.IGMPQuery)
         [1; 2; 3] msgs
    /\ multicast.requested (multicast.ofClient s')
       = multicast.requested (multicast.ofClient validatingSnooper)
         ++ map (fun igmp =>
                   (multicast.mkPacketOut multicast.igmpQueryDstMac
                      multicast.McastAllHosts 0 igmp, None)) msgs
    /\ multicast.eventCh s' = multicast.eventCh validatingSnooper
    /\ multicast.igmpReportANPStats s' = multicast.igmpReportANPStats validatingSnooper
    /\ multicast.igmpReportACNPStats s'
       = multicast.igmpReportACNPStats validatingSnooper.
Proof.
  apply (queryIGMP_sends_each_version wholeSeconds validatingSnooper
           [225; 1; 2; 3] [1; 2; 3]).
  - repeat constructor; unfold multicast.supported; lia.
  - intros h p. reflexivity.
Defined.

Lemma queryIGMP_stops_at_unsupported_version_witness :
  exists s',
    multicast.queryIGMP wholeSeconds [225; 1; 2; 3] ([2; 3] ++ 4 :: [1])
      validatingSnooper
    = (Some (Errorf "unsupported IGMP version"), s')
    /\ length (multicast.requested (multicast.ofClient s'))
       = (length (multicast.requested (multicast.ofClient validatingSnooper))
          + length [2; 3])%nat
    /\ multicast.eventCh s' = multicast.eventCh validatingSnooper.
Proof.
  apply (queryIGMP_stops_at_unsupported_version wholeSeconds validatingSnooper
           [225; 1; 2; 3] [2; 3] 4 [1]).
  - repeat constructor; unfold multicast.supported; lia.
  - unfold multicast.supported. lia.
  - intros h p. reflexivity.
Defined.

Lemma queryIGMP_stops_at_refused_send_witness :
  exists s',
    multicast.queryIGMP wholeSeconds [225; 1; 2; 3] ([1] ++ 2 :: [3])
      (multicast.withOfClient refusingSecondSend validatingSnooper)
    = (Some (DriverError "connection lost"), s')
    /\ length (multicast.requested (multicast.ofClient s'))
       = (length (multicast.requested
                    (multicast.ofClient
                       (multicast.withOfClient refusingSecondSend validatingSnooper)))
          + length [1] + 1)%nat
    /\ (exists p, last (multicast.requested (multicast.ofClient s'))
                  = Some (p, Some (DriverError "connection lost")))
    /\ multicast.eventCh s'
       = multicast.eventCh (multicast.withOfClient refusingSecondSend validatingSnooper).
Proof.
  apply (queryIGMP_stops_at_refused_send wholeSeconds
           (multicast.withOfClient refusingSecondSend validatingSnooper)
           [225; 1; 2; 3] [1] 2 [3] (DriverError "connection lost")).
  - repeat constructor; unfold multicast.supported; lia.
  - unfold multicast.supported. lia.
  - intros h p Hh. cbn in Hh. cbn.
    destruct (Nat.eqb_spec (length h) 1); [lia|reflexivity].
  - intros h p Hh. cbn in Hh. cbn. rewrite Hh. reflexivity.
Defined.
